(** * Productivity grade calendar: the script and its specification

    A shallow embedding of [script.js].  The script builds a month grid
    in the page, reads and writes one grade per day in [localStorage], and
    moves between months with two buttons.  Everything the script calls
    on the platform is modelled from the standards that define it:
    - [Date] from ECMA-262, section "Date Objects" (the abstract
      operations keep their names: [Day], [DayFromYear], [MakeDay], ...);
    - [DOMTokenList], [select] and [Storage] from the DOM and HTML
      standards.

    Numbers: every Number the script handles is an integer or NaN, so a
    Number is an [option Z] with [None] for NaN.  All integers that occur
    while a [Date] is valid are below 2^53 in size, where double
    arithmetic is exact and [toString] prints every digit; the model is
    that of the script for such Numbers.

    Time zone: the [Date] operations of [ES] take the host's zone to be
    one constant offset from UTC.  The statements about the days and
    weekdays of a month and about navigation are statements for such a
    host; [Zone], further down, has the rule of ECMA-262 for a zone whose
    offset changes, and shows what then becomes of them.

    Strings are Rocq strings (sequences of 8-bit characters);
    [toLowerCase] maps the letters A-Z and leaves every other character
    alone, as the JavaScript function does on ASCII text. *)

From Stdlib Require Import ZArith Lia Ascii String DecimalString DecimalZ.
From stdpp Require Import gmap strings list.

Local Open Scope Z_scope.

(** ** Numbers *)

Definition number := option Z.
Definition NaN : number := None.

Definition num_add (a b : number) : number :=
  match a, b with Some x, Some y => Some (x + y) | _, _ => None end.

Definition num_sub (a b : number) : number :=
  match a, b with Some x, Some y => Some (x - y) | _, _ => None end.

(** [a <= b] and [a < b] on Numbers; a comparison with NaN is false. *)
Definition num_leb (a b : number) : bool :=
  match a, b with Some x, Some y => x <=? y | _, _ => false end.

Definition num_ltb (a b : number) : bool :=
  match a, b with Some x, Some y => x <? y | _, _ => false end.

(** [Math.ceil(a / b)] for an integer [a] and a positive integer [b]:
    the ceiling of the exact quotient.  (The script divides a sum below
    40 by 7; the double nearest to such a quotient is an integer only
    when the quotient is.) *)
Definition Math_ceil_div (a : number) (b : Z) : number :=
  match a with Some x => Some (- ((- x) / b)) | None => None end.

(** ** Strings *)

(** [Number::toString] (radix 10) on NaN and on an integer below 2^53 in
    size: such an integer is a Number of its own and prints with all its
    digits, in plain decimal with a minus sign when negative.  (Beyond
    2^53 the function prints the shortest digits that read back as the
    same Number, and an exponent from 10^21 on; that is not modelled.
    Every year of a valid [Date] has at most six digits.) *)
Definition Number_toString (n : number) : string :=
  match n with
  | Some z => NilEmpty.string_of_int (Z.to_int z)
  | None => "NaN"
  end.

Fixpoint repeat_char (c : ascii) (n : nat) : string :=
  match n with
  | O => EmptyString
  | S n' => String c (repeat_char c n')
  end.

(** [s.padStart(maxLength, c)] with a one-character filler. *)
Definition padStart (s : string) (maxLength : nat) (c : ascii) : string :=
  if (maxLength <=? String.length s)%nat then s
  else repeat_char c (maxLength - String.length s) +:+ s.

Definition ascii_toLowerCase (c : ascii) : ascii :=
  let n := nat_of_ascii c in
  if ((65 <=? n) && (n <=? 90))%nat then ascii_of_nat (n + 32) else c.

Fixpoint toLowerCase (s : string) : string :=
  match s with
  | EmptyString => EmptyString
  | String c s' => String (ascii_toLowerCase c) (toLowerCase s')
  end.

(** ASCII whitespace of the DOM standard: TAB, LF, FF, CR and SPACE. *)
Definition is_ascii_whitespace (c : ascii) : bool :=
  let n := nat_of_ascii c in
  ((n =? 9) || (n =? 10) || (n =? 12) || (n =? 13) || (n =? 32))%nat.

Fixpoint has_ascii_whitespace (s : string) : bool :=
  match s with
  | EmptyString => false
  | String c s' => is_ascii_whitespace c || has_ascii_whitespace s'
  end.

(** ** ECMAScript dates *)

Module ES.

Definition msPerDay : Z := 86400000.

Definition Day (t : Z) : Z := t / msPerDay.
Definition TimeWithinDay (t : Z) : Z := t mod msPerDay.

Definition DaysInYear (y : Z) : Z :=
  if negb (y mod 4 =? 0) then 365
  else if negb (y mod 100 =? 0) then 366
  else if negb (y mod 400 =? 0) then 365
  else 366.

Definition DayFromYear (y : Z) : Z :=
  365 * (y - 1970) + (y - 1969) / 4 - (y - 1901) / 100 + (y - 1601) / 400.

Definition TimeFromYear (y : Z) : Z := msPerDay * DayFromYear y.

(** The year of day number [d].  ECMA-262 defines [YearFromTime t] as
    the largest [y] with [TimeFromYear y <= t]; this computes it from
    the mean year length and one correction step
    ([YearFromTime_largest] below proves that it is that year). *)
Definition YearFromDay (d : Z) : Z :=
  let y := 1970 + (400 * d) / 146097 in
  if d <? DayFromYear y then y - 1
  else if DayFromYear (y + 1) <=? d then y + 1
  else y.

Definition YearFromTime (t : Z) : Z := YearFromDay (Day t).

Definition InLeapYear (t : Z) : Z :=
  if DaysInYear (YearFromTime t) =? 366 then 1 else 0.

Definition DayWithinYear (t : Z) : Z := Day t - DayFromYear (YearFromTime t).

Definition MonthFromTime (t : Z) : Z :=
  let d := DayWithinYear t in
  let l := InLeapYear t in
  if d <? 31 then 0
  else if d <? 59 + l then 1
  else if d <? 90 + l then 2
  else if d <? 120 + l then 3
  else if d <? 151 + l then 4
  else if d <? 181 + l then 5
  else if d <? 212 + l then 6
  else if d <? 243 + l then 7
  else if d <? 273 + l then 8
  else if d <? 304 + l then 9
  else if d <? 334 + l then 10
  else 11.

Definition DateFromTime (t : Z) : Z :=
  let d := DayWithinYear t in
  let l := InLeapYear t in
  match MonthFromTime t with
  | 0 => d + 1
  | 1 => d - 30
  | 2 => d - 58 - l
  | 3 => d - 89 - l
  | 4 => d - 119 - l
  | 5 => d - 150 - l
  | 6 => d - 180 - l
  | 7 => d - 211 - l
  | 8 => d - 242 - l
  | 9 => d - 272 - l
  | 10 => d - 303 - l
  | _ => d - 333 - l
  end.

Definition WeekDay (t : Z) : Z := (Day t + 4) mod 7.

(** Day within the year on which month [mn] (0..11) starts; [l] is 1 in
    a leap year and 0 otherwise. *)
Definition DayOfMonthStart (mn l : Z) : Z :=
  match mn with
  | 0 => 0
  | 1 => 31
  | 2 => 59 + l
  | 3 => 90 + l
  | 4 => 120 + l
  | 5 => 151 + l
  | 6 => 181 + l
  | 7 => 212 + l
  | 8 => 243 + l
  | 9 => 273 + l
  | 10 => 304 + l
  | _ => 334 + l
  end.

(** [MakeDay(year, month, date)].  The standard asks for the time value
    [t] with [YearFromTime t = ym], [MonthFromTime t = mn] and
    [DateFromTime t = 1]; its day number is computed here
    ([MakeDay_first_of_month] proves the three equations).  A result
    beyond the range of time values becomes NaN in [TimeClip]. *)
Definition MakeDay (year month date : number) : number :=
  match year, month, date with
  | Some y, Some m, Some dt =>
      let ym := y + m / 12 in
      let mn := m mod 12 in
      let l := if DaysInYear ym =? 366 then 1 else 0 in
      Some (DayFromYear ym + DayOfMonthStart mn l + dt - 1)
  | _, _, _ => None
  end.

Definition MakeTime (hour min sec ms : Z) : Z :=
  hour * 3600000 + min * 60000 + sec * 1000 + ms.

Definition MakeDate (day : number) (time : Z) : number :=
  match day with Some d => Some (d * msPerDay + time) | None => None end.

(** Years 0 to 99 given to the [Date] constructor mean 1900 to 1999. *)
Definition fullYear (y : Z) : Z :=
  if (0 <=? y) && (y <=? 99) then 1900 + y else y.

Definition MakeFullYear (year : number) : number :=
  match year with
  | Some y => Some (fullYear y)
  | None => None
  end.

Definition TimeClip (time : number) : number :=
  match time with
  | Some t => if 8640000000000000 <? Z.abs t then None else Some t
  | None => None
  end.

Section LocalTimeZone.

(** The host's offset from UTC in milliseconds, taken as constant: a
    zone without daylight-saving time or any other transition, for which
    [LocalTime] adds the offset and [UTC] subtracts it.  In a zone whose
    offset depends on the instant these two are as in [Zone] below. *)
Variable LocalTZA : Z.

Definition LocalTime (t : Z) : Z := t + LocalTZA.

Definition UTC (t : number) : number :=
  match t with Some t => Some (t - LocalTZA) | None => None end.

(** [new Date(year, month, date)]: the time value of the new object. *)
Definition Date_new (year month date : number) : number :=
  let yr := MakeFullYear year in
  let finalDate := MakeDate (MakeDay yr month date) (MakeTime 0 0 0 0) in
  TimeClip (UTC finalDate).

Definition getDay (tv : number) : number :=
  match tv with Some t => Some (WeekDay (LocalTime t)) | None => None end.

Definition getDate (tv : number) : number :=
  match tv with Some t => Some (DateFromTime (LocalTime t)) | None => None end.

Definition getMonth (tv : number) : number :=
  match tv with Some t => Some (MonthFromTime (LocalTime t)) | None => None end.

Definition getFullYear (tv : number) : number :=
  match tv with Some t => Some (YearFromTime (LocalTime t)) | None => None end.

(** [d.setMonth(month)]: the new time value of [d]. *)
Definition setMonth (tv : number) (month : number) : number :=
  match tv with
  | None => None
  | Some t0 =>
      let t := LocalTime t0 in
      let dt := DateFromTime t in
      let newDate :=
        MakeDate (MakeDay (Some (YearFromTime t)) month (Some dt))
                 (TimeWithinDay t) in
      TimeClip (UTC newDate)
  end.

End LocalTimeZone.

End ES.

(** *** A zone whose offset changes

    The host's zone need not keep one offset.  ECMA-262 takes the offset
    in force at the instant for [LocalTime]; for [UTC] it takes the
    earliest instant that shows the local time, and reads a local time
    that the zone skips with the offset in force before the transition.
    Here that rule is written out for a zone with a single transition. *)

Module Zone.

(** The offsets before and after the transition, in milliseconds, and the
    instant (a UTC time value) from which the second one is in force. *)
Record t := mk {
  before : Z;
  transition : Z;
  after : Z
}.

Definition offsetAt (z : t) (u : Z) : Z :=
  if u <? transition z then before z else after z.

Definition LocalTime (z : t) (u : Z) : Z := u + offsetAt z u.

(** The local time [tl] read with the first offset is the instant
    [early], with the second offset the instant [late].  [early] shows
    [tl] when it lies before the transition and [late] when it does not;
    when both do (the local time comes twice) [early] is the earlier one,
    and when neither does (the local time is skipped) the offset before
    the transition is used. *)
Definition UTC (z : t) (tl : number) : number :=
  match tl with
  | Some tl =>
      let early := tl - before z in
      let late := tl - after z in
      Some (if early <? transition z then early
            else if transition z <=? late then late
            else early)
  | None => None
  end.

Definition Date_new (z : t) (year month date : number) : number :=
  let yr := ES.MakeFullYear year in
  let finalDate := ES.MakeDate (ES.MakeDay yr month date) (ES.MakeTime 0 0 0 0) in
  ES.TimeClip (UTC z finalDate).

Definition getDay (z : t) (tv : number) : number :=
  match tv with Some u => Some (ES.WeekDay (LocalTime z u)) | None => None end.

Definition getDate (z : t) (tv : number) : number :=
  match tv with Some u => Some (ES.DateFromTime (LocalTime z u)) | None => None end.

Definition getMonth (z : t) (tv : number) : number :=
  match tv with Some u => Some (ES.MonthFromTime (LocalTime z u)) | None => None end.

Definition setMonth (z : t) (tv : number) (month : number) : number :=
  match tv with
  | None => None
  | Some u =>
      let tl := LocalTime z u in
      let dt := ES.DateFromTime tl in
      let newDate :=
        ES.MakeDate (ES.MakeDay (Some (ES.YearFromTime tl)) month (Some dt))
                    (ES.TimeWithinDay tl) in
      ES.TimeClip (UTC z newDate)
  end.

(** Pacific/Kiritimati at the end of 1994: ten hours behind UTC up to the
    end of 30 December, fourteen hours ahead from then on, so that the
    zone has no 31 December 1994. *)
Definition Kiritimati : t :=
  {| before := -36000000; transition := 788868000000; after := 50400000 |}.

(** Pacific/Apia at the end of 2011: the same change of offset, and no
    30 December 2011. *)
Definition Apia : t :=
  {| before := -36000000; transition := 1325239200000; after := 50400000 |}.

(** Pacific/Kwajalein in August 1993: from twelve hours behind UTC to
    twelve hours ahead, and no 21 August 1993. *)
Definition Kwajalein : t :=
  {| before := -43200000; transition := 745934400000; after := 43200000 |}.

(** America/New_York in March 2024: daylight-saving time starts on
    10 March at 2 in the morning, which becomes 3. *)
Definition New_York : t :=
  {| before := -18000000; transition := 1710054000000; after := -14400000 |}.

End Zone.

(** ** The DOM and the store *)

Module DOM.

Inductive DOMException := SyntaxError | InvalidCharacterError.

(** The result of a call that may throw. *)
Inductive completion (A : Type) : Type :=
| Done (a : A)
| Thrown (e : DOMException).
Arguments Done {A} a.
Arguments Thrown {A} e.

Definition andThen {A B : Type} (c : completion A) (k : A -> completion B)
  : completion B :=
  match c with
  | Done a => k a
  | Thrown e => Thrown e
  end.

(** *** [DOMTokenList] ([element.classList]): an ordered set of tokens *)

(** [add] and [remove] first check every token: the empty string throws
    a SyntaxError, a token with ASCII whitespace an
    InvalidCharacterError. *)
Definition validate_token (token : string) : completion unit :=
  if String.eqb token "" then Thrown SyntaxError
  else if has_ascii_whitespace token then Thrown InvalidCharacterError
  else Done tt.

Fixpoint validate_tokens (tokens : list string) : completion unit :=
  match tokens with
  | [] => Done tt
  | token :: rest => andThen (validate_token token) (fun _ => validate_tokens rest)
  end.

Definition token_in (token : string) (tokens : list string) : bool :=
  existsb (String.eqb token) tokens.

Definition classList_add (classList : list string) (token : string)
  : completion (list string) :=
  andThen (validate_token token) (fun _ =>
  Done (if token_in token classList then classList else classList ++ [token])).

Definition classList_remove (classList : list string) (tokens : list string)
  : completion (list string) :=
  andThen (validate_tokens tokens) (fun _ =>
  Done (List.filter (fun c => negb (token_in c tokens)) classList)).

(** *** [select] and [option] elements *)

Record HTMLOptionElement := mkOption {
  opt_value : string;
  opt_textContent : string
}.

(** A single-choice [select].  [selectedIndex] is the index of the
    option whose selectedness is true, [None] when there is none (the
    [-1] of the DOM). *)
Record HTMLSelectElement := mkSelect {
  sel_className : string;
  sel_ariaLabel : string;
  sel_options : list HTMLOptionElement;
  selectedIndex : option nat
}.

(** [select.appendChild(option)].  After an insertion the selectedness
    setting algorithm selects the first option when none is selected. *)
Definition select_appendChild (s : HTMLSelectElement) (o : HTMLOptionElement)
  : HTMLSelectElement :=
  {| sel_className := sel_className s;
     sel_ariaLabel := sel_ariaLabel s;
     sel_options := sel_options s ++ [o];
     selectedIndex :=
       match selectedIndex s with
       | Some i => Some i
       | None => Some 0%nat
       end |}.

(** Getter of [select.value]: the value of the selected option, or the
    empty string when no option is selected. *)
Definition select_value (s : HTMLSelectElement) : string :=
  match selectedIndex s with
  | Some i =>
      match nth_error (sel_options s) i with
      | Some o => opt_value o
      | None => ""
      end
  | None => ""
  end.

Fixpoint index_of_value (v : string) (os : list HTMLOptionElement) : option nat :=
  match os with
  | [] => None
  | o :: rest =>
      if String.eqb (opt_value o) v then Some 0%nat
      else match index_of_value v rest with
           | Some i => Some (S i)
           | None => None
           end
  end.

(** Setter of [select.value]: every option is deselected, then the first
    option whose value equals [v] is selected, if there is one. *)
Definition select_set_value (s : HTMLSelectElement) (v : string)
  : HTMLSelectElement :=
  {| sel_className := sel_className s;
     sel_ariaLabel := sel_ariaLabel s;
     sel_options := sel_options s;
     selectedIndex := index_of_value v (sel_options s) |}.

(** *** The calendar's table cells *)

(** What the script puts into the cell of a day of the month: the
    [div.day-number] showing [dayNumber] in decimal, the grade
    [select], and the change listener, a closure over [dateStr]. *)
Record DayContent := mkDayContent {
  dayNumber : Z;
  selectEl : HTMLSelectElement;
  dateStr : string
}.

Record HTMLTableCellElement := mkTd {
  classList : list string;
  content : option DayContent
}.

(** [document.createElement('td')] *)
Definition createElement_td : HTMLTableCellElement :=
  {| classList := []; content := None |}.

(** The two places of the page the script writes to. *)
Record Document := mkDocument {
  monthYearText : string;
  calendarBody : list (list HTMLTableCellElement)
}.

End DOM.

Import DOM.

(** [localStorage]: a map from key strings to value strings.  [getItem]
    is lookup ([None] for [null]), [setItem] is insert, [removeItem] is
    delete.  The store is taken to be available and never full. *)
Abbreviation Storage := (gmap string string).

Definition getItem (ls : Storage) (key : string) : option string := ls !! key.
Definition setItem (ls : Storage) (key value : string) : Storage := <[key := value]> ls.
Definition removeItem (ls : Storage) (key : string) : Storage := delete key ls.

(** Truthiness of a string or [null]: only the non-empty string is true. *)
Definition truthy (v : option string) : bool :=
  match v with
  | Some s => negb (String.eqb s "")
  | None => false
  end.

(** ** The script *)

Definition monthNames : list string :=
  ["January"; "February"; "March"; "April"; "May"; "June";
   "July"; "August"; "September"; "October"; "November"; "December"]%string.

(** [`${monthNames[month]}`]: an index that is not in the array gives
    [undefined]. *)
Definition monthNames_at (month : number) : string :=
  match month with
  | Some m =>
      if m <? 0 then "undefined"
      else match nth_error monthNames (Z.to_nat m) with
           | Some name => name
           | None => "undefined"
           end
  | None => "undefined"
  end.

Definition pad (num : number) : string :=
  padStart (Number_toString num) 2 "0".

(** Line 71: [`${year}-${pad(month + 1)}-${pad(day)}`]. *)
Definition dateStr_of (year month : number) (day : Z) : string :=
  Number_toString year +:+ "-" +:+ pad (num_add month (Some 1))
                       +:+ "-" +:+ pad (Some day).

Definition applyGradeClass (cell : HTMLTableCellElement) (grade : string)
  : completion HTMLTableCellElement :=
  let gradeClass := "grade-" +:+ toLowerCase grade in
  andThen (classList_add (classList cell) gradeClass) (fun cl =>
  Done {| classList := cl; content := content cell |}).

Definition gradeClasses : list string :=
  ["grade-s"; "grade-a"; "grade-b"; "grade-c"; "grade-d"; "grade-f"]%string.

Definition removeGradeClasses (cell : HTMLTableCellElement)
  : completion HTMLTableCellElement :=
  andThen (classList_remove (classList cell) gradeClasses) (fun cl =>
  Done {| classList := cl; content := content cell |}).

Definition grades : list string := ["S"; "A"; "B"; "C"; "D"; "F"]%string.

(** The change listener of the cell [td] whose closure holds [dateStr],
    run with [e.target.value = selectedGrade].  It returns the store and
    the cell as the listener leaves them, and the exception if one
    escapes. *)
Definition changeListener (ls : Storage) (td : HTMLTableCellElement)
    (dateStr : string) (selectedGrade : string)
  : Storage * HTMLTableCellElement * option DOMException :=
  match removeGradeClasses td with
  | Thrown e => (ls, td, Some e)
  | Done td =>
      if truthy (Some selectedGrade) then
        match applyGradeClass td selectedGrade with
        | Thrown e => (ls, td, Some e)
        | Done td => (setItem ls dateStr selectedGrade, td, None)
        end
      else (removeItem ls dateStr, td, None)
  end.

(** The state of the page: [currentDate] holds the time value of the
    script's [Date] object. *)
Record Page := mkPage {
  currentDate : number;
  localStorage : Storage;
  document : Document
}.

Section Script.

Variable LocalTZA : Z.

(** Lines 48 and 49: the [Date] constructor and getters at the host's
    offset. *)
Definition firstDay_of (month year : number) : number :=
  ES.getDay LocalTZA (ES.Date_new LocalTZA year month (Some 1)).

Definition daysInMonth_of (month year : number) : number :=
  ES.getDate LocalTZA (ES.Date_new LocalTZA year (num_add month (Some 1)) (Some 0)).

Section BuildCalendar.

Variable ls : Storage.
Variables month year : number.

(** The body of [if (cellIndex >= firstDay && dayCounter <= daysInMonth)],
    lines 70 to 122, for [day = dayCounter]: the finished cell. *)
Definition buildDayCell (td : HTMLTableCellElement) (day : Z)
  : completion HTMLTableCellElement :=
  let dateStr := dateStr_of year month day in
  let selectEl :=
    {| sel_className := "grade-select";
       sel_ariaLabel := "Select grade for " +:+ dateStr;
       sel_options := [];
       selectedIndex := None |} in
  let defaultOption := {| opt_value := ""; opt_textContent := "Grade" |} in
  let selectEl := select_appendChild selectEl defaultOption in
  let selectEl :=
    fold_left (fun s grade =>
                 select_appendChild s {| opt_value := grade; opt_textContent := grade |})
              grades selectEl in
  let savedGrade := getItem ls dateStr in
  andThen
    (match savedGrade with
     | Some g =>
         if truthy savedGrade then
           let selectEl := select_set_value selectEl g in
           andThen (applyGradeClass td g) (fun td => Done (selectEl, td))
         else Done (selectEl, td)
     | None => Done (selectEl, td)
     end)
    (fun '(selectEl, td) =>
  Done {| classList := classList td;
          content := Some {| dayNumber := day;
                             selectEl := selectEl;
                             dateStr := dateStr |} |}).

Variables firstDay daysInMonth : number.

(** [for (let col = 0; col < 7; col++)] on row [row]; the state is the
    row built so far and [dayCounter]. *)
Fixpoint colLoop (fuel : nat) (row col : Z)
    (tr : list HTMLTableCellElement) (dayCounter : Z)
  : completion (list HTMLTableCellElement * Z) :=
  match fuel with
  | O => Done (tr, dayCounter)
  | S fuel' =>
      if col <? 7 then
        let td := createElement_td in
        let cellIndex := row * 7 + col in
        andThen
          (if num_leb firstDay (Some cellIndex)
              && num_leb (Some dayCounter) daysInMonth
           then andThen (buildDayCell td dayCounter) (fun td =>
                Done (td, dayCounter + 1))
           else Done (td, dayCounter))
          (fun '(td, dayCounter) =>
        colLoop fuel' row (col + 1) (tr ++ [td]) dayCounter)
      else Done (tr, dayCounter)
  end.

(** [for (let row = 0; row < rowCount; row++)]; the state is the table
    body and [dayCounter].  A row reaches the body only when all its
    seven cells are built. *)
Fixpoint rowLoop (fuel : nat) (rowCount : number) (row : Z)
    (body : list (list HTMLTableCellElement)) (dayCounter : Z)
  : list (list HTMLTableCellElement) * option DOMException :=
  match fuel with
  | O => (body, None)
  | S fuel' =>
      if num_ltb (Some row) rowCount then
        match colLoop 7 row 0 [] dayCounter with
        | Thrown e => (body, Some e)
        | Done (tr, dayCounter) =>
            rowLoop fuel' rowCount (row + 1) (body ++ [tr]) dayCounter
        end
      else (body, None)
  end.

End BuildCalendar.

(** [buildCalendar(month, year)] on the page [doc] with the store [ls]:
    the page it leaves, and the exception if one escapes.  The row loop
    runs [rowCount] times, so that is its fuel. *)
Definition buildCalendar (ls : Storage) (month year : number) (doc : Document)
  : Document * option DOMException :=
  let doc := {| monthYearText := monthYearText doc; calendarBody := [] |} in
  let doc := {| monthYearText := monthNames_at month +:+ " " +:+ Number_toString year;
                calendarBody := calendarBody doc |} in
  let firstDay := firstDay_of month year in
  let daysInMonth := daysInMonth_of month year in
  let dayCounter := 1 in
  let totalCells := num_add firstDay daysInMonth in
  let rowCount := Math_ceil_div totalCells 7 in
  let fuel := match rowCount with Some n => Z.to_nat n | None => O end in
  let '(body, exn) :=
    rowLoop ls month year firstDay daysInMonth fuel rowCount 0
            (calendarBody doc) dayCounter in
  ({| monthYearText := monthYearText doc; calendarBody := body |}, exn).

(** *** The events of the page *)

(** [buildCalendar(currentDate.getMonth(), currentDate.getFullYear())] *)
Definition rebuild (currentDate : number) (p : Page) : Page * option DOMException :=
  let '(doc, exn) :=
    buildCalendar (localStorage p)
                  (ES.getMonth LocalTZA currentDate)
                  (ES.getFullYear LocalTZA currentDate)
                  (document p) in
  ({| currentDate := currentDate; localStorage := localStorage p; document := doc |},
   exn).

Definition prevMonthClick (p : Page) : Page * option DOMException :=
  let d := currentDate p in
  rebuild (ES.setMonth LocalTZA d (num_sub (ES.getMonth LocalTZA d) (Some 1))) p.

Definition nextMonthClick (p : Page) : Page * option DOMException :=
  let d := currentDate p in
  rebuild (ES.setMonth LocalTZA d (num_add (ES.getMonth LocalTZA d) (Some 1))) p.

Definition DOMContentLoaded (p : Page) : Page * option DOMException :=
  rebuild (currentDate p) p.

End Script.

(** The user picks option number [i] in the [select] of the cell at
    ([row], [col]): the option becomes the selected one and the change
    listener of that cell runs with [e.target] the [select]. *)
Definition selectOption (p : Page) (row col i : nat) : Page * option DOMException :=
  match calendarBody (document p) !! row with
  | Some tr =>
      match tr !! col with
      | Some td =>
          match content td with
          | Some c =>
              if (i <? length (sel_options (selectEl c)))%nat then
                let sel := {| sel_className := sel_className (selectEl c);
                              sel_ariaLabel := sel_ariaLabel (selectEl c);
                              sel_options := sel_options (selectEl c);
                              selectedIndex := Some i |} in
                let td := {| classList := classList td;
                             content := Some {| dayNumber := dayNumber c;
                                                selectEl := sel;
                                                dateStr := dateStr c |} |} in
                let '(ls, td, exn) :=
                  changeListener (localStorage p) td (dateStr c) (select_value sel) in
                ({| currentDate := currentDate p;
                    localStorage := ls;
                    document :=
                      {| monthYearText := monthYearText (document p);
                         calendarBody :=
                           <[row := <[col := td]> tr]> (calendarBody (document p)) |} |},
                 exn)
              else (p, None)
          | None => (p, None)
          end
      | None => (p, None)
      end
  | None => (p, None)
  end.

(** The events the script listens to: [DOMContentLoaded], a click on
    one of the two buttons, and a change of the [select] of the cell at
    ([row], [col]) to its option number [i]. *)
Inductive Event :=
| Load
| PrevMonth
| NextMonth
| Change (row col i : nat).

Definition handle (LocalTZA : Z) (ev : Event) (p : Page) : Page * option DOMException :=
  match ev with
  | Load => DOMContentLoaded LocalTZA p
  | PrevMonth => prevMonthClick LocalTZA p
  | NextMonth => nextMonthClick LocalTZA p
  | Change row col i => selectOption p row col i
  end.

(** ** The specification's side *)

(** The leap-year rule in the words of the specification. *)
Definition is_leap_year (year : Z) : bool :=
  (year mod 4 =? 0) && (negb (year mod 100 =? 0) || (year mod 400 =? 0)).

(** Length of month [month] (0 = January) of [year] in the proleptic
    Gregorian calendar. *)
Definition gregorian_daysInMonth (year month : Z) : Z :=
  match month with
  | 1 => if is_leap_year year then 29 else 28
  | 3 | 5 | 8 | 10 => 30
  | _ => 31
  end.

(** Weekday (0 = Sunday .. 6 = Saturday) of a date of the proleptic
    Gregorian calendar, by the usual congruence on the year counted from
    March, independent of any day count from 1970. *)
Definition gregorian_weekday (year month day : Z) : Z :=
  let y := if month <? 2 then year - 1 else year in
  let shift :=
    match month with
    | 0 => 0 | 1 => 3 | 2 => 2 | 3 => 5 | 4 => 0 | 5 => 3
    | 6 => 5 | 7 => 1 | 8 => 4 | 9 => 6 | 10 => 2 | _ => 4
    end in
  (y + y / 4 - y / 100 + y / 400 + shift + day) mod 7.

(** The months all of whose days lie within the time values a [Date] can
    hold, 100,000,000 days either side of 1 January 1970: May -271821 to
    August 275760. *)
Definition in_Date_range (year month : Z) : Prop :=
  -271821 * 12 + 4 <= year * 12 + month <= 275760 * 12 + 7.

(** The host's zone is one constant offset from UTC, below a day in size
    as the offsets of real zones are. *)
Definition zone_offset (tza : Z) : Prop := - ES.msPerDay < tza < ES.msPerDay.

(** No value that the store holds under a date key of the month, the
    keys of the days 1 to 31, has ASCII whitespace in it. *)
Definition whitespace_free (ls : Storage) (month year : number) : Prop :=
  forall day, 1 <= day <= 31 ->
  forall v, getItem ls (dateStr_of year month day) = Some v ->
            has_ascii_whitespace v = false.

(** The specification's [GradeRecord]: every stored value is one of the
    six grade symbols. *)
Definition GradeRecord (ls : Storage) : Prop :=
  map_Forall (fun _ v => v ∈ grades) ls.

Definition td_day (td : HTMLTableCellElement) : option Z :=
  dayNumber <$> content td.

Definition td_dateKey (td : HTMLTableCellElement) : option string :=
  dateStr <$> content td.

(** The cells of a grid, left to right, then top to bottom. *)
Definition cells (doc : Document) : list HTMLTableCellElement :=
  concat (calendarBody doc).

(** A grid lays out a month that starts on weekday [firstWeekday] and has
    [days] days: rows of seven cells which, read in order, are
    [firstWeekday] empty cells, the days 1, 2, .. [days], and empty cells
    to the end of the last row. *)
Definition lays_out (doc : Document) (firstWeekday days : Z) : Prop :=
  Forall (fun tr => length tr = 7%nat) (calendarBody doc) /\
  exists trailing : nat,
    td_day <$> cells doc =
    replicate (Z.to_nat firstWeekday) None
      ++ (Some <$> seqZ 1 days) ++ replicate trailing None.

Definition digit (d : Z) : ascii := ascii_of_nat (48 + Z.to_nat d).

Definition two_digits (n : Z) : string :=
  String (digit (n / 10)) (String (digit (n mod 10)) "").

Definition four_digits (n : Z) : string :=
  String (digit (n / 1000)) (String (digit (n / 100 mod 10)) (two_digits (n mod 100))).

(** The key [YYYY-MM-DD] of day [day] of month [month] (0 = January). *)
Definition YYYY_MM_DD (year month day : Z) : string :=
  four_digits year +:+ "-" +:+ two_digits (month + 1) +:+ "-" +:+ two_digits day.

(** The shape alone: ten characters, digits but for two hyphens. *)
Definition is_digit (c : ascii) : bool :=
  let n := nat_of_ascii c in ((48 <=? n) && (n <=? 57))%nat.

Definition has_shape_YYYY_MM_DD (s : string) : bool :=
  match list_ascii_of_string s with
  | [y3; y2; y1; y0; h1; m1; m0; h2; d1; d0] =>
      forallb is_digit [y3; y2; y1; y0; m1; m0; d1; d0]
      && Ascii.eqb h1 "-" && Ascii.eqb h2 "-"
  | _ => false
  end.

(** The seven classifications of a cell and the class tokens of each. *)
Inductive Classification :=
| none | grade_s | grade_a | grade_b | grade_c | grade_d | grade_f.

Definition classes_of (k : Classification) : list string :=
  match k with
  | none => []
  | grade_s => ["grade-s"]
  | grade_a => ["grade-a"]
  | grade_b => ["grade-b"]
  | grade_c => ["grade-c"]
  | grade_d => ["grade-d"]
  | grade_f => ["grade-f"]
  end%string.

(** The classification that goes with a value of the choice control or
    of the store: blank or absent is [none]; there is none for a value
    outside the six symbols. *)
Definition classify (v : option string) : option Classification :=
  match v with
  | None => Some none
  | Some s =>
      if String.eqb s "" then Some none
      else if String.eqb s "S" then Some grade_s
      else if String.eqb s "A" then Some grade_a
      else if String.eqb s "B" then Some grade_b
      else if String.eqb s "C" then Some grade_c
      else if String.eqb s "D" then Some grade_d
      else if String.eqb s "F" then Some grade_f
      else None
  end.

(** States of the page: from a page whose store is a [GradeRecord] and
    whose table body is still empty (the script has built no cell yet),
    any sequence of events. *)
Inductive reachable (LocalTZA : Z) : Page -> Prop :=
| reachable_start p :
    GradeRecord (localStorage p) -> calendarBody (document p) = [] ->
    reachable LocalTZA p
| reachable_event p ev :
    reachable LocalTZA p -> reachable LocalTZA (fst (handle LocalTZA ev p)).

(** ** Closed forms of what the loops build *)

(** The seven options every grade [select] is given, and the [select] of
    the day with key [dateStr] once option [sel] is the selected one. *)
Definition gradeOptions : list HTMLOptionElement :=
  {| opt_value := ""; opt_textContent := "Grade" |}
    :: map (fun g => {| opt_value := g; opt_textContent := g |}) grades.

Definition gradeSelect (dateStr : string) (sel : option nat) : HTMLSelectElement :=
  {| sel_className := "grade-select";
     sel_ariaLabel := "Select grade for " +:+ dateStr;
     sel_options := gradeOptions;
     selectedIndex := sel |}.

(** The cell of day [day] when building it does not throw. *)
Definition dayCellOf (ls : Storage) (month year : number) (day : Z)
  : HTMLTableCellElement :=
  match buildDayCell ls month year createElement_td day with
  | Done td => td
  | Thrown _ => createElement_td
  end.

(** The cell at linear index [i] of a month that starts in column [f]
    and has [n] days, and the value of [dayCounter] on reaching it. *)
Definition cellAt (ls : Storage) (month year : number) (f n i : Z)
  : HTMLTableCellElement :=
  if (f <=? i) && (i <? f + n) then dayCellOf ls month year (i - f + 1)
  else createElement_td.

Definition dayCounterAt (f n i : Z) : Z := 1 + Z.min (Z.max (i - f) 0) n.

Definition rowAt (ls : Storage) (month year : number) (f n row : Z)
  : list HTMLTableCellElement :=
  cellAt ls month year f n <$> seqZ (row * 7) 7.

(** Column of day 1, number of days and number of cells of the grid of
    ([month], [year]); no cell when one of the two [Date]s is invalid. *)
Definition gridShape (LocalTZA : Z) (month year : number) : Z * Z * Z :=
  match firstDay_of LocalTZA month year, daysInMonth_of LocalTZA month year with
  | Some f, Some n => (f, n, 7 * - (- (f + n) / 7))
  | _, _ => (0, 0, 0)
  end.

(** The class list that [buildCalendar] gives the cell of a day whose
    key holds [saved] in the store. *)
Definition savedClasses (saved : option string) : list string :=
  match saved with
  | Some g => if String.eqb g "" then [] else ["grade-" +:+ toLowerCase g]
  | None => []
  end.

(** In the grid [doc] there is a cell with the date key [key], and every
    such cell has exactly the classes [cl]. *)
Definition cell_classified_as (doc : Document) (key : string) (cl : list string)
  : Prop :=
  (exists td, td ∈ cells doc /\ td_dateKey td = Some key) /\
  (forall td, td ∈ cells doc -> td_dateKey td = Some key -> classList td = cl).

(** A cell carries exactly one of the seven classifications when its
    class list is that of one classification (and so of no other). *)
Definition exactly_one_classification (td : HTMLTableCellElement) : Prop :=
  exists k, classList td = classes_of k /\
            forall k', classList td = classes_of k' -> k' = k.

(** What the events keep true of every cell: a cell with a day has the
    seven options in its [select] and one classification. *)
Definition cell_invariant (td : HTMLTableCellElement) : Prop :=
  forall c, content td = Some c ->
    sel_options (selectEl c) = gradeOptions /\ exactly_one_classification td.

Definition page_invariant (p : Page) : Prop :=
  GradeRecord (localStorage p) /\
  Forall (Forall cell_invariant) (calendarBody (document p)).

(** The page before the script has written to it. *)
Definition emptyDocument : Document :=
  {| monthYearText := ""; calendarBody := [] |}.

(** ** Pages over time *)

(** The grid on the page is the one [buildCalendar] builds from the
    store as it is now, for the month and year of [currentDate]. *)
Definition shows_store (LocalTZA : Z) (p : Page) : Prop :=
  document p
  = (buildCalendar LocalTZA (localStorage p)
       (ES.getMonth LocalTZA (currentDate p)) (ES.getFullYear LocalTZA (currentDate p))
       (document p)).1.

(** The page after a sequence of events, each handled in turn. *)
Definition run (LocalTZA : Z) (evs : list Event) (p : Page) : Page :=
  fold_left (fun p ev => (handle LocalTZA ev p).1) evs p.

(** By how many months an event asks [currentDate] to move, and the sum
    over a sequence of events. *)
Definition month_shift (ev : Event) : Z :=
  match ev with
  | NextMonth => 1
  | PrevMonth => -1
  | Load | Change _ _ _ => 0
  end.

Definition net_months (evs : list Event) : Z :=
  foldr (fun ev k => month_shift ev + k) 0 evs.

(** The month after ([year], [month]) and the month before it. *)
Definition month_after (year month : Z) : Z * Z :=
  if month =? 11 then (year + 1, 0) else (year, month + 1).

Definition month_before (year month : Z) : Z * Z :=
  if month =? 0 then (year - 1, 11) else (year, month - 1).

(** Where [setMonth] lands when it is asked for the month ([ym], [mn])
    with the day of the month [dt]: in that month when it has a day [dt],
    and otherwise [dt] minus the length of that month days into the month
    after it. *)
Definition lands_in (target : Z * Z) (dt : Z) : Z * Z * Z :=
  let '(ym, mn) := target in
  if dt <=? gregorian_daysInMonth ym mn then (ym, mn, dt)
  else (month_after ym mn, dt - gregorian_daysInMonth ym mn).

(** * Proofs *)

(** ** Calendar arithmetic *)

(** Goals with [/] and [mod] by constants: name the quotients and
    remainders, then linear arithmetic. *)
Ltac zdiv := Z.to_euclidean_division_equations; lia.

Lemma DaysInYear_leap y :
  ES.DaysInYear y = if is_leap_year y then 366 else 365.
Proof.
  unfold ES.DaysInYear, is_leap_year.
  destruct (y mod 4 =? 0), (y mod 100 =? 0), (y mod 400 =? 0); reflexivity.
Qed.

Lemma DayFromYear_succ y :
  ES.DayFromYear (y + 1) = ES.DayFromYear y + ES.DaysInYear y.
Proof.
  rewrite DaysInYear_leap. unfold ES.DayFromYear, is_leap_year.
  destruct (Z.eqb_spec (y mod 4) 0), (Z.eqb_spec (y mod 100) 0),
    (Z.eqb_spec (y mod 400) 0); cbn [negb andb orb]; zdiv.
Qed.

Lemma DayFromYear_lt y1 y2 :
  y1 < y2 -> ES.DayFromYear y1 + 365 * (y2 - y1) <= ES.DayFromYear y2.
Proof. unfold ES.DayFromYear. zdiv. Qed.

Lemma YearFromDay_spec d :
  ES.DayFromYear (ES.YearFromDay d) <= d < ES.DayFromYear (ES.YearFromDay d + 1).
Proof.
  unfold ES.YearFromDay.
  destruct (Z.ltb_spec d (ES.DayFromYear (1970 + 400 * d / 146097))) as [Hlt|Hge].
  - unfold ES.DayFromYear in *. zdiv.
  - destruct (Z.leb_spec (ES.DayFromYear (1970 + 400 * d / 146097 + 1)) d) as [Hle|Hgt].
    + unfold ES.DayFromYear in *. zdiv.
    + lia.
Qed.

Lemma YearFromDay_unique d y :
  ES.DayFromYear y <= d < ES.DayFromYear (y + 1) -> ES.YearFromDay d = y.
Proof.
  intros Hy. pose proof (YearFromDay_spec d) as Hs.
  destruct (Z.lt_trichotomy (ES.YearFromDay d) y) as [Hlt|[Heq|Hgt]];
    [exfalso|exact Heq|exfalso].
  - pose proof (DayFromYear_lt (ES.YearFromDay d + 1) y).
    destruct (Z.eq_dec (ES.YearFromDay d + 1) y) as [E|]; [rewrite E in Hs|]; lia.
  - pose proof (DayFromYear_lt (y + 1) (ES.YearFromDay d)).
    destruct (Z.eq_dec (y + 1) (ES.YearFromDay d)) as [E|]; [rewrite E in Hy|]; lia.
Qed.

(** [YearFromTime t] is the largest year that starts at or before [t], as
    ECMA-262 defines it. *)
Lemma YearFromTime_largest t :
  ES.TimeFromYear (ES.YearFromTime t) <= t /\
  forall y, ES.TimeFromYear y <= t -> y <= ES.YearFromTime t.
Proof.
  unfold ES.TimeFromYear, ES.YearFromTime.
  pose proof (YearFromDay_spec (ES.Day t)) as [Hlo Hhi].
  unfold ES.Day, ES.msPerDay in *. split.
  - zdiv.
  - intros y Hy.
    destruct (Z.le_gt_cases y (ES.YearFromDay (t / 86400000))) as [|Hgt]; [assumption|].
    exfalso.
    pose proof (DayFromYear_lt (ES.YearFromDay (t / 86400000) + 1) y).
    destruct (Z.eq_dec (ES.YearFromDay (t / 86400000) + 1) y) as [E|];
      [rewrite E in Hhi|]; zdiv.
Qed.

Lemma Day_MakeDate d tw :
  0 <= tw < ES.msPerDay -> ES.Day (d * ES.msPerDay + tw) = d.
Proof. unfold ES.Day, ES.msPerDay. intros. zdiv. Qed.

(** Case analysis on a month index known to lie in 0..11. *)
Ltac month_cases m :=
  let Hc := fresh "Hc" in
  assert (Hc : m = 0 \/ m = 1 \/ m = 2 \/ m = 3 \/ m = 4 \/ m = 5 \/ m = 6
               \/ m = 7 \/ m = 8 \/ m = 9 \/ m = 10 \/ m = 11) by lia;
  destruct Hc as [Hc|[Hc|[Hc|[Hc|[Hc|[Hc|[Hc|[Hc|[Hc|[Hc|[Hc|Hc]]]]]]]]]]];
  subst m.

(** The calendar fields of the [dt]-th day of month [mn] of year [y]. *)
Lemma fields_of_civil_date y mn dt tw :
  0 <= mn <= 11 -> 1 <= dt <= gregorian_daysInMonth y mn ->
  0 <= tw < ES.msPerDay ->
  let l := if is_leap_year y then 1 else 0 in
  let t := (ES.DayFromYear y + ES.DayOfMonthStart mn l + dt - 1) * ES.msPerDay + tw in
  ES.YearFromTime t = y /\ ES.MonthFromTime t = mn /\ ES.DateFromTime t = dt.
Proof.
  intros Hmn Hdt Htw l t.
  assert (Hday : ES.Day t = ES.DayFromYear y + ES.DayOfMonthStart mn l + dt - 1)
    by (apply Day_MakeDate; assumption).
  clearbody t.
  assert (Hl : l = 0 /\ is_leap_year y = false \/ l = 1 /\ is_leap_year y = true)
    by (subst l; destruct (is_leap_year y); auto).
  clearbody l.
  assert (Hyear : ES.YearFromTime t = y).
  { unfold ES.YearFromTime. rewrite Hday. apply YearFromDay_unique.
    rewrite DayFromYear_succ, DaysInYear_leap.
    unfold gregorian_daysInMonth in Hdt.
    destruct Hl as [[-> Hl]|[-> Hl]]; rewrite Hl in *; month_cases mn;
      cbv beta iota zeta delta [ES.DayOfMonthStart] in *; lia. }
  assert (Hleap : ES.InLeapYear t = l).
  { unfold ES.InLeapYear. rewrite Hyear, DaysInYear_leap.
    destruct Hl as [[-> Hl]|[-> Hl]]; rewrite Hl; reflexivity. }
  assert (Hdwy : ES.DayWithinYear t = ES.DayOfMonthStart mn l + dt - 1).
  { unfold ES.DayWithinYear. rewrite Hday, Hyear. lia. }
  assert (Hmonth : ES.MonthFromTime t = mn).
  { unfold ES.MonthFromTime. rewrite Hdwy, Hleap.
    unfold gregorian_daysInMonth in Hdt.
    destruct Hl as [[-> Hl]|[-> Hl]]; rewrite Hl in *; month_cases mn;
      cbv beta iota zeta delta [ES.DayOfMonthStart] in *;
      repeat (match goal with
              | |- context [?a <? ?b] => destruct (Z.ltb_spec a b); try lia
              end); reflexivity. }
  split; [exact Hyear|]. split; [exact Hmonth|].
  unfold ES.DateFromTime. rewrite Hmonth, Hdwy, Hleap. clear Hmonth Hdwy Hday.
  month_cases mn; cbv beta iota zeta delta [ES.DayOfMonthStart]; lia.
Qed.

Lemma gregorian_daysInMonth_range y m : 28 <= gregorian_daysInMonth y m <= 31.
Proof.
  unfold gregorian_daysInMonth.
  repeat match goal with
         | |- context [match ?x with _ => _ end] => destruct x
         end; lia.
Qed.

(** The day number that [MakeDay] computes is the first of the month the
    standard asks for. *)
Lemma MakeDay_first_of_month y m :
  exists d, ES.MakeDay (Some y) (Some m) (Some 1) = Some d /\
    ES.YearFromTime (d * ES.msPerDay) = y + m / 12 /\
    ES.MonthFromTime (d * ES.msPerDay) = m mod 12 /\
    ES.DateFromTime (d * ES.msPerDay) = 1.
Proof.
  eexists. split; [reflexivity|]. cbv zeta.
  rewrite DaysInYear_leap.
  replace (if (if is_leap_year (y + m / 12) then 366 else 365) =? 366 then 1 else 0)
    with (if is_leap_year (y + m / 12) then 1 else 0)
    by (destruct (is_leap_year (y + m / 12)); reflexivity).
  pose proof (fields_of_civil_date (y + m / 12) (m mod 12) 1 0) as H.
  cbv zeta in H. rewrite Z.add_0_r in H. apply H.
  - zdiv.
  - pose proof (gregorian_daysInMonth_range (y + m / 12) (m mod 12)). lia.
  - unfold ES.msPerDay. lia.
Qed.

Lemma is_leap_year_spec y :
  is_leap_year y = true <-> y mod 4 = 0 /\ (y mod 100 <> 0 \/ y mod 400 = 0).
Proof.
  unfold is_leap_year.
  destruct (Z.eqb_spec (y mod 4) 0), (Z.eqb_spec (y mod 100) 0),
    (Z.eqb_spec (y mod 400) 0); cbn; intuition congruence.
Qed.

(** The day count from 1970 and the congruence give the same weekday. *)
Lemma WeekDay_gregorian y m dt tw :
  0 <= m <= 11 -> 0 <= tw < ES.msPerDay ->
  let l := if is_leap_year y then 1 else 0 in
  ES.WeekDay ((ES.DayFromYear y + ES.DayOfMonthStart m l + dt - 1) * ES.msPerDay + tw)
  = gregorian_weekday y m dt.
Proof.
  intros Hm Htw l. unfold ES.WeekDay. rewrite Day_MakeDate by assumption.
  assert (Hl : l = 0 /\ ~ (y mod 4 = 0 /\ (y mod 100 <> 0 \/ y mod 400 = 0))
            \/ l = 1 /\ (y mod 4 = 0 /\ (y mod 100 <> 0 \/ y mod 400 = 0))).
  { subst l. pose proof (is_leap_year_spec y) as Hs.
    destruct (is_leap_year y); [right|left]; split; try reflexivity.
    - apply Hs; reflexivity.
    - intros H. apply Hs in H. discriminate. }
  clearbody l.
  unfold gregorian_weekday, ES.DayFromYear.
  month_cases m; cbv beta iota zeta delta [ES.DayOfMonthStart Z.ltb Z.compare Pos.compare Pos.compare_cont];
    zdiv.
Qed.

(** ** The two [Date] calls of [buildCalendar] *)

Lemma DayFromYear_in_range y :
  -271820 <= y <= 275760 -> -99999744 <= ES.DayFromYear y <= 99999744.
Proof. unfold ES.DayFromYear. intros. zdiv. Qed.

Lemma DayOfMonthStart_range mn l :
  0 <= l <= 1 -> 0 <= ES.DayOfMonthStart mn l <= 335.
Proof.
  intros. unfold ES.DayOfMonthStart.
  repeat match goal with
         | |- context [match ?x with _ => _ end] => destruct x
         end; lia.
Qed.

(** The constructor gives a valid time value for a day within
    99,999,999 days of 1970, and the getters see the local midnight it
    was built from. *)
Lemma Date_new_eq tza y m dt :
  zone_offset tza ->
  let ym := ES.fullYear y + m / 12 in
  let l := if is_leap_year ym then 1 else 0 in
  let day := ES.DayFromYear ym + ES.DayOfMonthStart (m mod 12) l + dt - 1 in
  -99999999 <= day <= 99999999 ->
  ES.Date_new tza (Some y) (Some m) (Some dt) = Some (day * ES.msPerDay - tza).
Proof.
  intros Htza ym l day Hday.
  unfold ES.Date_new, ES.MakeFullYear, ES.MakeDay, ES.MakeDate, ES.UTC, ES.TimeClip,
    ES.MakeTime.
  fold ym. rewrite DaysInYear_leap.
  replace (if (if is_leap_year ym then 366 else 365) =? 366 then 1 else 0) with l
    by (subst l; destruct (is_leap_year ym); reflexivity).
  fold day. clearbody day.
  unfold zone_offset, ES.msPerDay in *.
  replace (0 * 3600000 + 0 * 60000 + 0 * 1000 + 0) with 0 by reflexivity.
  rewrite Z.add_0_r.
  destruct (Z.ltb_spec 8640000000000000 (Z.abs (day * 86400000 - tza)))
    as [Hbig|_]; [lia|reflexivity].
Qed.

(** The first and the last day of a month within the range. *)
Lemma month_within_Date Y m :
  in_Date_range Y m -> 0 <= m <= 11 ->
  let l := if is_leap_year Y then 1 else 0 in
  let first := ES.DayFromYear Y + ES.DayOfMonthStart m l in
  -99999999 <= first /\ first + gregorian_daysInMonth Y m - 1 <= 99999999.
Proof.
  intros HY Hm l first. unfold in_Date_range in HY.
  pose proof (gregorian_daysInMonth_range Y m) as Hdim.
  assert (Hl : 0 <= l <= 1) by (subst l; destruct (is_leap_year Y); lia).
  pose proof (DayOfMonthStart_range m l Hl) as Hs.
  destruct (Z.eq_dec Y (-271821)) as [->|Hlo]; [|destruct (Z.eq_dec Y 275760) as [->|Hhi]].
  - subst first l. unfold gregorian_daysInMonth.
    replace (is_leap_year (-271821)) with false by reflexivity.
    replace (ES.DayFromYear (-271821)) with (-100000109) by reflexivity.
    month_cases m; cbv beta iota zeta delta [ES.DayOfMonthStart]; lia.
  - subst first l. unfold gregorian_daysInMonth.
    replace (is_leap_year 275760) with true by reflexivity.
    replace (ES.DayFromYear 275760) with 99999744 by reflexivity.
    month_cases m; cbv beta iota zeta delta [ES.DayOfMonthStart]; lia.
  - pose proof (DayFromYear_in_range Y ltac:(lia)) as Hd.
    pose proof (DayFromYear_lt Y 275760 ltac:(lia)) as Hup.
    pose proof (DayFromYear_in_range 275760 ltac:(lia)) as Htop.
    subst first. lia.
Qed.

Lemma firstDay_of_gregorian tza y m :
  zone_offset tza -> in_Date_range (ES.fullYear y) m -> 0 <= m <= 11 ->
  firstDay_of tza (Some m) (Some y) = Some (gregorian_weekday (ES.fullYear y) m 1).
Proof.
  intros Htza Hy Hm. unfold firstDay_of.
  pose proof (month_within_Date (ES.fullYear y) m Hy Hm) as Hin. cbv zeta in Hin.
  pose proof (gregorian_daysInMonth_range (ES.fullYear y) m) as Hdim.
  pose proof (Date_new_eq tza y m 1 Htza) as Hnew. cbv zeta in Hnew.
  replace (m / 12) with 0 in Hnew by zdiv. replace (m mod 12) with m in Hnew by zdiv.
  rewrite Z.add_0_r in Hnew. rewrite Hnew by lia.
  unfold ES.getDay, ES.LocalTime. f_equal.
  pose proof (WeekDay_gregorian (ES.fullYear y) m 1 0 Hm) as H. cbv zeta in H.
  rewrite <- H by (unfold ES.msPerDay; lia). f_equal. lia.
Qed.

Lemma DayOfMonthStart_next y m :
  0 <= m <= 10 ->
  let l := if is_leap_year y then 1 else 0 in
  ES.DayOfMonthStart (m + 1) l = ES.DayOfMonthStart m l + gregorian_daysInMonth y m.
Proof.
  intros Hm l. subst l. unfold gregorian_daysInMonth.
  month_cases m; try lia; destruct (is_leap_year y); reflexivity.
Qed.

(** Day 0 of the next month is the last day of this one. *)
Lemma day_0_of_next_month Y m :
  0 <= m <= 11 ->
  let ym := Y + (m + 1) / 12 in
  ES.DayFromYear ym
  + ES.DayOfMonthStart ((m + 1) mod 12) (if is_leap_year ym then 1 else 0) + 0 - 1
  = ES.DayFromYear Y + ES.DayOfMonthStart m (if is_leap_year Y then 1 else 0)
    + gregorian_daysInMonth Y m - 1.
Proof.
  intros Hm ym. subst ym. destruct (Z.eq_dec m 11) as [->|Hne].
  - replace ((11 + 1) / 12) with 1 by reflexivity.
    replace ((11 + 1) mod 12) with 0 by reflexivity.
    rewrite DayFromYear_succ, DaysInYear_leap.
    unfold gregorian_daysInMonth.
    cbv beta iota zeta delta [ES.DayOfMonthStart].
    destruct (is_leap_year Y); lia.
  - replace ((m + 1) / 12) with 0 by zdiv. replace ((m + 1) mod 12) with (m + 1) by zdiv.
    replace (Y + 0) with Y by lia.
    pose proof (DayOfMonthStart_next Y m ltac:(lia)) as Hn. cbv zeta in Hn.
    rewrite Hn. lia.
Qed.

Lemma daysInMonth_of_gregorian tza y m :
  zone_offset tza -> in_Date_range (ES.fullYear y) m -> 0 <= m <= 11 ->
  daysInMonth_of tza (Some m) (Some y) = Some (gregorian_daysInMonth (ES.fullYear y) m).
Proof.
  intros Htza Hy Hm. unfold daysInMonth_of, num_add.
  set (Y := ES.fullYear y) in *.
  pose proof (month_within_Date Y m Hy Hm) as Hin. cbv zeta in Hin.
  pose proof (gregorian_daysInMonth_range Y m) as Hr.
  pose proof (day_0_of_next_month Y m Hm) as Hday. cbv zeta in Hday.
  pose proof (Date_new_eq tza y (m + 1) 0 Htza) as Hnew. cbv zeta in Hnew.
  fold Y in Hnew. rewrite Hday in Hnew. rewrite Hnew by lia.
  unfold ES.getDate, ES.LocalTime. f_equal.
  pose proof (fields_of_civil_date Y m (gregorian_daysInMonth Y m) 0 Hm) as H.
  cbv zeta in H.
  destruct H as (_ & _ & H); [lia | unfold ES.msPerDay; lia |].
  etransitivity; [|exact H]. f_equal. lia.
Qed.

(** ** One cell *)

Lemma buildDayCell_eq ls month year day :
  buildDayCell ls month year createElement_td day =
  let key := dateStr_of year month day in
  match getItem ls key with
  | Some g =>
      if String.eqb g "" then
        Done {| classList := [];
                content := Some (mkDayContent day (gradeSelect key (Some 0%nat)) key) |}
      else
        andThen (validate_token ("grade-" +:+ toLowerCase g)) (fun _ =>
        Done {| classList := ["grade-" +:+ toLowerCase g];
                content := Some (mkDayContent day
                                   (gradeSelect key (index_of_value g gradeOptions)) key) |})
  | None =>
      Done {| classList := [];
              content := Some (mkDayContent day (gradeSelect key (Some 0%nat)) key) |}
  end.
Proof.
  unfold buildDayCell. cbv zeta.
  destruct (getItem ls (dateStr_of year month day)) as [g|]; [|reflexivity].
  unfold truthy. destruct (String.eqb g ""); [reflexivity|].
  cbn [negb]. unfold applyGradeClass, classList_add.
  destruct (validate_token ("grade-" +:+ toLowerCase g)) as [[]|e]; reflexivity.
Qed.

Lemma validate_grade_class g :
  has_ascii_whitespace g = false ->
  validate_token ("grade-" +:+ toLowerCase g) = Done tt.
Proof.
  intros Hg. unfold validate_token.
  assert (Hlow : forall s, has_ascii_whitespace s = false ->
                           has_ascii_whitespace (toLowerCase s) = false).
  { induction s as [|c s IH]; [reflexivity|]. cbn [has_ascii_whitespace toLowerCase].
    intros H. apply orb_false_iff in H as [Hc Hs]. rewrite (IH Hs), orb_false_r.
    revert Hc. unfold is_ascii_whitespace, ascii_toLowerCase.
    destruct c as [[] [] [] [] [] [] [] []]; vm_compute; congruence. }
  assert (Happ : forall a b, has_ascii_whitespace (a +:+ b)
                             = has_ascii_whitespace a || has_ascii_whitespace b).
  { induction a as [|c a IH]; intros b; [reflexivity|].
    simpl. rewrite IH, orb_assoc. reflexivity. }
  rewrite Happ, (Hlow g Hg). reflexivity.
Qed.

(** Building the cell of a day does not throw when the value stored for
    the day has no whitespace. *)
Lemma buildDayCell_Done ls month year day :
  (forall v, getItem ls (dateStr_of year month day) = Some v ->
             has_ascii_whitespace v = false) ->
  buildDayCell ls month year createElement_td day = Done (dayCellOf ls month year day).
Proof.
  intros Hls. unfold dayCellOf. rewrite buildDayCell_eq. cbv zeta.
  destruct (getItem ls (dateStr_of year month day)) as [g|] eqn:Hg; [|reflexivity].
  destruct (String.eqb g ""); [reflexivity|].
  rewrite validate_grade_class; [reflexivity|].
  exact (Hls g eq_refl).
Qed.

Lemma dayCellOf_day ls month year day :
  buildDayCell ls month year createElement_td day = Done (dayCellOf ls month year day) ->
  td_day (dayCellOf ls month year day) = Some day /\
  td_dateKey (dayCellOf ls month year day) = Some (dateStr_of year month day).
Proof.
  intros H. rewrite <- (f_equal (fun c => match c with Done td => td_day td | _ => None end) H).
  rewrite <- (f_equal (fun c => match c with Done td => td_dateKey td | _ => None end) H).
  rewrite buildDayCell_eq in *. cbv zeta in *.
  destruct (getItem ls (dateStr_of year month day)) as [g|]; [|split; reflexivity].
  destruct (String.eqb g ""); [split; reflexivity|].
  destruct (validate_token ("grade-" +:+ toLowerCase g)) as [[]|e];
    [split; reflexivity|discriminate].
Qed.

(** ** Lists of cells *)

Lemma fmap_seqZ_const {B : Type} (g : Z -> B) (y : B) (m k : Z) :
  (forall i, m <= i < m + k -> g i = y) ->
  g <$> seqZ m k = replicate (Z.to_nat k) y.
Proof.
  intros H. rewrite <- (length_seqZ m k). apply const_fmap.
  intros i x Hx. apply H. apply lookup_seqZ in Hx. lia.
Qed.

(** ** The two loops

    With a first weekday [f], a month of [n] days and day cells that are
    built without an exception, the column loop appends the cells of
    [cellAt] for the rest of its row, and the row loop the rows of
    [rowAt]. *)

Section Loops.

Variable ls : Storage.
Variables month year : number.
Variables f n : Z.
Hypothesis f_nonneg : 0 <= f.
Hypothesis n_nonneg : 0 <= n.
Hypothesis cells_Done : forall day, 1 <= day <= n ->
  buildDayCell ls month year createElement_td day = Done (dayCellOf ls month year day).

Lemma colLoop_layout fuel : forall row col tr,
  0 <= row -> 0 <= col -> col + Z.of_nat fuel = 7 ->
  colLoop ls month year (Some f) (Some n) fuel row col tr
          (dayCounterAt f n (row * 7 + col))
  = Done (tr ++ (cellAt ls month year f n <$> seqZ (row * 7 + col) (Z.of_nat fuel)),
          dayCounterAt f n (row * 7 + 7)).
Proof using n_nonneg cells_Done.
  induction fuel as [|fuel IH]; intros row col tr Hrow Hcol Hfuel.
  - cbn [colLoop]. rewrite seqZ_nil by lia. rewrite app_nil_r.
    replace col with 7 by lia. reflexivity.
  - cbn [colLoop]. destruct (Z.ltb_spec col 7) as [_|Hge]; [|lia].
    cbv zeta. set (i := row * 7 + col).
    rewrite seqZ_cons by lia. cbn [fmap list_fmap].
    replace (Z.pred (Z.of_nat (S fuel))) with (Z.of_nat fuel) by lia.
    replace (Z.succ i) with (row * 7 + (col + 1)) by lia.
    unfold cellAt at 1. unfold num_leb.
    assert (Hcond : (dayCounterAt f n i <=? n) = (i <? f + n) \/ (f <=? i) = false).
    { unfold dayCounterAt. destruct (Z.leb_spec f i); [left|right; reflexivity].
      destruct (Z.leb_spec (1 + Z.min (Z.max (i - f) 0) n) n),
        (Z.ltb_spec i (f + n)); try reflexivity; lia. }
    assert (Hb : ((f <=? i) && (dayCounterAt f n i <=? n)) = ((f <=? i) && (i <? f + n))).
    { destruct Hcond as [->| ->]; reflexivity. }
    rewrite Hb. destruct ((f <=? i) && (i <? f + n)) eqn:Hin.
    + apply andb_true_iff in Hin as [Hlo Hhi].
      apply Z.leb_le in Hlo. apply Z.ltb_lt in Hhi.
      assert (Hdc : dayCounterAt f n i = i - f + 1) by (unfold dayCounterAt; lia).
      rewrite Hdc, cells_Done by lia. cbn [andThen].
      replace (i - f + 1 + 1) with (dayCounterAt f n (row * 7 + (col + 1)))
        by (unfold dayCounterAt; lia).
      rewrite IH by lia. rewrite <- app_assoc. reflexivity.
    + cbn [andThen].
      replace (dayCounterAt f n i) with (dayCounterAt f n (row * 7 + (col + 1))).
      * rewrite IH by lia. rewrite <- app_assoc. reflexivity.
      * apply andb_false_iff in Hin as [Hlo|Hhi].
        -- apply Z.leb_gt in Hlo. unfold dayCounterAt. lia.
        -- apply Z.ltb_ge in Hhi. unfold dayCounterAt. lia.
Qed.

Lemma rowLoop_layout rowCount fuel : forall row body,
  0 <= row -> row + Z.of_nat fuel = rowCount ->
  rowLoop ls month year (Some f) (Some n) fuel (Some rowCount) row body
          (dayCounterAt f n (row * 7))
  = (body ++ (rowAt ls month year f n <$> seqZ row (Z.of_nat fuel)), None).
Proof using n_nonneg cells_Done.
  induction fuel as [|fuel IH]; intros row body Hrow Hfuel.
  - cbn [rowLoop]. rewrite seqZ_nil by lia. rewrite app_nil_r. reflexivity.
  - cbn [rowLoop]. unfold num_ltb.
    destruct (Z.ltb_spec row rowCount) as [_|Hge]; [|lia].
    replace (dayCounterAt f n (row * 7)) with (dayCounterAt f n (row * 7 + 0))
      by (f_equal; lia).
    rewrite (colLoop_layout 7 row 0 []) by lia.
    rewrite app_nil_l.
    replace (row * 7 + 7) with ((row + 1) * 7) by lia.
    rewrite IH by lia.
    rewrite (seqZ_cons row) by lia. cbn [fmap list_fmap].
    replace (Z.pred (Z.of_nat (S fuel))) with (Z.of_nat fuel) by lia.
    replace (Z.succ row) with (row + 1) by lia.
    rewrite <- app_assoc. unfold rowAt at 3.
    replace (row * 7 + 0) with (row * 7) by lia. reflexivity.
Qed.

Lemma concat_rows (k : nat) :
  concat (rowAt ls month year f n <$> seqZ 0 (Z.of_nat k))
  = cellAt ls month year f n <$> seqZ 0 (7 * Z.of_nat k).
Proof using Type.
  induction k as [|k IH]; [reflexivity|].
  rewrite seqZ_S, fmap_app, concat_app, IH. cbn [fmap list_fmap concat].
  rewrite app_nil_r. unfold rowAt.
  replace (7 * Z.of_nat (S k)) with (7 * Z.of_nat k + 7) by lia.
  rewrite seqZ_app by lia. rewrite fmap_app.
  replace ((0 + Z.of_nat k) * 7) with (0 + 7 * Z.of_nat k) by lia. reflexivity.
Qed.

Lemma cells_in_order (r : Z) :
  0 <= r ->
  td_day <$> (cellAt ls month year f n <$> seqZ 0 (f + n + r))
  = replicate (Z.to_nat f) None ++ (Some <$> seqZ 1 n) ++ replicate (Z.to_nat r) None.
Proof using f_nonneg n_nonneg cells_Done.
  intros Hr. rewrite !seqZ_app by lia. rewrite !fmap_app, <- app_assoc.
  f_equal; [|f_equal].
  - rewrite <- list_fmap_compose. apply fmap_seqZ_const. intros i Hi. cbn.
    unfold cellAt. destruct (Z.leb_spec f i); [lia|]. reflexivity.
  - rewrite <- list_fmap_compose.
    replace (seqZ 1 n) with (Z.add (1 - f) <$> seqZ (0 + f) n)
      by (rewrite fmap_add_seqZ; f_equal; lia).
    rewrite <- list_fmap_compose.
    apply Forall_fmap_ext, Forall_seqZ. intros i Hi. cbn.
    unfold cellAt. destruct (Z.leb_spec f i); [|lia].
    destruct (Z.ltb_spec i (f + n)); [|lia]. cbn [andb].
    destruct (dayCellOf_day ls month year (i - f + 1)) as [-> _].
    + apply cells_Done. lia.
    + f_equal. lia.
  - rewrite <- list_fmap_compose. apply fmap_seqZ_const. intros i Hi. cbn.
    unfold cellAt. destruct (Z.leb_spec f i); [|reflexivity].
    destruct (Z.ltb_spec i (f + n)); [lia|]. reflexivity.
Qed.

End Loops.

(** What holds of every cell of the body whatever the store, the month
    and the year are, also when the build stops at an exception. *)
Section LoopInvariant.

Variable ls : Storage.
Variables month year firstDay daysInMonth : number.
Variable P : HTMLTableCellElement -> Prop.
Hypothesis P_empty : P createElement_td.
Hypothesis P_day : forall day td,
  1 <= day -> num_leb (Some day) daysInMonth = true ->
  buildDayCell ls month year createElement_td day = Done td -> P td.

Lemma colLoop_invariant fuel : forall row col tr dc tr' dc',
  1 <= dc -> Forall P tr ->
  colLoop ls month year firstDay daysInMonth fuel row col tr dc = Done (tr', dc') ->
  Forall P tr' /\ 1 <= dc'.
Proof using P_empty P_day.
  induction fuel as [|fuel IH]; intros row col tr dc tr' dc' Hdc Htr; cbn [colLoop].
  - intros [= <- <-]. auto.
  - destruct (col <? 7); [|intros [= <- <-]; auto]. cbv zeta.
    destruct (num_leb firstDay (Some (row * 7 + col)) && num_leb (Some dc) daysInMonth)
      eqn:Hin.
    + apply andb_true_iff in Hin as [_ Hle].
      destruct (buildDayCell ls month year createElement_td dc) as [td|e] eqn:Htd;
        cbn [andThen]; [|discriminate].
      apply IH; [lia|]. apply Forall_app. split; [assumption|].
      constructor; [|constructor]. eapply P_day; eassumption.
    + cbn [andThen]. apply IH; [lia|]. apply Forall_app. split; [assumption|].
      constructor; [assumption|constructor].
Qed.

Lemma rowLoop_invariant fuel : forall rowCount row body dc,
  1 <= dc -> Forall (Forall P) body ->
  Forall (Forall P)
    (rowLoop ls month year firstDay daysInMonth fuel rowCount row body dc).1.
Proof using P_empty P_day.
  induction fuel as [|fuel IH]; intros rowCount row body dc Hdc Hbody; cbn [rowLoop].
  - assumption.
  - destruct (num_ltb (Some row) rowCount); [|assumption].
    destruct (colLoop ls month year firstDay daysInMonth 7 row 0 [] dc)
      as [[tr dc']|e] eqn:Hrow; [|assumption].
    apply colLoop_invariant in Hrow as [Htr Hdc']; [|assumption|constructor].
    apply IH; [assumption|]. apply Forall_app. split; [assumption|].
    constructor; [assumption|constructor].
Qed.

End LoopInvariant.

(** ** The whole build *)

(** The grid of a month whose [Date]s are valid, cell by cell. *)
Lemma buildCalendar_grid tza ls m y doc :
  zone_offset tza -> in_Date_range (ES.fullYear y) m -> 0 <= m <= 11 ->
  whitespace_free ls (Some m) (Some y) ->
  let f := gregorian_weekday (ES.fullYear y) m 1 in
  let n := gregorian_daysInMonth (ES.fullYear y) m in
  buildCalendar tza ls (Some m) (Some y) doc
  = ({| monthYearText := monthNames_at (Some m) +:+ " " +:+ Number_toString (Some y);
        calendarBody := rowAt ls (Some m) (Some y) f n <$> seqZ 0 (- (- (f + n) / 7)) |},
     None).
Proof.
  intros Htza Hy Hm Hls f n. unfold buildCalendar. cbv zeta.
  rewrite firstDay_of_gregorian, daysInMonth_of_gregorian by assumption.
  fold f n. cbn [num_add Math_ceil_div calendarBody monthYearText].
  assert (Hf : 0 <= f < 7) by (subst f; unfold gregorian_weekday; zdiv).
  assert (Hn : 28 <= n <= 31) by apply gregorian_daysInMonth_range.
  set (rc := - (- (f + n) / 7)).
  assert (Hrc : 0 <= rc) by (subst rc; zdiv).
  pose proof (rowLoop_layout ls (Some m) (Some y) f n ltac:(lia)
                (fun day Hd => buildDayCell_Done ls (Some m) (Some y) day
                                 (Hls day ltac:(lia)))
                rc (Z.to_nat rc) 0 [] ltac:(lia) ltac:(lia)) as H.
  replace (dayCounterAt f n (0 * 7)) with 1 in H by (unfold dayCounterAt; lia).
  rewrite H. rewrite Z2Nat.id by assumption. reflexivity.
Qed.

Lemma rowAt_length ls month year f n row :
  length (rowAt ls month year f n row) = 7%nat.
Proof. unfold rowAt. rewrite length_fmap, length_seqZ. reflexivity. Qed.

Lemma grid_lays_out ls month year f n heading :
  0 <= f < 7 -> 0 <= n ->
  (forall day, 1 <= day <= n ->
     buildDayCell ls month year createElement_td day = Done (dayCellOf ls month year day)) ->
  lays_out {| monthYearText := heading;
              calendarBody := rowAt ls month year f n <$> seqZ 0 (- (- (f + n) / 7)) |}
           f n.
Proof.
  intros Hf Hn Hcells. set (rc := - (- (f + n) / 7)).
  assert (Hrc : 0 <= rc /\ f + n <= 7 * rc) by (subst rc; zdiv).
  split.
  - cbn [calendarBody]. apply Forall_fmap, Forall_forall. intros row _. cbn.
    apply rowAt_length.
  - set (r := 7 * rc - (f + n)).
    exists (Z.to_nat r). unfold cells. cbn [calendarBody].
    replace rc with (Z.of_nat (Z.to_nat rc)) by lia.
    rewrite concat_rows. rewrite Z2Nat.id by lia.
    replace (7 * rc) with (f + n + r) by lia.
    apply cells_in_order; lia || assumption.
Qed.

(** * The claims *)

(** ** Layout of the grid *)

Lemma fullYear_id year : ~ (0 <= year <= 99) -> ES.fullYear year = year.
Proof.
  intros H. unfold ES.fullYear.
  destruct (Z.leb_spec 0 year), (Z.leb_spec year 99); cbn [andb]; lia || reflexivity.
Qed.

Lemma gregorian_weekday_range year month day :
  0 <= gregorian_weekday year month day < 7.
Proof. unfold gregorian_weekday. zdiv. Qed.

(** C1, as amended.  On a host whose zone is one constant offset from
    UTC (below a day in size), for every month in 0..11 of a year outside
    0..99 that a [Date] can hold whole (May -271821 to August 275760) and
    every store that holds no value with ASCII whitespace under a date
    key of the month, [buildCalendar] finishes without an exception and
    its grid has rows of seven cells that, read left to right and top to
    bottom, are as many empty cells as the weekday index (0 = Sunday) of
    day 1 of the month, then the days 1, 2, .. up to the length of the
    month, each once and in this order, then empty cells only.  (Where
    the offset changes within the month the [Date] calls can give another
    length: see [Kiritimati_December_1994].) *)
Theorem buildCalendar_lays_out_month tza ls month year doc :
  zone_offset tza -> whitespace_free ls (Some month) (Some year) ->
  0 <= month <= 11 -> in_Date_range year month -> ~ (0 <= year <= 99) ->
  (buildCalendar tza ls (Some month) (Some year) doc).2 = None /\
  lays_out (buildCalendar tza ls (Some month) (Some year) doc).1
           (gregorian_weekday year month 1) (gregorian_daysInMonth year month).
Proof.
  intros Htza Hls Hm Hy H99.
  pose proof (fullYear_id year H99) as Hfull.
  rewrite buildCalendar_grid by (rewrite ?Hfull; assumption).
  rewrite Hfull. cbn [fst snd]. split; [reflexivity|].
  apply grid_lays_out.
  - apply gregorian_weekday_range.
  - pose proof (gregorian_daysInMonth_range year month). lia.
  - intros day Hd. apply buildDayCell_Done, Hls.
    pose proof (gregorian_daysInMonth_range year month). lia.
Qed.

Lemma buildCalendar_lays_out_month_witness :
  zone_offset 3600000 /\ whitespace_free ∅ (Some 9) (Some 2023) /\
  0 <= 9 <= 11 /\ in_Date_range 2023 9 /\
  ~ (0 <= 2023 <= 99) /\
  (buildCalendar 3600000 ∅ (Some 9) (Some 2023) emptyDocument).2 = None /\
  lays_out (buildCalendar 3600000 ∅ (Some 9) (Some 2023) emptyDocument).1
           (gregorian_weekday 2023 9 1) (gregorian_daysInMonth 2023 9).
Proof.
  assert (H1 : zone_offset 3600000) by (unfold zone_offset, ES.msPerDay; lia).
  assert (H2 : whitespace_free ∅ (Some 9) (Some 2023)) by (intros day _ v [=]).
  assert (H3 : 0 <= 9 <= 11) by lia.
  assert (H4 : in_Date_range 2023 9) by (unfold in_Date_range; lia).
  assert (H5 : ~ (0 <= 2023 <= 99)) by lia.
  repeat (split; [assumption|]).
  exact (buildCalendar_lays_out_month 3600000 ∅ 9 2023 emptyDocument H1 H2 H3 H4 H5).
Defined.

(** C1 as stated fails: for September 275760, whose last days are
    beyond what a [Date] can hold, [daysInMonth] is NaN and no row is
    built; the year 50 is laid out as 1950, whose January starts on a
    Sunday, while January of the year 50 starts on a Saturday; and with a
    stored value that holds a space the build stops at an exception
    before the first row is complete. *)
Lemma buildCalendar_layout_counterexample :
  ~ lays_out (buildCalendar 0 ∅ (Some 8) (Some 275760) emptyDocument).1
             (gregorian_weekday 275760 8 1) (gregorian_daysInMonth 275760 8)
  /\ ~ lays_out (buildCalendar 0 ∅ (Some 0) (Some 50) emptyDocument).1
                (gregorian_weekday 50 0 1) (gregorian_daysInMonth 50 0)
  /\ ~ lays_out (buildCalendar 0 {["2024-01-01" := "a b"]} (Some 0) (Some 2024)
                               emptyDocument).1
                (gregorian_weekday 2024 0 1) (gregorian_daysInMonth 2024 0).
Proof.
  repeat split; intros [_ [k H]]; vm_compute in H; discriminate H.
Qed.

(** ** Number of rows *)

(** C2, as amended.  Under the conditions of C1 (a host whose zone is
    one constant offset from UTC among them) the number of rows is the
    ceiling of (weekday of day 1 + length of the month) / 7, the least
    number of rows of seven that hold all the days.  October 2023 (31
    days from a Sunday) has 5 rows; July 2023 (31 days from a Saturday)
    has 6. *)
Theorem buildCalendar_rowCount tza ls month year doc :
  zone_offset tza -> whitespace_free ls (Some month) (Some year) ->
  0 <= month <= 11 -> in_Date_range year month -> ~ (0 <= year <= 99) ->
  let rows :=
    Z.of_nat (length (calendarBody (buildCalendar tza ls (Some month) (Some year) doc).1)) in
  let total := gregorian_weekday year month 1 + gregorian_daysInMonth year month in
  rows = - (- total / 7) /\
  7 * (rows - 1) < total <= 7 * rows /\
  (year = 2023 -> month = 9 -> rows = 5) /\
  (year = 2023 -> month = 6 -> rows = 6).
Proof.
  intros Htza Hls Hm Hy H99 rows total.
  pose proof (fullYear_id year H99) as Hfull.
  assert (Hrows : rows = - (- total / 7)).
  { subst rows. rewrite buildCalendar_grid by (rewrite ?Hfull; assumption).
    rewrite Hfull. cbn [fst calendarBody]. rewrite length_fmap, length_seqZ.
    fold total. pose proof (gregorian_weekday_range year month 1).
    pose proof (gregorian_daysInMonth_range year month).
    rewrite Z2Nat.id; [reflexivity|]. subst total. zdiv. }
  split; [exact Hrows|]. split; [rewrite Hrows; zdiv|].
  split; intros -> ->; rewrite Hrows; reflexivity.
Qed.

Lemma buildCalendar_rowCount_witness :
  zone_offset 0 /\ whitespace_free ∅ (Some 6) (Some 2023) /\
  0 <= 6 <= 11 /\ in_Date_range 2023 6 /\
  ~ (0 <= 2023 <= 99) /\
  Z.of_nat (length (calendarBody (buildCalendar 0 ∅ (Some 6) (Some 2023) emptyDocument).1))
  = 6.
Proof.
  assert (H1 : zone_offset 0) by (unfold zone_offset, ES.msPerDay; lia).
  assert (H2 : whitespace_free ∅ (Some 6) (Some 2023)) by (intros day _ v [=]).
  assert (H3 : 0 <= 6 <= 11) by lia.
  assert (H4 : in_Date_range 2023 6) by (unfold in_Date_range; lia).
  assert (H5 : ~ (0 <= 2023 <= 99)) by lia.
  repeat (split; [assumption|]).
  exact (proj2 (proj2 (proj2
           (buildCalendar_rowCount 0 ∅ 6 2023 emptyDocument H1 H2 H3 H4 H5)))
         eq_refl eq_refl).
Defined.

(** C2 as stated fails: 1 October 2023 is a Sunday and the grid of
    October 2023 has 5 rows, not 6.  The general formula fails as C1
    does: no row for September 275760, the 5 rows of January 1950 for
    the year 50 whose January needs 6, no row when the build stops at an
    exception. *)
Lemma buildCalendar_rowCount_counterexample :
  (ES.getDay 0 (ES.Date_new 0 (Some 2023) (Some 9) (Some 1)) = Some 0 /\
   gregorian_weekday 2023 9 1 = 0 /\
   length (calendarBody (buildCalendar 0 ∅ (Some 9) (Some 2023) emptyDocument).1)
   = 5%nat)
  /\ (length (calendarBody (buildCalendar 0 ∅ (Some 8) (Some 275760) emptyDocument).1)
      = 0%nat /\
      - (- (gregorian_weekday 275760 8 1 + gregorian_daysInMonth 275760 8) / 7) = 5)
  /\ (length (calendarBody (buildCalendar 0 ∅ (Some 0) (Some 50) emptyDocument).1)
      = 5%nat /\
      - (- (gregorian_weekday 50 0 1 + gregorian_daysInMonth 50 0) / 7) = 6)
  /\ (length (calendarBody (buildCalendar 0 {["2024-01-01" := "a b"]} (Some 0)
                                          (Some 2024) emptyDocument).1)
      = 0%nat /\
      - (- (gregorian_weekday 2024 0 1 + gregorian_daysInMonth 2024 0) / 7) = 5).
Proof. vm_compute. repeat split; reflexivity. Qed.

(** ** Length of February *)

Lemma is_leap_year_divide year :
  is_leap_year year = true <-> (4 | year) /\ (~ (100 | year) \/ (400 | year)).
Proof.
  rewrite is_leap_year_spec.
  rewrite <- !Z.mod_divide by lia. reflexivity.
Qed.

(** C4, as amended.  For every year from -271820 to 275760 other than 0,
    the [daysInMonth] that [buildCalendar] computes for February is 29
    when the year is divisible by 4 and (not divisible by 100 or divisible
    by 400), and 28 otherwise. *)
Theorem february_follows_leap_year_rule tza year :
  zone_offset tza -> -271820 <= year <= 275760 -> year <> 0 ->
  exists n, daysInMonth_of tza (Some 1) (Some year) = Some n /\
    (n = 29 \/ n = 28) /\
    (n = 29 <-> (4 | year) /\ (~ (100 | year) \/ (400 | year))).
Proof.
  intros Htza Hy H0.
  assert (Hfull : in_Date_range (ES.fullYear year) 1).
  { unfold ES.fullYear, in_Date_range in *.
    destruct ((0 <=? year) && (year <=? 99)) eqn:E; [|lia].
    apply andb_true_iff in E as [?%Z.leb_le ?%Z.leb_le]. lia. }
  assert (Hleap : is_leap_year (ES.fullYear year) = is_leap_year year).
  { unfold ES.fullYear.
    destruct ((0 <=? year) && (year <=? 99)) eqn:E; [|reflexivity].
    apply andb_true_iff in E as [?%Z.leb_le ?%Z.leb_le].
    unfold is_leap_year.
    replace ((1900 + year) mod 4) with (year mod 4) by zdiv.
    replace ((1900 + year) mod 100) with year by zdiv.
    replace (year mod 100) with year by zdiv.
    destruct (Z.eqb_spec year 0); [lia|]. cbn [negb orb]. reflexivity. }
  rewrite daysInMonth_of_gregorian by (assumption || lia).
  unfold gregorian_daysInMonth. rewrite Hleap.
  pose proof (is_leap_year_divide year) as Hrule.
  destruct (is_leap_year year); eexists; (split; [reflexivity|]); split; auto;
    rewrite <- Hrule; split; congruence.
Qed.

Lemma february_follows_leap_year_rule_witness :
  zone_offset 0 /\ -271820 <= 2024 <= 275760 /\ 2024 <> 0 /\
  exists n, daysInMonth_of 0 (Some 1) (Some 2024) = Some n /\
    (n = 29 \/ n = 28) /\
    (n = 29 <-> (4 | 2024) /\ (~ (100 | 2024) \/ (400 | 2024))).
Proof.
  assert (H1 : zone_offset 0) by (unfold zone_offset, ES.msPerDay; lia).
  assert (H2 : -271820 <= 2024 <= 275760) by lia.
  assert (H3 : 2024 <> 0) by lia.
  repeat (split; [assumption|]).
  exact (february_follows_leap_year_rule 0 2024 H1 H2 H3).
Defined.

(** The four years the specification names. *)
Lemma february_examples tza :
  zone_offset tza ->
  daysInMonth_of tza (Some 1) (Some 2024) = Some 29 /\
  daysInMonth_of tza (Some 1) (Some 2023) = Some 28 /\
  daysInMonth_of tza (Some 1) (Some 2000) = Some 29 /\
  daysInMonth_of tza (Some 1) (Some 1900) = Some 28.
Proof.
  intros Htza.
  repeat split; rewrite daysInMonth_of_gregorian;
    try assumption; try reflexivity; unfold in_Date_range; cbn; lia.
Qed.

(** C4 as stated fails: February 275761 lies beyond what a [Date] can
    hold, and [daysInMonth] is NaN, neither 28 nor 29; the year 0 is
    divisible by 400 but the [Date] constructor reads it as 1900, which
    has a February of 28 days. *)
Lemma february_counterexample :
  daysInMonth_of 0 (Some 1) (Some 275761) = NaN
  /\ ((400 | 0) /\ daysInMonth_of 0 (Some 1) (Some 0) = Some 28).
Proof.
  split; [reflexivity|]. split; [exists 0|]; reflexivity.
Qed.

(** ** Date keys *)

Lemma forallb_seqZ (P : Z -> bool) (lo n : Z) :
  forallb P (seqZ lo n) = true -> forall z, lo <= z < lo + n -> P z = true.
Proof.
  intros H z Hz. rewrite forallb_forall in H. apply H.
  apply list_elem_of_In, elem_of_seqZ. exact Hz.
Qed.

Lemma Number_toString_four_digits year :
  1000 <= year <= 9999 -> Number_toString (Some year) = four_digits year.
Proof.
  intros Hy. apply String.eqb_eq.
  apply (forallb_seqZ (fun y => String.eqb (Number_toString (Some y)) (four_digits y))
                      1000 9000); [vm_compute; reflexivity|lia].
Qed.

Lemma pad_two_digits n : 0 <= n <= 99 -> pad (Some n) = two_digits n.
Proof.
  intros Hn. apply String.eqb_eq.
  apply (forallb_seqZ (fun d => String.eqb (pad (Some d)) (two_digits d)) 0 100);
    [vm_compute; reflexivity|lia].
Qed.

Lemma is_digit_digit d : 0 <= d <= 9 -> is_digit (digit d) = true.
Proof.
  intros Hd.
  apply (forallb_seqZ (fun d => is_digit (digit d)) 0 10); [vm_compute; reflexivity|lia].
Qed.

Lemma dateStr_of_YYYY_MM_DD year month day :
  1000 <= year <= 9999 -> 0 <= month <= 11 -> 1 <= day <= 31 ->
  dateStr_of (Some year) (Some month) day = YYYY_MM_DD year month day /\
  has_shape_YYYY_MM_DD (YYYY_MM_DD year month day) = true.
Proof.
  intros Hy Hm Hd. split.
  - unfold dateStr_of, YYYY_MM_DD, num_add.
    rewrite Number_toString_four_digits, !pad_two_digits by lia. reflexivity.
  - unfold YYYY_MM_DD, four_digits, two_digits, has_shape_YYYY_MM_DD.
    lazy beta iota zeta delta [String.append list_ascii_of_string forallb].
    rewrite !is_digit_digit by zdiv. reflexivity.
Qed.

Lemma elem_of_concat {A : Type} (x : A) (ls : list (list A)) :
  x ∈ concat ls <-> exists l, x ∈ l /\ l ∈ ls.
Proof.
  rewrite list_elem_of_In, in_concat.
  split; intros (l & H1 & H2); exists l; rewrite ?list_elem_of_In in *; auto.
Qed.

(** An invariant of the cells carries over from the loops to the grid. *)
Lemma buildCalendar_cells_invariant tza ls month year doc
    (P : HTMLTableCellElement -> Prop) :
  P createElement_td ->
  (forall day td,
     1 <= day -> num_leb (Some day) (daysInMonth_of tza month year) = true ->
     buildDayCell ls month year createElement_td day = Done td -> P td) ->
  Forall (Forall P) (calendarBody (buildCalendar tza ls month year doc).1).
Proof.
  intros HPe HPd. unfold buildCalendar. cbv zeta.
  set (rowCount := Math_ceil_div _ 7).
  set (fuel := match rowCount with Some k => Z.to_nat k | None => 0%nat end).
  pose proof (rowLoop_invariant ls month year (firstDay_of tza month year)
                (daysInMonth_of tza month year) P HPe HPd fuel rowCount 0 [] 1
                ltac:(lia) (Forall_nil_2 _)) as Hinv.
  cbn [calendarBody].
  destruct (rowLoop ls month year (firstDay_of tza month year)
              (daysInMonth_of tza month year) fuel rowCount 0 [] 1) as [body exn].
  exact Hinv.
Qed.

Lemma buildDayCell_content ls month year day td c :
  buildDayCell ls month year createElement_td day = Done td ->
  content td = Some c ->
  dayNumber c = day /\ dateStr c = dateStr_of year month day /\
  sel_options (selectEl c) = gradeOptions.
Proof.
  rewrite buildDayCell_eq. cbv zeta. intros Hbuild Hc.
  destruct (getItem ls (dateStr_of year month day)) as [g|].
  - destruct (String.eqb g "").
    + injection Hbuild as <-. injection Hc as <-. repeat split.
    + destruct (validate_token ("grade-" +:+ toLowerCase g)) as [[]|e]; [|discriminate].
      injection Hbuild as <-. injection Hc as <-. repeat split.
  - injection Hbuild as <-. injection Hc as <-. repeat split.
Qed.

(** C5, as amended.  For every month in 0..11 and every year from 1000
    to 9999, every cell of the grid that holds a day holds a day number
    [d] between 1 and the length of the month and the key
    [YYYY-MM-DD]: the four digits of the year, the two digits of the
    month counted from 1 and the two digits of [d], zero-padded, with
    hyphens between.  This holds for every store, also when the build
    stops at an exception. *)
Theorem dateStr_is_YYYY_MM_DD tza ls month year doc td c :
  zone_offset tza -> 0 <= month <= 11 -> 1000 <= year <= 9999 ->
  td ∈ cells (buildCalendar tza ls (Some month) (Some year) doc).1 ->
  content td = Some c ->
  1 <= dayNumber c <= gregorian_daysInMonth year month /\
  dateStr c = YYYY_MM_DD year month (dayNumber c) /\
  has_shape_YYYY_MM_DD (dateStr c) = true.
Proof.
  intros Htza Hm Hy Hin Hc.
  assert (Hfull : ES.fullYear year = year) by (apply fullYear_id; lia).
  assert (Hrange : in_Date_range (ES.fullYear year) month)
    by (rewrite Hfull; unfold in_Date_range; lia).
  assert (Hall : Forall (Forall (fun td => forall c, content td = Some c ->
            1 <= dayNumber c <= gregorian_daysInMonth year month /\
            dateStr c = YYYY_MM_DD year month (dayNumber c) /\
            has_shape_YYYY_MM_DD (dateStr c) = true))
            (calendarBody (buildCalendar tza ls (Some month) (Some year) doc).1)).
  { apply buildCalendar_cells_invariant.
    - intros c' [=].
    - intros day td' Hday Hle Hbuild c' Hc'.
      rewrite daysInMonth_of_gregorian in Hle by assumption. rewrite Hfull in Hle.
      apply Z.leb_le in Hle.
      destruct (buildDayCell_content _ _ _ _ _ _ Hbuild Hc') as (-> & -> & _).
      pose proof (gregorian_daysInMonth_range year month).
      destruct (dateStr_of_YYYY_MM_DD year month day) as [-> Hshape]; try lia.
      split; [lia|]. split; [reflexivity|exact Hshape]. }
  unfold cells in Hin. apply elem_of_concat in Hin as (tr & Htd & Htr).
  rewrite Forall_forall in Hall. specialize (Hall tr Htr).
  rewrite Forall_forall in Hall. exact (Hall td Htd c Hc).
Qed.

Lemma dateStr_is_YYYY_MM_DD_witness :
  zone_offset 0 /\ 0 <= 0 <= 11 /\ 1000 <= 2024 <= 9999 /\
  exists td c,
    cells (buildCalendar 0 ∅ (Some 0) (Some 2024) emptyDocument).1 !! 5%nat = Some td /\
    content td = Some c /\
    dayNumber c = 5 /\
    dateStr c = "2024-01-05" /\
    dateStr c = YYYY_MM_DD 2024 0 (dayNumber c) /\
    has_shape_YYYY_MM_DD (dateStr c) = true.
Proof.
  assert (H1 : zone_offset 0) by (unfold zone_offset, ES.msPerDay; lia).
  assert (H2 : 0 <= 0 <= 11) by lia.
  assert (H3 : 1000 <= 2024 <= 9999) by lia.
  repeat (split; [assumption|]).
  destruct (cells (buildCalendar 0 ∅ (Some 0) (Some 2024) emptyDocument).1 !! 5%nat)
    as [td|] eqn:Htd; [|vm_compute in Htd; discriminate Htd].
  destruct (content td) as [c|] eqn:Hc;
    [|vm_compute in Htd; injection Htd as <-; discriminate Hc].
  exists td, c. split; [reflexivity|]. split; [exact Hc|].
  assert (Hday : dayNumber c = 5 /\ dateStr c = "2024-01-05").
  { vm_compute in Htd. injection Htd as <-. injection Hc as <-. split; reflexivity. }
  destruct Hday as [Hday Hkey]. split; [exact Hday|]. split; [exact Hkey|].
  exact (proj2 (dateStr_is_YYYY_MM_DD 0 ∅ 0 2024 emptyDocument td c H1 H2 H3
                  (proj2 (list_elem_of_lookup _ _) (ex_intro _ 5%nat Htd)) Hc)).
Defined.

(** The key of the specification's example. *)
Example dateStr_2024_01_05 : dateStr_of (Some 2024) (Some 0) 5 = "2024-01-05".
Proof. reflexivity. Qed.

(** C5 as stated fails: the year is printed as it is, without padding or
    truncation, so the cell of 5 January 999 has the key [999-01-05] and
    the cell of 5 January 10000 the key [10000-01-05]. *)
Lemma dateStr_counterexample :
  (td_dateKey <$> cells (buildCalendar 0 ∅ (Some 0) (Some 999) emptyDocument).1 !! 6%nat
   = Some (Some "999-01-05") /\
   has_shape_YYYY_MM_DD "999-01-05" = false)
  /\ (td_dateKey <$> cells (buildCalendar 0 ∅ (Some 0) (Some 10000) emptyDocument).1 !! 10%nat
      = Some (Some "10000-01-05") /\
      has_shape_YYYY_MM_DD "10000-01-05" = false).
Proof. vm_compute. repeat split; reflexivity. Qed.

(** ** The grid of any month and year *)

Lemma DateFromTime_range t : 1 <= ES.DateFromTime t <= 31.
Proof.
  unfold ES.DateFromTime, ES.MonthFromTime, ES.DayWithinYear, ES.InLeapYear,
    ES.YearFromTime.
  pose proof (YearFromDay_spec (ES.Day t)) as Hs.
  rewrite DayFromYear_succ, DaysInYear_leap in Hs. rewrite DaysInYear_leap.
  set (d := ES.Day t - ES.DayFromYear (ES.YearFromDay (ES.Day t))).
  assert (Hd : 0 <= d < if is_leap_year (ES.YearFromDay (ES.Day t)) then 366 else 365)
    by (subst d; destruct (is_leap_year _); lia).
  clearbody d. clear Hs.
  destruct (is_leap_year _); cbn [Z.eqb Pos.eqb];
    repeat (match goal with
            | |- context [?a <? ?b] => destruct (Z.ltb_spec a b)
            end); lia.
Qed.

Lemma WeekDay_range t : 0 <= ES.WeekDay t < 7.
Proof. unfold ES.WeekDay. zdiv. Qed.

(** When no value stored for the month has whitespace, the build of any
    month and year finishes, and its cells are those of [gridShape],
    whatever else the store holds. *)
Lemma buildCalendar_cells tza ls month year doc :
  whitespace_free ls month year ->
  let '(f, n, k) := gridShape tza month year in
  n <= 31 /\
  (buildCalendar tza ls month year doc).2 = None /\
  cells (buildCalendar tza ls month year doc).1
  = cellAt ls month year f n <$> seqZ 0 k.
Proof.
  intros Hls. unfold gridShape, buildCalendar, cells. cbv zeta.
  destruct (firstDay_of tza month year) as [f|] eqn:Hf;
    [|cbn; split; [lia|split; reflexivity]].
  destruct (daysInMonth_of tza month year) as [n|] eqn:Hn;
    [|cbn; split; [lia|split; reflexivity]].
  cbn [num_add Math_ceil_div calendarBody monthYearText].
  assert (Hf0 : 0 <= f < 7).
  { unfold firstDay_of, ES.getDay in Hf.
    destruct (ES.Date_new tza year month (Some 1)); [|discriminate].
    injection Hf as <-. apply WeekDay_range. }
  assert (Hn0 : 1 <= n <= 31).
  { unfold daysInMonth_of, ES.getDate in Hn.
    destruct (ES.Date_new tza year (num_add month (Some 1)) (Some 0)); [|discriminate].
    injection Hn as <-. apply DateFromTime_range. }
  set (rc := - (- (f + n) / 7)).
  assert (Hrc : 0 <= rc) by (subst rc; zdiv).
  pose proof (rowLoop_layout ls month year f n ltac:(lia)
                (fun day Hd => buildDayCell_Done ls month year day (Hls day ltac:(lia)))
                rc (Z.to_nat rc) 0 [] ltac:(lia) ltac:(lia)) as H.
  replace (dayCounterAt f n (0 * 7)) with 1 in H by (unfold dayCounterAt; lia).
  rewrite H. cbn [fst snd calendarBody app]. split; [lia|]. split; [reflexivity|].
  rewrite concat_rows. rewrite Z2Nat.id by assumption. reflexivity.
Qed.

Lemma dayCellOf_eq ls month year day :
  (forall v, getItem ls (dateStr_of year month day) = Some v ->
             has_ascii_whitespace v = false) ->
  let key := dateStr_of year month day in
  td_dateKey (dayCellOf ls month year day) = Some key /\
  td_day (dayCellOf ls month year day) = Some day /\
  classList (dayCellOf ls month year day) = savedClasses (getItem ls key) /\
  (selectEl <$> content (dayCellOf ls month year day))
  = Some (gradeSelect key
            match getItem ls key with
            | Some g => if String.eqb g "" then Some 0%nat else index_of_value g gradeOptions
            | None => Some 0%nat
            end).
Proof.
  intros Hls key. unfold dayCellOf, savedClasses. rewrite buildDayCell_eq. cbv zeta.
  fold key. destruct (getItem ls key) as [g|] eqn:Hg; [|repeat split].
  destruct (String.eqb g ""); [repeat split|].
  rewrite validate_grade_class by exact (Hls g Hg). repeat split.
Qed.

Lemma elem_of_cellAt ls month year f n k td key :
  whitespace_free ls month year -> n <= 31 ->
  td ∈ cellAt ls month year f n <$> seqZ 0 k -> td_dateKey td = Some key ->
  exists day, td = dayCellOf ls month year day /\ key = dateStr_of year month day /\
    f <= day - 1 + f < f + n /\ 0 <= day - 1 + f < k.
Proof.
  intros Hls Hn Hin Hkey. apply list_elem_of_fmap in Hin as (i & -> & Hi).
  apply elem_of_seqZ in Hi. unfold cellAt in *.
  destruct (Z.leb_spec f i); [|discriminate].
  destruct (Z.ltb_spec i (f + n)); [|discriminate]. cbn [andb] in *.
  exists (i - f + 1). split; [reflexivity|].
  destruct (dayCellOf_eq ls month year (i - f + 1)
              (Hls (i - f + 1) ltac:(lia))) as (Hk & _).
  rewrite Hk in Hkey. injection Hkey as <-. split; [reflexivity|]. lia.
Qed.

Lemma cellAt_day ls month year f n day :
  f <= day - 1 + f < f + n ->
  cellAt ls month year f n (day - 1 + f) = dayCellOf ls month year day.
Proof.
  intros H. unfold cellAt.
  destruct (Z.leb_spec f (day - 1 + f)); [|lia].
  destruct (Z.ltb_spec (day - 1 + f) (f + n)); [|lia]. cbn [andb]. f_equal. lia.
Qed.

(** When no value stored for the month has whitespace, what a cell with
    a given key shows is what the store holds at that key; and which keys
    the grid has does not depend on the store. *)
Lemma cell_of_key tza ls month year doc key :
  whitespace_free ls month year ->
  forall td, td ∈ cells (buildCalendar tza ls month year doc).1 ->
  td_dateKey td = Some key ->
  classList td = savedClasses (getItem ls key) /\
  (selectEl <$> content td)
  = Some (gradeSelect key
            match getItem ls key with
            | Some g => if String.eqb g "" then Some 0%nat else index_of_value g gradeOptions
            | None => Some 0%nat
            end).
Proof.
  intros Hls td Hin Hkey.
  pose proof (buildCalendar_cells tza ls month year doc Hls) as H.
  destruct (gridShape tza month year) as [[f n] k]. destruct H as (Hn & _ & H).
  rewrite H in Hin.
  destruct (elem_of_cellAt _ _ _ _ _ _ _ _ Hls Hn Hin Hkey) as (day & -> & -> & Hd & _).
  destruct (dayCellOf_eq ls month year day (Hls day ltac:(lia))) as (_ & _ & Hcl & Hsel).
  auto.
Qed.

Lemma key_in_any_store tza ls ls' month year doc key :
  whitespace_free ls month year -> whitespace_free ls' month year ->
  Some key ∈ td_dateKey <$> cells (buildCalendar tza ls month year doc).1 ->
  exists td, td ∈ cells (buildCalendar tza ls' month year doc).1 /\
             td_dateKey td = Some key.
Proof.
  intros Hls Hls' Hin.
  pose proof (buildCalendar_cells tza ls month year doc Hls) as H.
  pose proof (buildCalendar_cells tza ls' month year doc Hls') as H'.
  destruct (gridShape tza month year) as [[f n] k].
  destruct H as (Hn & _ & H). destruct H' as (_ & _ & H'). rewrite H in Hin. rewrite H'.
  apply list_elem_of_fmap in Hin as (td & Hkey & Hin). symmetry in Hkey.
  destruct (elem_of_cellAt _ _ _ _ _ _ _ _ Hls Hn Hin Hkey) as (day & _ & -> & Hf & Hk).
  exists (dayCellOf ls' month year day). split.
  - rewrite <- (cellAt_day ls' month year f n day Hf).
    apply list_elem_of_fmap_2, elem_of_seqZ. lia.
  - apply dayCellOf_eq, Hls'. lia.
Qed.

(** ** Grades in the store and on the grid *)

Lemma whitespace_free_setItem ls month year key v :
  whitespace_free ls month year -> has_ascii_whitespace v = false ->
  whitespace_free (setItem ls key v) month year.
Proof.
  intros Hls Hv day Hd v' Hget. unfold getItem, setItem in Hget.
  apply lookup_insert_Some in Hget as [[_ <-]|[_ Hget]]; [exact Hv|].
  exact (Hls day Hd v' Hget).
Qed.

Lemma whitespace_free_removeItem ls month year key :
  whitespace_free ls month year -> whitespace_free (removeItem ls key) month year.
Proof.
  intros Hls day Hd v Hget. unfold getItem, removeItem in Hget.
  apply lookup_delete_Some in Hget as [_ Hget]. exact (Hls day Hd v Hget).
Qed.

(** C6, as amended.  For every date key of the grid of a month and any
    prior store that holds no value with ASCII whitespace under a date
    key of the month: after
    [setItem(key, "A")] the rebuilt grid has the cell of that key with the
    class [grade-a] and no other; after [removeItem(key)] the rebuilt
    grid has it with no class, and [getItem(key)] is [null]. *)
Theorem grade_round_trip tza ls month year doc key :
  whitespace_free ls month year ->
  Some key ∈ td_dateKey <$> cells (buildCalendar tza ls month year doc).1 ->
  let ls1 := setItem ls key "A" in
  let ls2 := removeItem ls1 key in
  cell_classified_as (buildCalendar tza ls1 month year doc).1 key ["grade-a"] /\
  cell_classified_as (buildCalendar tza ls2 month year doc).1 key [] /\
  getItem ls2 key = None.
Proof.
  intros Hls Hkey ls1 ls2.
  assert (Hls1 : whitespace_free ls1 month year)
    by (apply whitespace_free_setItem; auto).
  assert (Hls2 : whitespace_free ls2 month year)
    by (apply whitespace_free_removeItem; auto).
  assert (Hget1 : getItem ls1 key = Some "A") by apply lookup_insert_eq.
  assert (Hget2 : getItem ls2 key = None) by apply lookup_delete_eq.
  split; [|split; [|exact Hget2]]; split.
  - exact (key_in_any_store tza ls ls1 month year doc key Hls Hls1 Hkey).
  - intros td Hin Htd.
    destruct (cell_of_key tza ls1 month year doc key Hls1 td Hin Htd) as [-> _].
    rewrite Hget1. reflexivity.
  - exact (key_in_any_store tza ls ls2 month year doc key Hls Hls2 Hkey).
  - intros td Hin Htd.
    destruct (cell_of_key tza ls2 month year doc key Hls2 td Hin Htd) as [-> _].
    rewrite Hget2. reflexivity.
Qed.

Lemma grade_round_trip_witness :
  let ls : Storage := {["2024-01-04" := "B"]} in
  cell_classified_as
    (buildCalendar 0 (setItem ls "2024-01-05" "A") (Some 0) (Some 2024) emptyDocument).1
    "2024-01-05" ["grade-a"] /\
  cell_classified_as
    (buildCalendar 0 (removeItem (setItem ls "2024-01-05" "A") "2024-01-05")
                   (Some 0) (Some 2024) emptyDocument).1
    "2024-01-05" [] /\
  getItem (removeItem (setItem ls "2024-01-05" "A") "2024-01-05") "2024-01-05" = None.
Proof.
  intros ls.
  apply (grade_round_trip 0 ls (Some 0) (Some 2024) emptyDocument "2024-01-05").
  - intros day _ v Hget. unfold getItem in Hget.
    apply lookup_singleton_Some in Hget as [_ <-]. reflexivity.
  - apply list_elem_of_lookup. exists 5%nat. vm_compute. reflexivity.
Defined.

(** C6 as stated fails for some prior stores: when the store holds a
    value with a space at the key of an earlier day of the month, the
    rebuild after [setItem("2024-01-05", "A")] stops at an exception and
    leaves no cell with that key. *)
Lemma grade_round_trip_counterexample :
  let ls : Storage := {["2024-01-01" := "a b"]} in
  Some "2024-01-05"
    ∈ td_dateKey <$> cells (buildCalendar 0 ∅ (Some 0) (Some 2024) emptyDocument).1 /\
  (buildCalendar 0 (setItem ls "2024-01-05" "A") (Some 0) (Some 2024) emptyDocument).2
  = Some InvalidCharacterError /\
  ~ cell_classified_as
      (buildCalendar 0 (setItem ls "2024-01-05" "A") (Some 0) (Some 2024) emptyDocument).1
      "2024-01-05" ["grade-a"].
Proof.
  intros ls. split; [|split].
  - apply list_elem_of_lookup. exists 5%nat. vm_compute. reflexivity.
  - vm_compute. reflexivity.
  - intros [(td & Hin & _) _]. vm_compute in Hin. inversion Hin.
Qed.

Lemma index_of_value_gradeOptions v :
  index_of_value v gradeOptions =
  if String.eqb "" v then Some 0%nat
  else if String.eqb "S" v then Some 1%nat
  else if String.eqb "A" v then Some 2%nat
  else if String.eqb "B" v then Some 3%nat
  else if String.eqb "C" v then Some 4%nat
  else if String.eqb "D" v then Some 5%nat
  else if String.eqb "F" v then Some 6%nat
  else None.
Proof.
  unfold gradeOptions, grades. cbn [map index_of_value opt_value].
  repeat match goal with
         | |- context [String.eqb ?a v] => destruct (String.eqb a v); try reflexivity
         end.
Qed.

(** What the control reads after [select.value = v]. *)
Lemma select_value_after_set key v :
  select_value (gradeSelect key (index_of_value v gradeOptions))
  = if bool_decide (v ∈ grades) then v else "".
Proof.
  rewrite index_of_value_gradeOptions. unfold select_value, gradeSelect.
  cbn [selectedIndex sel_options].
  repeat match goal with
         | |- context [String.eqb ?a v] =>
             destruct (String.eqb_spec a v) as [<-|?]; [reflexivity|]
         end.
  rewrite bool_decide_eq_false_2; [reflexivity|].
  unfold grades. rewrite !elem_of_cons, elem_of_nil. intuition congruence.
Qed.

(** C10, as amended.  For every non-empty string [v] stored at a date
    key of the grid, in a store that holds no value with ASCII
    whitespace under a date key of the month, a rebuild gives the cell
    of that key the class ["grade-"] followed by [v] in lower case and
    no other, without checking [v] against the six symbols, and assigns
    [v] to the [select]: the option with value [v]
    becomes the selected one, so the control reads [v] when [v] is one of
    S, A, B, C, D, F, and no option is selected and it reads as the empty
    string otherwise. *)
Theorem stored_value_applied_on_rebuild tza ls month year doc key v :
  whitespace_free ls month year ->
  Some key ∈ td_dateKey <$> cells (buildCalendar tza ls month year doc).1 ->
  getItem ls key = Some v -> v <> "" ->
  cell_classified_as (buildCalendar tza ls month year doc).1 key
                     ["grade-" +:+ toLowerCase v] /\
  forall td c,
    td ∈ cells (buildCalendar tza ls month year doc).1 ->
    content td = Some c -> dateStr c = key ->
    selectedIndex (selectEl c) = index_of_value v gradeOptions /\
    select_value (selectEl c) = if bool_decide (v ∈ grades) then v else "".
Proof.
  intros Hls Hkey Hget Hv.
  assert (Hne : String.eqb v "" = false) by (apply String.eqb_neq; exact Hv).
  split; [split|].
  - exact (key_in_any_store tza ls ls month year doc key Hls Hls Hkey).
  - intros td Hin Htd.
    destruct (cell_of_key tza ls month year doc key Hls td Hin Htd) as [-> _].
    rewrite Hget. cbn [savedClasses]. rewrite Hne. reflexivity.
  - intros td c Hin Hc Hc'.
    assert (Htd : td_dateKey td = Some key) by (unfold td_dateKey; rewrite Hc, <- Hc'; reflexivity).
    destruct (cell_of_key tza ls month year doc key Hls td Hin Htd) as [_ Hsel].
    rewrite Hc, Hget, Hne in Hsel. injection Hsel as ->.
    split; [reflexivity|]. apply select_value_after_set.
Qed.

Lemma stored_value_applied_on_rebuild_witness :
  let ls : Storage := {["2024-01-05" := "X"]} in
  cell_classified_as (buildCalendar 0 ls (Some 0) (Some 2024) emptyDocument).1
                     "2024-01-05" ["grade-x"] /\
  forall td c,
    td ∈ cells (buildCalendar 0 ls (Some 0) (Some 2024) emptyDocument).1 ->
    content td = Some c -> dateStr c = "2024-01-05" ->
    selectedIndex (selectEl c) = None /\ select_value (selectEl c) = "".
Proof.
  intros ls.
  apply (stored_value_applied_on_rebuild 0 ls (Some 0) (Some 2024) emptyDocument
           "2024-01-05" "X").
  - intros day _ v Hget. unfold getItem in Hget.
    apply lookup_singleton_Some in Hget as [_ <-]. reflexivity.
  - apply list_elem_of_lookup. exists 5%nat. vm_compute. reflexivity.
  - vm_compute. reflexivity.
  - discriminate.
Defined.

(** C10 as stated fails: with ["X"] stored for 5 January 2024 the cell
    gets the class [grade-x] but its [select] has no option of that
    value, so no option is selected and the control reads as the empty
    string, not ["X"]; with ["a b"] stored, [classList.add] throws an
    InvalidCharacterError and no cell of that key is built. *)
Lemma stored_value_counterexample :
  (let ls : Storage := {["2024-01-05" := "X"]} in
   ((fun td => (classList td, select_value <$> (selectEl <$> content td)))
      <$> cells (buildCalendar 0 ls (Some 0) (Some 2024) emptyDocument).1 !! 5%nat)
   = Some (["grade-x"], Some ""))
  /\ (let ls : Storage := {["2024-01-05" := "a b"]} in
      buildCalendar 0 ls (Some 0) (Some 2024) emptyDocument
      = ({| monthYearText := "January 2024"; calendarBody := [] |},
         Some InvalidCharacterError)).
Proof. vm_compute. split; reflexivity. Qed.

(** ** The change listener *)

Lemma has_ascii_whitespace_toLowerCase s :
  has_ascii_whitespace (toLowerCase s) = has_ascii_whitespace s.
Proof.
  induction s as [|c s IH]; [reflexivity|]. cbn [has_ascii_whitespace toLowerCase].
  rewrite IH. f_equal. unfold is_ascii_whitespace, ascii_toLowerCase.
  destruct c as [[] [] [] [] [] [] [] []]; vm_compute; reflexivity.
Qed.

Lemma has_ascii_whitespace_append a b :
  has_ascii_whitespace (a +:+ b) = has_ascii_whitespace a || has_ascii_whitespace b.
Proof.
  induction a as [|c a IH]; [reflexivity|].
  change (String c a +:+ b) with (String c (a +:+ b)).
  cbn [has_ascii_whitespace]. rewrite IH, orb_assoc. reflexivity.
Qed.

Lemma token_in_elem_of token tokens :
  token_in token tokens = true <-> token ∈ tokens.
Proof.
  unfold token_in. rewrite existsb_exists, list_elem_of_In. split.
  - intros (c & Hc & Heq). apply String.eqb_eq in Heq. subst c. exact Hc.
  - intros Hin. exists token. split; [exact Hin|apply String.eqb_refl].
Qed.

Lemma removeGradeClasses_eq td :
  removeGradeClasses td
  = Done {| classList := List.filter (fun c => negb (token_in c gradeClasses)) (classList td);
            content := content td |}.
Proof. reflexivity. Qed.

Lemma filter_gradeClasses cl :
  Forall (fun c => c ∈ gradeClasses) cl ->
  List.filter (fun c => negb (token_in c gradeClasses)) cl = [].
Proof.
  induction 1 as [|c cl Hc _ IH]; [reflexivity|]. cbn [List.filter].
  rewrite IH. unfold gradeClasses in Hc.
  rewrite !elem_of_cons, elem_of_nil in Hc.
  destruct Hc as [->|[->|[->|[->|[->|[->|[]]]]]]]; reflexivity.
Qed.

(** C7, as amended.  What the change listener does with each selected
    value, on any cell and store.  A blank value clears the grade: the
    date key is removed from the store and the six grade classes from the
    cell, which keeps every other class it had (and so is left without a
    class when it had no others), and no error is raised.  A value that is
    not blank is never treated as clearing, whether or not it is one of
    the six symbols.  When it holds no ASCII whitespace it is stored under
    the date key as it is and the class ["grade-"] followed by the value
    in lower case is put on the cell after the grade classes have been
    removed, with no error.  When it holds ASCII whitespace the listener
    removes the grade classes, then [classList.add] throws an
    InvalidCharacterError and nothing is written: the store is as it
    was.  The control that the script builds offers the blank option and
    the six symbols only, so it delivers no other value. *)
Theorem changeListener_clears_only_blank ls td key v :
  let '(ls', td', exn) := changeListener ls td key v in
  let kept := List.filter (fun c => negb (token_in c gradeClasses)) (classList td) in
  let gradeClass := "grade-" +:+ toLowerCase v in
  (v = "" ->
     exn = None /\ ls' = removeItem ls key /\ getItem ls' key = None /\
     classList td' = kept /\
     (forall c, c ∈ classList td' <-> c ∈ classList td /\ c ∉ gradeClasses) /\
     (Forall (fun c => c ∈ gradeClasses) (classList td) -> classList td' = [])) /\
  (v <> "" -> has_ascii_whitespace v = false ->
     exn = None /\ ls' = setItem ls key v /\ getItem ls' key = Some v /\
     classList td' = (if token_in gradeClass kept then kept else kept ++ [gradeClass]) /\
     gradeClass ∈ classList td') /\
  (has_ascii_whitespace v = true ->
     v <> "" /\ exn = Some InvalidCharacterError /\ ls' = ls /\
     classList td' = kept) /\
  (forall dateStr i,
     select_value (gradeSelect dateStr i) = "" \/
     select_value (gradeSelect dateStr i) ∈ grades).
Proof.
  unfold changeListener. rewrite removeGradeClasses_eq.
  assert (Hcontrol : forall dateStr i,
            select_value (gradeSelect dateStr i) = "" \/
            select_value (gradeSelect dateStr i) ∈ grades).
  { intros dateStr i. unfold select_value, gradeSelect. cbn [selectedIndex sel_options].
    destruct i as [[|[|[|[|[|[|[|j]]]]]]]|]; cbn;
      try (left; reflexivity);
      try solve [right; unfold grades; rewrite !elem_of_cons; auto 10].
    left. destruct j; reflexivity. }
  set (kept := List.filter (fun c => negb (token_in c gradeClasses)) (classList td)).
  assert (Hkept : forall c, c ∈ kept <-> c ∈ classList td /\ c ∉ gradeClasses).
  { intros c. subst kept. rewrite !list_elem_of_In, filter_In, <- !list_elem_of_In.
    rewrite negb_true_iff, <- not_true_iff_false, token_in_elem_of. reflexivity. }
  unfold truthy. destruct (String.eqb_spec v "") as [->|Hne]; cbn [negb].
  - cbv zeta. cbn [classList]. fold kept.
    split; [|split; [congruence|split; [discriminate|exact Hcontrol]]].
    intros _. split; [reflexivity|]. split; [reflexivity|].
    split; [apply lookup_delete_eq|]. split; [reflexivity|]. split; [exact Hkept|].
    apply filter_gradeClasses.
  - unfold applyGradeClass, classList_add, validate_token.
    rewrite has_ascii_whitespace_append, has_ascii_whitespace_toLowerCase.
    cbn [has_ascii_whitespace is_ascii_whitespace orb].
    change (has_ascii_whitespace "grade-") with false. cbn [orb].
    destruct (has_ascii_whitespace v) eqn:Hv;
      cbn [andThen classList content]; cbv zeta; fold kept.
    + split; [congruence|]. split; [discriminate|]. split; [|exact Hcontrol].
      intros _. repeat split; assumption || reflexivity.
    + split; [congruence|]. split; [|split; [discriminate|exact Hcontrol]].
      intros _ _. split; [reflexivity|]. split; [reflexivity|].
      split; [apply lookup_insert_eq|]. split; [reflexivity|].
      destruct (token_in ("grade-" +:+ toLowerCase v) kept) eqn:Hin.
      * apply token_in_elem_of. exact Hin.
      * apply elem_of_app. right. apply list_elem_of_singleton. reflexivity.
Qed.

Lemma changeListener_clears_only_blank_witness :
  let '(ls', td', exn) :=
    changeListener {["2024-01-05" := "A"]}
                   {| classList := ["today"; "grade-a"]; content := None |}
                   "2024-01-05" "" in
  exn = None /\ getItem ls' "2024-01-05" = None /\ classList td' = ["today"].
Proof.
  pose proof (changeListener_clears_only_blank {["2024-01-05" := "A"]}
                {| classList := ["today"; "grade-a"]; content := None |}
                "2024-01-05" "") as H.
  destruct (changeListener _ _ _ _) as [[ls' td'] exn].
  destruct H as (Hblank & _). destruct (Hblank eq_refl) as (Hexn & _ & Hget & Hcl & _).
  split; [exact Hexn|]. split; [exact Hget|]. exact Hcl.
Defined.

(** C7 as stated fails: given the value ["X"], which is not one of the
    six symbols, the listener does not clear the grade but stores ["X"]
    and puts the class [grade-x] on the cell; given ["a b"] it raises an
    InvalidCharacterError. *)
Lemma changeListener_counterexample :
  (let '(ls', td', exn) :=
     changeListener ∅ createElement_td "2024-01-05" "X" in
   getItem ls' "2024-01-05" = Some "X" /\ classList td' = ["grade-x"] /\ exn = None)
  /\ (let '(ls', td', exn) :=
        changeListener ∅ createElement_td "2024-01-05" "a b" in
      exn = Some InvalidCharacterError).
Proof. vm_compute. repeat split; reflexivity. Qed.

(** ** Rebuilding *)

(** C9.  [buildCalendar] for a month, a year and a store gives the same
    page and the same outcome whatever page it starts from: run on its own
    result it leaves it as it is, and nothing of a grid that was on the
    page before is left. *)
Theorem buildCalendar_idempotent tza ls month year doc doc' :
  buildCalendar tza ls month year (buildCalendar tza ls month year doc).1
  = buildCalendar tza ls month year doc /\
  buildCalendar tza ls month year doc' = buildCalendar tza ls month year doc.
Proof. split; reflexivity. Qed.

(** ** Navigation *)

(** C3 fails on the script.  The page opened on 31 January 2024 shows
    January 2024; one click on "next" calls [setMonth(1)] on 31 January,
    which is 2 March 2024, and the page shows March 2024: February is
    skipped. *)
Lemma nextMonthClick_skips_February :
  let p := {| currentDate := ES.Date_new 0 (Some 2024) (Some 0) (Some 31);
              localStorage := ∅;
              document := emptyDocument |} in
  let shown := DOMContentLoaded 0 p in
  let next := nextMonthClick 0 shown.1 in
  (ES.getFullYear 0 (currentDate shown.1), ES.getMonth 0 (currentDate shown.1),
   ES.getDate 0 (currentDate shown.1)) = (Some 2024, Some 0, Some 31) /\
  monthYearText (document shown.1) = "January 2024" /\
  (ES.getFullYear 0 (currentDate next.1), ES.getMonth 0 (currentDate next.1),
   ES.getDate 0 (currentDate next.1)) = (Some 2024, Some 2, Some 2) /\
  monthYearText (document next.1) = "March 2024".
Proof. vm_compute. repeat split; reflexivity. Qed.

(** ** Classification of the cells *)

Lemma grades_cases g :
  g ∈ grades -> g = "S" \/ g = "A" \/ g = "B" \/ g = "C" \/ g = "D" \/ g = "F".
Proof.
  unfold grades. rewrite !elem_of_cons, elem_of_nil. tauto.
Qed.

Lemma GradeRecord_no_whitespace ls key g :
  GradeRecord ls -> getItem ls key = Some g -> has_ascii_whitespace g = false.
Proof.
  intros H Hg. specialize (H key g Hg). cbn in H.
  apply grades_cases in H as [->|[->|[->|[->|[->| ->]]]]]; reflexivity.
Qed.

Lemma GradeRecord_whitespace_free ls month year :
  GradeRecord ls -> whitespace_free ls month year.
Proof. intros H day _ g Hg. exact (GradeRecord_no_whitespace ls _ g H Hg). Qed.

Lemma classes_of_inj k k' : classes_of k = classes_of k' -> k = k'.
Proof. destruct k, k'; cbn; congruence. Qed.

Lemma exactly_one_classification_intro td k :
  classList td = classes_of k -> exactly_one_classification td.
Proof.
  intros H. exists k. split; [exact H|].
  intros k' H'. apply classes_of_inj. congruence.
Qed.

(** For a value of a [GradeRecord], or for no value at all, the classes
    of a rebuild are those of its classification. *)
Lemma savedClasses_classify (v : option string) :
  (forall g, v = Some g -> g ∈ grades) ->
  exists k, classify v = Some k /\ savedClasses v = classes_of k.
Proof.
  intros H. destruct v as [g|]; [|exists none; split; reflexivity].
  destruct (grades_cases g (H g eq_refl)) as [->|[->|[->|[->|[->| ->]]]]];
    eexists; split; reflexivity.
Qed.

(** What a build with a [GradeRecord] gives every cell. *)
Lemma buildCalendar_GradeRecord tza ls month year doc :
  GradeRecord ls ->
  (buildCalendar tza ls month year doc).2 = None /\
  Forall (Forall (fun td => forall c, content td = Some c ->
            sel_options (selectEl c) = gradeOptions /\
            classList td = savedClasses (getItem ls (dateStr c))))
         (calendarBody (buildCalendar tza ls month year doc).1).
Proof.
  intros Hls. pose proof (GradeRecord_whitespace_free ls month year Hls) as Hws.
  assert (Hday : forall day v, getItem ls (dateStr_of year month day) = Some v ->
                               has_ascii_whitespace v = false)
    by (intros day v; apply GradeRecord_no_whitespace, Hls).
  split.
  - pose proof (buildCalendar_cells tza ls month year doc Hws) as H.
    destruct (gridShape tza month year) as [[f n] k]. apply H.
  - apply buildCalendar_cells_invariant.
    + intros c [=].
    + intros day td _ _ Hbuild c Hc.
      rewrite buildDayCell_Done in Hbuild by exact (Hday day). injection Hbuild as <-.
      destruct (dayCellOf_eq ls month year day (Hday day)) as (Hkey & _ & Hcl & Hsel).
      unfold td_dateKey in Hkey. rewrite Hc in Hkey, Hsel.
      injection Hkey as Hkey. injection Hsel as Hsel.
      rewrite Hkey, Hsel. split; [reflexivity|exact Hcl].
Qed.

Lemma rebuild_invariant tza cd p :
  GradeRecord (localStorage p) ->
  (rebuild tza cd p).2 = None /\
  page_invariant (rebuild tza cd p).1 /\
  forall td c, td ∈ cells (document (rebuild tza cd p).1) -> content td = Some c ->
    exists k, classify (getItem (localStorage (rebuild tza cd p).1) (dateStr c)) = Some k /\
              classList td = classes_of k.
Proof.
  intros Hls. unfold rebuild.
  pose proof (buildCalendar_GradeRecord tza (localStorage p)
                (ES.getMonth tza cd) (ES.getFullYear tza cd) (document p) Hls)
    as [Hexn Hall].
  destruct (buildCalendar tza (localStorage p) (ES.getMonth tza cd)
              (ES.getFullYear tza cd) (document p)) as [doc exn].
  cbn [fst snd] in *. cbn [localStorage document].
  assert (Hcells : forall td c, td ∈ cells doc -> content td = Some c ->
            exists k, classify (getItem (localStorage p) (dateStr c)) = Some k /\
                      classList td = classes_of k).
  { intros td c Hin Hc. apply elem_of_concat in Hin as (tr & Htd & Htr).
    rewrite Forall_forall in Hall. specialize (Hall tr Htr).
    rewrite Forall_forall in Hall. destruct (Hall td Htd c Hc) as [_ ->].
    apply savedClasses_classify. intros g Hg. exact (Hls _ _ Hg). }
  split; [exact Hexn|]. split; [|exact Hcells]. split; [exact Hls|].
  cbn [localStorage document].
  apply Forall_forall. intros tr Htr. apply Forall_forall. intros td Htd c Hc.
  rewrite Forall_forall in Hall. specialize (Hall tr Htr).
  rewrite Forall_forall in Hall. destruct (Hall td Htd c Hc) as [Hopt _].
  split; [exact Hopt|].
  destruct (Hcells td c) as (k & _ & Hk); [|exact Hc|].
  - apply elem_of_concat. exists tr. split; assumption.
  - exact (exactly_one_classification_intro td k Hk).
Qed.

(** The listener on a cell with one classification, given a value of the
    control. *)
Lemma changeListener_classified ls td key v k :
  GradeRecord ls -> classList td = classes_of k ->
  v = "" \/ v ∈ grades ->
  exists k',
    classify (Some v) = Some k' /\
    changeListener ls td key v
    = (if String.eqb v "" then removeItem ls key else setItem ls key v,
       {| classList := classes_of k'; content := content td |}, None) /\
    GradeRecord (if String.eqb v "" then removeItem ls key else setItem ls key v).
Proof.
  intros Hls Hk Hv. unfold changeListener. rewrite removeGradeClasses_eq, Hk.
  assert (Hfilter : List.filter (fun c => negb (token_in c gradeClasses)) (classes_of k) = [])
    by (destruct k; reflexivity).
  rewrite Hfilter.
  destruct Hv as [->|Hv].
  - exists none. repeat split. apply map_Forall_delete, Hls.
  - assert (Hrec : GradeRecord (setItem ls key v))
      by (apply map_Forall_insert_2; assumption).
    destruct (grades_cases v Hv) as [->|[->|[->|[->|[->| ->]]]]];
      eexists; (split; [reflexivity|]); (split; [reflexivity|exact Hrec]).
Qed.

Lemma select_value_option key i :
  (i < 7)%nat ->
  select_value (gradeSelect key (Some i)) = "" \/
  select_value (gradeSelect key (Some i)) ∈ grades.
Proof.
  intros Hi. unfold select_value, gradeSelect. cbn [selectedIndex sel_options].
  destruct i as [|[|[|[|[|[|[|j]]]]]]]; cbn;
    try (left; reflexivity);
    try solve [right; unfold grades; rewrite !elem_of_cons; auto 10].
  lia.
Qed.

(** The change event on the cell at ([row], [col]) that holds a day. *)
Lemma selectOption_classified p row col i tr td c :
  page_invariant p ->
  calendarBody (document p) !! row = Some tr -> tr !! col = Some td ->
  content td = Some c -> (i < 7)%nat ->
  exists td' c' k,
    (selectOption p row col i).2 = None /\
    page_invariant (selectOption p row col i).1 /\
    calendarBody (document (selectOption p row col i).1) !! row = Some (<[col := td']> tr) /\
    <[col := td']> tr !! col = Some td' /\
    content td' = Some c' /\
    dateStr c' = dateStr c /\
    selectedIndex (selectEl c') = Some i /\
    classify (Some (select_value (selectEl c'))) = Some k /\
    classList td' = classes_of k /\
    getItem (localStorage (selectOption p row col i).1) (dateStr c')
    = if String.eqb (select_value (selectEl c')) "" then None
      else Some (select_value (selectEl c')).
Proof.
  intros [Hls Hbody] Hrow Hcol Hc Hi.
  assert (Htd : cell_invariant td).
  { eapply Forall_lookup_1; [|exact Hcol]. eapply Forall_lookup_1; [exact Hbody|exact Hrow]. }
  destruct (Htd c Hc) as [Hopt (k & Hk & _)].
  unfold selectOption. rewrite Hrow, Hcol, Hc, Hopt.
  replace (i <? length gradeOptions)%nat with true
    by (symmetry; apply Nat.ltb_lt; exact Hi).
  set (sel := {| sel_className := sel_className (selectEl c);
                 sel_ariaLabel := sel_ariaLabel (selectEl c);
                 sel_options := gradeOptions;
                 selectedIndex := Some i |}).
  set (td1 := {| classList := classList td;
                 content := Some {| dayNumber := dayNumber c; selectEl := sel;
                                    dateStr := dateStr c |} |}).
  assert (Hv : select_value sel = "" \/ select_value sel ∈ grades)
    by exact (select_value_option "" i Hi).
  destruct (changeListener_classified (localStorage p) td1 (dateStr c)
              (select_value sel) k Hls Hk Hv) as (k' & Hk' & -> & Hls').
  cbn [fst snd localStorage document calendarBody content].
  eexists _, _, k'. split; [reflexivity|]. split; [|split; [|split; [|split]]].
  - split; [exact Hls'|]. cbn [document calendarBody].
    apply Forall_insert; [exact Hbody|]. apply Forall_insert.
    + eapply Forall_lookup_1; [exact Hbody|exact Hrow].
    + intros c1 [= <-]. split; [reflexivity|].
      apply (exactly_one_classification_intro _ k'). reflexivity.
  - apply list_lookup_insert_eq. eapply lookup_lt_Some. exact Hrow.
  - apply list_lookup_insert_eq. eapply lookup_lt_Some. exact Hcol.
  - reflexivity.
  - cbn [dateStr selectEl selectedIndex classList].
    split; [reflexivity|]. split; [reflexivity|]. split; [exact Hk'|].
    split; [reflexivity|].
    destruct (String.eqb (select_value sel) "");
      [apply lookup_delete_eq|apply lookup_insert_eq].
Qed.

Lemma selectOption_invariant p row col i :
  page_invariant p ->
  (selectOption p row col i).2 = None /\ page_invariant (selectOption p row col i).1.
Proof.
  intros Hp.
  destruct (calendarBody (document p) !! row) as [tr|] eqn:Hrow;
    [|unfold selectOption; rewrite Hrow; auto].
  destruct (tr !! col) as [td|] eqn:Hcol;
    [|unfold selectOption; rewrite Hrow, Hcol; auto].
  destruct (content td) as [c|] eqn:Hc;
    [|unfold selectOption; rewrite Hrow, Hcol, Hc; auto].
  destruct (Nat.ltb_spec i 7) as [Hi|Hi].
  - destruct (selectOption_classified p row col i tr td c Hp Hrow Hcol Hc Hi)
      as (? & ? & ? & H1 & H2 & _). auto.
  - destruct Hp as [Hls Hbody].
    assert (Htd : cell_invariant td).
    { eapply Forall_lookup_1; [|exact Hcol].
      eapply Forall_lookup_1; [exact Hbody|exact Hrow]. }
    destruct (Htd c Hc) as [Hopt _].
    unfold selectOption. rewrite Hrow, Hcol, Hc, Hopt.
    replace (i <? length gradeOptions)%nat with false
      by (symmetry; apply Nat.ltb_ge; exact Hi).
    split; [reflexivity|]. split; assumption.
Qed.

Lemma handle_invariant tza ev p :
  page_invariant p ->
  (handle tza ev p).2 = None /\ page_invariant (handle tza ev p).1.
Proof.
  intros Hp. destruct ev as [| | |row col i]; cbn [handle].
  - destruct (rebuild_invariant tza (currentDate p) p (proj1 Hp)) as (H1 & H2 & _). auto.
  - unfold prevMonthClick. cbv zeta.
    destruct (rebuild_invariant tza
                (ES.setMonth tza (currentDate p)
                   (num_sub (ES.getMonth tza (currentDate p)) (Some 1)))
                p (proj1 Hp)) as (H1 & H2 & _). auto.
  - unfold nextMonthClick. cbv zeta.
    destruct (rebuild_invariant tza
                (ES.setMonth tza (currentDate p)
                   (num_add (ES.getMonth tza (currentDate p)) (Some 1)))
                p (proj1 Hp)) as (H1 & H2 & _). auto.
  - apply selectOption_invariant, Hp.
Qed.

Lemma reachable_invariant tza p : reachable tza p -> page_invariant p.
Proof.
  induction 1 as [p Hls Hbody|p ev _ IH].
  - split; [exact Hls|]. rewrite Hbody. constructor.
  - apply handle_invariant, IH.
Qed.

(** C8, as amended.  When the store is a [GradeRecord] as the page
    loads, then after every event - the first build, a build on a
    navigation click, a change of a grade - no exception has escaped and
    every cell that holds a day carries exactly one of the seven
    classifications: its class list is that of [none] (empty) or the
    single class of one grade, never two.  After a build, the
    classification of every such cell is the one of the value that the
    store holds at the cell's key.  After a change event on a cell, its
    classification is the one of the value selected in its control, and
    the store holds that value at the cell's key (no entry for the blank
    value). *)
Theorem classification_invariant tza p ev :
  reachable tza p ->
  (handle tza ev p).2 = None /\
  (forall td c,
     td ∈ cells (document (handle tza ev p).1) -> content td = Some c ->
     exactly_one_classification td) /\
  (ev = Load \/ ev = PrevMonth \/ ev = NextMonth ->
   forall td c,
     td ∈ cells (document (handle tza ev p).1) -> content td = Some c ->
     exists k,
       classify (getItem (localStorage (handle tza ev p).1) (dateStr c)) = Some k /\
       classList td = classes_of k) /\
  (forall row col i tr td c,
     ev = Change row col i ->
     calendarBody (document p) !! row = Some tr -> tr !! col = Some td ->
     content td = Some c -> (i < 7)%nat ->
     exists tr' td' c' k,
       calendarBody (document (handle tza ev p).1) !! row = Some tr' /\
       tr' !! col = Some td' /\ content td' = Some c' /\
       dateStr c' = dateStr c /\
       selectedIndex (selectEl c') = Some i /\
       classify (Some (select_value (selectEl c'))) = Some k /\
       classList td' = classes_of k /\
       getItem (localStorage (handle tza ev p).1) (dateStr c')
       = if String.eqb (select_value (selectEl c')) "" then None
         else Some (select_value (selectEl c'))).
Proof.
  intros Hreach. pose proof (reachable_invariant tza p Hreach) as Hp.
  destruct (handle_invariant tza ev p Hp) as [Hexn [_ Hbody]].
  split; [exact Hexn|]. split; [|split].
  - intros td c Hin Hc. apply elem_of_concat in Hin as (tr & Htd & Htr).
    rewrite Forall_forall in Hbody. specialize (Hbody tr Htr).
    rewrite Forall_forall in Hbody. exact (proj2 (Hbody td Htd c Hc)).
  - intros Hev. destruct Hev as [->|[->| ->]]; cbn [handle].
    + exact (proj2 (proj2 (rebuild_invariant tza _ p (proj1 Hp)))).
    + exact (proj2 (proj2 (rebuild_invariant tza _ p (proj1 Hp)))).
    + exact (proj2 (proj2 (rebuild_invariant tza _ p (proj1 Hp)))).
  - intros row col i tr td c -> Hrow Hcol Hc Hi. cbn [handle].
    destruct (selectOption_classified p row col i tr td c Hp Hrow Hcol Hc Hi)
      as (td' & c' & k & _ & _ & H1 & H2 & H3 & H4 & H5 & H6 & H7 & H8).
    exists (<[col := td']> tr), td', c', k. auto 10.
Qed.

Lemma classification_invariant_witness :
  let p0 := {| currentDate := Some 0;
               localStorage := {["1970-01-02" := "A"]};
               document := emptyDocument |} in
  let p := (handle 0 Load p0).1 in
  reachable 0 p /\
  (handle 0 (Change 0 5 3) p).2 = None /\
  (forall td c,
     td ∈ cells (document (handle 0 (Change 0 5 3) p).1) -> content td = Some c ->
     exactly_one_classification td).
Proof.
  intros p0 p.
  assert (Hp : reachable 0 p).
  { apply reachable_event, reachable_start; [|reflexivity].
    apply map_Forall_singleton. unfold grades. rewrite !elem_of_cons. auto. }
  split; [exact Hp|].
  destruct (classification_invariant 0 p (Change 0 5 3) Hp) as (H1 & H2 & _).
  split; [exact H1|exact H2].
Defined.

(** C8 as stated fails when the store holds a value that is not one of
    the six symbols: with ["X"] stored for 5 January 2024 the first build
    gives the cell the class [grade-x], which is none of the seven
    classifications, and when the user then selects A the listener removes
    the six grade classes only and the cell carries both [grade-x] and
    [grade-a]. *)
Lemma classification_counterexample :
  let p0 := {| currentDate := ES.Date_new 0 (Some 2024) (Some 0) (Some 15);
               localStorage := {["2024-01-05" := "X"]};
               document := emptyDocument |} in
  let p1 := (handle 0 Load p0).1 in
  let p2 := (handle 0 (Change 0 5 2) p1).1 in
  (exists td, cells (document p1) !! 5%nat = Some td /\
              td_dateKey td = Some "2024-01-05" /\
              classList td = ["grade-x"] /\ ~ exactly_one_classification td)
  /\ (exists td, cells (document p2) !! 5%nat = Some td /\
                 td_dateKey td = Some "2024-01-05" /\
                 classList td = ["grade-x"; "grade-a"] /\
                 ~ exactly_one_classification td).
Proof.
  intros p0 p1 p2. split.
  - destruct (cells (document p1) !! 5%nat) as [td|] eqn:Htd;
      [|vm_compute in Htd; discriminate Htd].
    exists td. split; [reflexivity|].
    vm_compute in Htd. injection Htd as <-.
    split; [reflexivity|]. split; [reflexivity|].
    intros (k & Hk & _). destruct k; discriminate Hk.
  - destruct (cells (document p2) !! 5%nat) as [td|] eqn:Htd;
      [|vm_compute in Htd; discriminate Htd].
    exists td. split; [reflexivity|].
    vm_compute in Htd. injection Htd as <-.
    split; [reflexivity|]. split; [reflexivity|].
    intros (k & Hk & _). destruct k; discriminate Hk.
Qed.

(** ** What does hold of navigation *)

Lemma MonthFromTime_range t : 0 <= ES.MonthFromTime t <= 11.
Proof.
  unfold ES.MonthFromTime. cbv zeta.
  repeat match goal with
         | |- context [?a <? ?b] => destruct (a <? b)
         end; lia.
Qed.

Lemma TimeWithinDay_range t : 0 <= ES.TimeWithinDay t < ES.msPerDay.
Proof. unfold ES.TimeWithinDay, ES.msPerDay. zdiv. Qed.

(** [setMonth] on a date whose day of the month every month has. *)
Lemma setMonth_fields tza t0 m :
  zone_offset tza ->
  -271819 <= ES.YearFromTime (t0 + tza) <= 275758 ->
  ES.DateFromTime (t0 + tza) <= 28 -> -1 <= m <= 12 ->
  exists t1,
    ES.setMonth tza (Some t0) (Some m) = Some t1 /\
    ES.YearFromTime (t1 + tza) = ES.YearFromTime (t0 + tza) + m / 12 /\
    ES.MonthFromTime (t1 + tza) = m mod 12 /\
    ES.DateFromTime (t1 + tza) = ES.DateFromTime (t0 + tza).
Proof.
  intros Htza Hy Hdt Hm.
  unfold ES.setMonth, ES.LocalTime, ES.MakeDay, ES.MakeDate, ES.UTC, ES.TimeClip.
  cbv zeta. set (t := t0 + tza) in *.
  set (y := ES.YearFromTime t) in *. set (dt := ES.DateFromTime t) in *.
  set (tw := ES.TimeWithinDay t).
  assert (Hdt1 : 1 <= dt) by apply DateFromTime_range.
  assert (Htw : 0 <= tw < ES.msPerDay) by apply TimeWithinDay_range.
  set (ym := y + m / 12). set (mn := m mod 12).
  rewrite DaysInYear_leap.
  replace (if (if is_leap_year ym then 366 else 365) =? 366 then 1 else 0)
    with (if is_leap_year ym then 1 else 0)
    by (destruct (is_leap_year ym); reflexivity).
  assert (Hmn : 0 <= mn <= 11) by (subst mn; zdiv).
  assert (Hym : -271820 <= ym <= 275759) by (subst ym; zdiv).
  pose proof (gregorian_daysInMonth_range ym mn) as Hdim.
  pose proof (fields_of_civil_date ym mn dt tw Hmn ltac:(lia) Htw) as Hfields.
  cbv zeta in Hfields.
  set (l := if is_leap_year ym then 1 else 0) in *.
  assert (Hl : 0 <= l <= 1) by (subst l; destruct (is_leap_year ym); lia).
  pose proof (DayOfMonthStart_range mn l Hl) as Hs.
  pose proof (DayFromYear_in_range ym ltac:(lia)) as Hd.
  pose proof (DayFromYear_lt ym 275760 ltac:(lia)) as Hup.
  pose proof (DayFromYear_in_range 275760 ltac:(lia)) as Htop.
  set (day := ES.DayFromYear ym + ES.DayOfMonthStart mn l + dt - 1) in *.
  unfold zone_offset, ES.msPerDay in *.
  destruct (Z.ltb_spec 8640000000000000 (Z.abs (day * 86400000 + tw - tza)))
    as [Hbig|_].
  - exfalso. subst day. lia.
  - eexists. split; [reflexivity|].
    replace (day * 86400000 + tw - tza + tza) with (day * 86400000 + tw) by lia.
    exact Hfields.
Qed.

Lemma rebuild_currentDate tza cd p : currentDate (rebuild tza cd p).1 = cd.
Proof.
  unfold rebuild. destruct (buildCalendar _ _ _ _ _) as [doc exn]. reflexivity.
Qed.

(** The part of C3 that the script fulfils.  When the day of the month
    of [currentDate] is at most 28 (and its year is within the range of
    [Date]), "next" leads from (month, year) to (month + 1, year), or to
    (0, year + 1) from December, and "previous" to (month - 1, year), or
    to (11, year - 1) from January. *)
Lemma navigation_from_early_day tza p t0 :
  zone_offset tza -> currentDate p = Some t0 ->
  -271819 <= ES.YearFromTime (t0 + tza) <= 275758 ->
  ES.DateFromTime (t0 + tza) <= 28 ->
  let month := ES.MonthFromTime (t0 + tza) in
  let year := ES.YearFromTime (t0 + tza) in
  let next := currentDate (nextMonthClick tza p).1 in
  let prev := currentDate (prevMonthClick tza p).1 in
  (ES.getMonth tza next, ES.getFullYear tza next)
  = (if month =? 11 then (Some 0, Some (year + 1)) else (Some (month + 1), Some year)) /\
  (ES.getMonth tza prev, ES.getFullYear tza prev)
  = (if month =? 0 then (Some 11, Some (year - 1)) else (Some (month - 1), Some year)) /\
  ES.getDate tza next = ES.getDate tza (currentDate p) /\
  ES.getDate tza prev = ES.getDate tza (currentDate p).
Proof.
  intros Htza Hcd Hy Hdt month year next prev.
  pose proof (MonthFromTime_range (t0 + tza)) as Hm. fold month in Hm.
  subst next prev. unfold nextMonthClick, prevMonthClick. cbv zeta.
  rewrite !rebuild_currentDate, Hcd.
  cbn [ES.getMonth ES.getDate num_add num_sub]. unfold ES.LocalTime. fold month.
  destruct (setMonth_fields tza t0 (month + 1) Htza Hy Hdt ltac:(lia))
    as (t1 & -> & Hy1 & Hm1 & Hd1).
  destruct (setMonth_fields tza t0 (month - 1) Htza Hy Hdt ltac:(lia))
    as (t2 & -> & Hy2 & Hm2 & Hd2).
  cbn [ES.getMonth ES.getFullYear ES.getDate]. unfold ES.LocalTime.
  rewrite Hy1, Hm1, Hd1, Hy2, Hm2, Hd2. fold year.
  split; [|split; [|split; reflexivity]].
  - destruct (Z.eqb_spec month 11) as [->|Hne].
    + reflexivity.
    + replace ((month + 1) mod 12) with (month + 1) by zdiv.
      replace ((month + 1) / 12) with 0 by zdiv. rewrite Z.add_0_r. reflexivity.
  - destruct (Z.eqb_spec month 0) as [->|Hne].
    + reflexivity.
    + replace ((month - 1) mod 12) with (month - 1) by zdiv.
      replace ((month - 1) / 12) with 0 by zdiv. rewrite Z.add_0_r. reflexivity.
Qed.

(** The two walks that the specification names, from any day of the
    month: from January 2024 "previous" then "next" comes back to January
    2024, and from December 2023 "next" leads to January 2024. *)
Lemma navigation_examples :
  forallb (fun day =>
    let jan := {| currentDate := ES.Date_new 0 (Some 2024) (Some 0) (Some day);
                  localStorage := ∅; document := emptyDocument |} in
    let dec := {| currentDate := ES.Date_new 0 (Some 2023) (Some 11) (Some day);
                  localStorage := ∅; document := emptyDocument |} in
    let back := currentDate (nextMonthClick 0 (prevMonthClick 0 jan).1).1 in
    let on := currentDate (nextMonthClick 0 dec).1 in
    bool_decide ((ES.getMonth 0 back, ES.getFullYear 0 back) = (Some 0, Some 2024))
    && bool_decide ((ES.getMonth 0 on, ES.getFullYear 0 on) = (Some 0, Some 2024)))
    (seqZ 1 31) = true.
Proof. vm_compute. reflexivity. Qed.

(** * Further properties of the script

    What else the code shows, beyond the claims of the specification:
    the date keys, the grid for any store, failures, the listener run more
    than once and walks through the months. *)

(** ** Date keys *)

Lemma string_length_append (a b : string) :
  String.length (a +:+ b) = (String.length a + String.length b)%nat.
Proof. induction a as [|c a IH]; [reflexivity|]. simpl. rewrite IH. reflexivity. Qed.

(** Two strings with suffixes of one length are equal part by part. *)
Lemma append_inj_length (a a' b b' : string) :
  String.length b = String.length b' -> a +:+ b = a' +:+ b' -> a = a' /\ b = b'.
Proof.
  intros Hlen. revert a'. induction a as [|c a IH]; intros [|c' a'] H.
  - simpl in H. auto.
  - exfalso. change (b = String c' (a' +:+ b')) in H. subst b.
    cbn [String.length] in Hlen. rewrite string_length_append in Hlen. lia.
  - exfalso. change (String c (a +:+ b) = b') in H. subst b'.
    cbn [String.length] in Hlen. rewrite string_length_append in Hlen. lia.
  - simpl in H. injection H as -> H. destruct (IH a' H) as [-> ->]. auto.
Qed.

Lemma Number_toString_inj y y' :
  Number_toString (Some y) = Number_toString (Some y') -> y = y'.
Proof.
  unfold Number_toString. intros H.
  apply (f_equal NilEmpty.int_of_string) in H. rewrite !NilEmpty.isi in H.
  injection H as H. apply (f_equal Z.of_int) in H. rewrite !DecimalZ.of_to in H. exact H.
Qed.

Lemma two_digits_inj n n' :
  0 <= n <= 99 -> 0 <= n' <= 99 -> two_digits n = two_digits n' -> n = n'.
Proof.
  intros Hn Hn' H. unfold two_digits, digit in H. injection H as H1 H0.
  apply (f_equal nat_of_ascii) in H1, H0.
  rewrite !nat_ascii_embedding in H1, H0 by (zdiv).
  zdiv.
Qed.

(** Within one month and year the key tells the day. *)
Lemma dateStr_of_inj_day year month d d' :
  0 <= d <= 99 -> 0 <= d' <= 99 ->
  dateStr_of year month d = dateStr_of year month d' -> d = d'.
Proof.
  intros Hd Hd' H. unfold dateStr_of in H.
  do 4 apply String.app_inj in H.
  rewrite !pad_two_digits in H by assumption.
  exact (two_digits_inj d d' Hd Hd' H).
Qed.

(** X1.  [pad] on an integer from 0 below 2^53 (the integers that a
    Number holds one by one, and that [toString] prints with all their
    digits): the result has at least two characters and reads back in
    decimal as the same number; a number below 10 gets one leading zero,
    a number from 10 on is printed as it is, not cut to two characters. *)
Theorem pad_reads_back n :
  0 <= n < 2 ^ 53 ->
  (2 <= String.length (pad (Some n)))%nat /\
  Z.of_int <$> NilEmpty.int_of_string (pad (Some n)) = Some n /\
  (n <= 9 -> pad (Some n) = String "0" (Number_toString (Some n))) /\
  (10 <= n -> pad (Some n) = Number_toString (Some n)).
Proof.
  intros [Hn _]. destruct (Z.le_gt_cases n 9) as [Hsmall|Hbig].
  - replace n with (Z.of_nat (Z.to_nat n)) by lia.
    assert (Hk : (Z.to_nat n < 10)%nat) by lia.
    destruct (Z.to_nat n) as [|[|[|[|[|[|[|[|[|[|k]]]]]]]]]]; [..|lia];
      (split; [vm_compute; lia|]); (split; [reflexivity|]);
      (split; [reflexivity|lia]).
  - assert (Hlen : (2 <= String.length (Number_toString (Some n)))%nat).
    { unfold Number_toString. pose proof (DecimalZ.of_to n) as Hof.
      destruct (Z.to_int n) as [u|u]; cbn [NilEmpty.string_of_int].
      - destruct u as [|u|u|u|u|u|u|u|u|u|u];
          try (destruct u; [vm_compute in Hof; lia|cbn; lia..]).
        vm_compute in Hof. lia.
      - cbn [Z.of_int] in Hof. unfold Z.of_uint in Hof. lia. }
    assert (Hpad : pad (Some n) = Number_toString (Some n)).
    { unfold pad, padStart. apply Nat.leb_le in Hlen. rewrite Hlen. reflexivity. }
    rewrite Hpad. split; [exact Hlen|]. split; [|split; [lia|reflexivity]].
    unfold Number_toString. rewrite NilEmpty.isi. cbn. rewrite DecimalZ.of_to. reflexivity.
Qed.

Lemma pad_reads_back_witness :
  (2 <= String.length (pad (Some 7%Z)))%nat /\
  Z.of_int <$> NilEmpty.int_of_string (pad (Some 7)) = Some 7 /\
  (7 <= 9 -> pad (Some 7) = String "0" (Number_toString (Some 7))) /\
  (10 <= 7 -> pad (Some 7) = Number_toString (Some 7)).
Proof. apply (pad_reads_back 7). split; [lia|reflexivity]. Defined.

(** X2.  Two days with the same date key are the same day: for years
    that a [Date] can hold, months 0..11 and days 1..31, the key of line
    71 determines the year, the month and the day. *)
Theorem dateStr_of_injective y m d y' m' d' :
  -271821 <= y <= 275760 -> -271821 <= y' <= 275760 ->
  0 <= m <= 11 -> 0 <= m' <= 11 -> 1 <= d <= 31 -> 1 <= d' <= 31 ->
  dateStr_of (Some y) (Some m) d = dateStr_of (Some y') (Some m') d' ->
  y = y' /\ m = m' /\ d = d'.
Proof.
  intros _ _ Hm Hm' Hd Hd' H. unfold dateStr_of, num_add in H.
  rewrite !pad_two_digits in H by lia.
  apply append_inj_length in H as [Hy H]; [|reflexivity].
  apply Number_toString_inj in Hy.
  lazy beta iota zeta delta [String.append two_digits] in H.
  injection H as H1 H2 H3 H4.
  assert (Hmm : two_digits (m + 1) = two_digits (m' + 1))
    by (unfold two_digits; rewrite H1, H2; reflexivity).
  assert (Hdd : two_digits d = two_digits d')
    by (unfold two_digits; rewrite H3, H4; reflexivity).
  apply two_digits_inj in Hmm, Hdd; lia.
Qed.

Lemma dateStr_of_injective_witness :
  dateStr_of (Some 2024) (Some 0) 5 = dateStr_of (Some 2024) (Some 0) 5 /\
  2024 = 2024 /\ 0 = 0 /\ 5 = 5.
Proof.
  split; [reflexivity|].
  apply (dateStr_of_injective 2024 0 5 2024 0 5); try lia. reflexivity.
Defined.

(** ** The grid in closed form, for any month and year *)

Lemma gridShape_range tza month year :
  let '(f, n, k) := gridShape tza month year in
  0 <= f < 7 /\ 0 <= n <= 31 /\ k = 7 * - (- (f + n) / 7) /\
  (n = 0 \/ firstDay_of tza month year = Some f /\ daysInMonth_of tza month year = Some n).
Proof.
  unfold gridShape.
  destruct (firstDay_of tza month year) as [f|] eqn:Hf;
    [|split; [lia|split; [lia|split; [reflexivity|left; reflexivity]]]].
  destruct (daysInMonth_of tza month year) as [n|] eqn:Hn;
    [|split; [lia|split; [lia|split; [reflexivity|left; reflexivity]]]].
  assert (Hf0 : 0 <= f < 7).
  { unfold firstDay_of, ES.getDay in Hf.
    destruct (ES.Date_new tza year month (Some 1)); [|discriminate].
    injection Hf as <-. apply WeekDay_range. }
  assert (Hn0 : 1 <= n <= 31).
  { unfold daysInMonth_of, ES.getDate in Hn.
    destruct (ES.Date_new tza year (num_add month (Some 1)) (Some 0)); [|discriminate].
    injection Hn as <-. apply DateFromTime_range. }
  split; [exact Hf0|]. split; [lia|]. split; [reflexivity|]. right. auto.
Qed.

Lemma daysInMonth_of_range tza month year n :
  daysInMonth_of tza month year = Some n -> 1 <= n <= 31.
Proof.
  unfold daysInMonth_of, ES.getDate.
  destruct (ES.Date_new tza year (num_add month (Some 1)) (Some 0)); [|discriminate].
  intros [= <-]. apply DateFromTime_range.
Qed.

(** Heading and rows of a build that meets no value with whitespace. *)
Lemma buildCalendar_body tza ls month year doc :
  whitespace_free ls month year ->
  let '(f, n, k) := gridShape tza month year in
  buildCalendar tza ls month year doc
  = ({| monthYearText := monthNames_at month +:+ " " +:+ Number_toString year;
        calendarBody := rowAt ls month year f n <$> seqZ 0 (- (- (f + n) / 7)) |},
     None).
Proof.
  intros Hls. unfold gridShape, buildCalendar. cbv zeta.
  destruct (firstDay_of tza month year) as [f|] eqn:Hf; [|reflexivity].
  destruct (daysInMonth_of tza month year) as [n|] eqn:Hn; [|reflexivity].
  cbn [num_add Math_ceil_div calendarBody monthYearText].
  pose proof (gridShape_range tza month year) as Hr. unfold gridShape in Hr.
  rewrite Hf, Hn in Hr. destruct Hr as (Hf0 & Hn0 & _).
  set (rc := - (- (f + n) / 7)).
  assert (Hrc : 0 <= rc) by (subst rc; zdiv).
  pose proof (rowLoop_layout ls month year f n ltac:(lia)
                (fun day Hd => buildDayCell_Done ls month year day (Hls day ltac:(lia)))
                rc (Z.to_nat rc) 0 [] ltac:(lia) ltac:(lia)) as H.
  replace (dayCounterAt f n (0 * 7)) with 1 in H by (unfold dayCounterAt; lia).
  rewrite H. rewrite Z2Nat.id by assumption. reflexivity.
Qed.

(** The cell at ([row], [col]) of a grid in closed form. *)
Lemma grid_lookup ls month year f n rc (row col : nat) tr td :
  (rowAt ls month year f n <$> seqZ 0 rc) !! row = Some tr -> tr !! col = Some td ->
  Z.of_nat row < rc /\ (col < 7)%nat /\
  tr = rowAt ls month year f n (Z.of_nat row) /\
  td = cellAt ls month year f n (Z.of_nat row * 7 + Z.of_nat col).
Proof.
  intros Hrow Hcol. rewrite list_lookup_fmap in Hrow.
  destruct (seqZ 0 rc !! row) as [r|] eqn:Hr; [|discriminate].
  apply lookup_seqZ in Hr as [-> Hr]. injection Hrow as <-.
  unfold rowAt in Hcol. rewrite list_lookup_fmap in Hcol.
  destruct (seqZ ((0 + Z.of_nat row) * 7) 7 !! col) as [i|] eqn:Hi; [|discriminate].
  apply lookup_seqZ in Hi as [-> Hi]. injection Hcol as <-.
  replace (0 + Z.of_nat row) with (Z.of_nat row) by lia.
  split; [lia|]. split; [lia|]. split; reflexivity.
Qed.

Lemma dayCellOf_closed ls month year day :
  (forall v, getItem ls (dateStr_of year month day) = Some v ->
             has_ascii_whitespace v = false) ->
  let key := dateStr_of year month day in
  dayCellOf ls month year day
  = {| classList := savedClasses (getItem ls key);
       content := Some (mkDayContent day
                          (gradeSelect key
                             match getItem ls key with
                             | Some g => if String.eqb g "" then Some 0%nat
                                         else index_of_value g gradeOptions
                             | None => Some 0%nat
                             end) key) |}.
Proof.
  intros Hls key. unfold dayCellOf, savedClasses. rewrite buildDayCell_eq. cbv zeta.
  fold key. destruct (getItem ls key) as [g|] eqn:Hg; [|reflexivity].
  destruct (String.eqb g ""); [reflexivity|].
  rewrite validate_grade_class by exact (Hls g Hg). reflexivity.
Qed.

(** A cell of the closed form that holds a day. *)
Lemma cellAt_content ls month year f n i c :
  content (cellAt ls month year f n i) = Some c ->
  f <= i < f + n /\ cellAt ls month year f n i = dayCellOf ls month year (i - f + 1).
Proof.
  unfold cellAt. destruct (Z.leb_spec f i), (Z.ltb_spec i (f + n)); cbn [andb];
    try discriminate. intros _. split; [lia|reflexivity].
Qed.

(** ** The days of the grid, whatever the store holds *)

Lemma buildDayCell_day_key ls month year day td :
  buildDayCell ls month year createElement_td day = Done td ->
  td_day td = Some day /\ td_dateKey td = Some (dateStr_of year month day).
Proof.
  rewrite buildDayCell_eq. cbv zeta. intros Hbuild.
  destruct (getItem ls (dateStr_of year month day)) as [g|].
  - destruct (String.eqb g "").
    + injection Hbuild as <-. split; reflexivity.
    + destruct (validate_token ("grade-" +:+ toLowerCase g)) as [[]|e]; [|discriminate].
      injection Hbuild as <-. split; reflexivity.
  - injection Hbuild as <-. split; reflexivity.
Qed.

(** The loops on any store, any first weekday and any month length,
    NaN included: the cells that hold a day hold [dayCounter],
    [dayCounter + 1], .. in this order, the counter never passes
    [daysInMonth + 1], and a finished row has seven cells. *)

Section LoopOrder.

Variable ls : Storage.
Variables month year firstDay daysInMonth : number.

Lemma colLoop_days fuel : forall row col tr dc tr' dc',
  colLoop ls month year firstDay daysInMonth fuel row col tr dc = Done (tr', dc') ->
  dc <= dc' /\
  omap td_day tr' = omap td_day tr ++ seqZ dc (dc' - dc) /\
  (daysInMonth = None -> dc' = dc) /\
  (forall n, daysInMonth = Some n -> dc <= n + 1 -> dc' <= n + 1) /\
  (0 <= col -> col + Z.of_nat fuel = 7 -> length tr' = (length tr + fuel)%nat).
Proof.
  induction fuel as [|fuel IH]; intros row col tr dc tr' dc'; cbn [colLoop].
  - intros [= <- <-]. rewrite Z.sub_diag, seqZ_nil, app_nil_r by lia.
    repeat split; lia || auto.
  - destruct (Z.ltb_spec col 7) as [Hcol|Hcol].
    2:{ intros [= <- <-]. rewrite Z.sub_diag, seqZ_nil, app_nil_r by lia.
        repeat split; lia || auto. }
    cbv zeta.
    destruct (num_leb firstDay (Some (row * 7 + col)) && num_leb (Some dc) daysInMonth)
      eqn:Hin.
    + apply andb_true_iff in Hin as [_ Hle].
      destruct (buildDayCell ls month year createElement_td dc) as [td|e] eqn:Htd;
        cbn [andThen]; [|discriminate].
      intros Hloop. apply IH in Hloop as (Hdc & Hdays & Hnone & Hsome & Hlen).
      apply buildDayCell_day_key in Htd as [Hday _].
      rewrite omap_app in Hdays. cbn [omap list_omap] in Hdays. rewrite Hday in Hdays.
      split; [lia|]. split; [|split; [|split]].
      * rewrite Hdays, <- app_assoc. f_equal. cbn [app].
        rewrite (seqZ_cons dc) by lia. f_equal. f_equal; lia.
      * intros Hd. rewrite Hd in Hle. discriminate Hle.
      * intros n Hn Hb. apply (Hsome n Hn). rewrite Hn in Hle. cbn in Hle.
        apply Z.leb_le in Hle. lia.
      * intros H0 Hf. rewrite Hlen by lia. rewrite length_app. cbn. lia.
    + cbn [andThen]. intros Hloop.
      apply IH in Hloop as (Hdc & Hdays & Hnone & Hsome & Hlen).
      rewrite omap_app in Hdays. cbn [omap list_omap] in Hdays.
      unfold td_day at 2 in Hdays. cbn in Hdays. rewrite app_nil_r in Hdays.
      split; [lia|]. split; [exact Hdays|]. split; [exact Hnone|]. split; [exact Hsome|].
      intros H0 Hf. rewrite Hlen by lia. rewrite length_app. cbn. lia.
Qed.

Lemma rowLoop_days fuel : forall rowCount row body dc,
  0 <= row -> Forall (fun tr => length tr = 7%nat) body ->
  let body' := (rowLoop ls month year firstDay daysInMonth fuel rowCount row body dc).1 in
  Forall (fun tr => length tr = 7%nat) body' /\
  exists dc', dc <= dc' /\
    omap td_day (concat body') = omap td_day (concat body) ++ seqZ dc (dc' - dc) /\
    (daysInMonth = None -> dc' = dc) /\
    (forall n, daysInMonth = Some n -> dc <= n + 1 -> dc' <= n + 1).
Proof.
  induction fuel as [|fuel IH]; intros rowCount row body dc Hrow Hbody; cbn [rowLoop].
  - cbn. split; [exact Hbody|]. exists dc.
    rewrite Z.sub_diag, seqZ_nil, app_nil_r by lia. repeat split; lia || auto.
  - assert (Hstop : Forall (fun tr => length tr = 7%nat) body /\
      exists dc', dc <= dc' /\
        omap td_day (concat body) = omap td_day (concat body) ++ seqZ dc (dc' - dc) /\
        (daysInMonth = None -> dc' = dc) /\
        (forall n, daysInMonth = Some n -> dc <= n + 1 -> dc' <= n + 1)).
    { split; [exact Hbody|]. exists dc.
      rewrite Z.sub_diag, seqZ_nil, app_nil_r by lia. repeat split; lia || auto. }
    destruct (num_ltb (Some row) rowCount); [|exact Hstop].
    destruct (colLoop ls month year firstDay daysInMonth 7 row 0 [] dc)
      as [[tr dc1]|e] eqn:Hcol; [|exact Hstop].
    apply colLoop_days in Hcol as (Hdc & Hdays & Hnone & Hsome & Hlen).
    specialize (Hlen ltac:(lia) ltac:(lia)). cbn in Hlen, Hdays.
    destruct (IH rowCount (row + 1) (body ++ [tr]) dc1 ltac:(lia))
      as [H7 (dc' & H1 & H2 & H3 & H4)].
    { apply Forall_app. split; [exact Hbody|]. constructor; [exact Hlen|constructor]. }
    split; [exact H7|]. exists dc'. split; [lia|]. split; [|split].
    + rewrite H2, concat_app, omap_app. cbn [concat]. rewrite app_nil_r, Hdays.
      rewrite <- app_assoc. f_equal.
      replace (dc' - dc) with ((dc1 - dc) + (dc' - dc1)) by lia.
      rewrite seqZ_app by lia. f_equal. f_equal. lia.
    + intros Hd. rewrite (H3 Hd). auto.
    + intros n Hn Hb. apply (H4 n Hn). exact (Hsome n Hn Hb).
Qed.

End LoopOrder.

Lemma omap_dateKey_day year month (l : list HTMLTableCellElement) :
  Forall (fun td => td_dateKey td = dateStr_of year month <$> td_day td) l ->
  omap td_dateKey l = dateStr_of year month <$> omap td_day l.
Proof.
  induction 1 as [|td l Htd _ IH]; [reflexivity|].
  cbn [omap list_omap]. rewrite Htd, IH.
  destruct (td_day td); reflexivity.
Qed.

Lemma buildCalendar_day_sequence tza ls month year doc :
  let body := calendarBody (buildCalendar tza ls month year doc).1 in
  Forall (fun tr => length tr = 7%nat) body /\
  exists k, 0 <= k <= 31 /\
    (forall n, daysInMonth_of tza month year = Some n -> k <= n) /\
    (daysInMonth_of tza month year = None -> k = 0) /\
    omap td_day (concat body) = seqZ 1 k /\
    omap td_dateKey (concat body) = dateStr_of year month <$> seqZ 1 k.
Proof.
  intros body.
  assert (Hkeys : Forall (Forall (fun td =>
            td_dateKey td = dateStr_of year month <$> td_day td)) body).
  { apply buildCalendar_cells_invariant; [reflexivity|].
    intros day td _ _ Hbuild. apply buildDayCell_day_key in Hbuild as [-> ->].
    reflexivity. }
  subst body. unfold buildCalendar in *. cbv zeta in *.
  set (rowCount := Math_ceil_div _ 7) in *.
  set (fuel := match rowCount with Some k => Z.to_nat k | None => 0%nat end) in *.
  pose proof (rowLoop_days ls month year (firstDay_of tza month year)
                (daysInMonth_of tza month year) fuel rowCount 0 [] 1
                ltac:(lia) (Forall_nil_2 _)) as Hinv.
  cbn [calendarBody] in *. cbv zeta in Hinv.
  destruct (rowLoop ls month year (firstDay_of tza month year)
              (daysInMonth_of tza month year) fuel rowCount 0 [] 1) as [body exn].
  cbn [fst snd calendarBody] in *.
  destruct Hinv as [H7 (dc' & Hdc & Hdays & Hnone & Hsome)].
  split; [exact H7|]. exists (dc' - 1). cbn [concat omap list_omap app] in Hdays.
  assert (Hb : forall n, daysInMonth_of tza month year = Some n -> dc' - 1 <= n).
  { intros n Hn. pose proof (daysInMonth_of_range _ _ _ _ Hn).
    specialize (Hsome n Hn ltac:(lia)). lia. }
  assert (H0 : daysInMonth_of tza month year = None -> dc' - 1 = 0).
  { intros Hn. rewrite (Hnone Hn). reflexivity. }
  split; [|split; [exact Hb|split; [exact H0|split; [exact Hdays|]]]].
  - destruct (daysInMonth_of tza month year) as [n|] eqn:Hn.
    + pose proof (daysInMonth_of_range _ _ _ _ Hn). specialize (Hb n eq_refl). lia.
    + specialize (H0 eq_refl). lia.
  - rewrite <- Hdays. apply omap_dateKey_day.
    apply Forall_forall. intros td Htd. apply elem_of_concat in Htd as (tr & Htd & Htr).
    rewrite Forall_forall in Hkeys. specialize (Hkeys tr Htr).
    rewrite Forall_forall in Hkeys. exact (Hkeys td Htd).
Qed.

(** X3.  For every store, month and year, also when the build stops at
    an exception or a [Date] is invalid: every row of the table body has
    seven cells, and the day numbers of the cells, read left to right and
    top to bottom, are 1, 2, .., k with no gap and no repeat, for a [k]
    that is at most [daysInMonth] (0 when that is NaN). *)
Theorem buildCalendar_days_in_order tza ls month year doc :
  let doc' := (buildCalendar tza ls month year doc).1 in
  Forall (fun tr => length tr = 7%nat) (calendarBody doc') /\
  exists k, 0 <= k <= 31 /\
    (forall n, daysInMonth_of tza month year = Some n -> k <= n) /\
    (daysInMonth_of tza month year = None -> k = 0) /\
    omap td_day (cells doc') = seqZ 1 k.
Proof.
  intros doc'.
  destruct (buildCalendar_day_sequence tza ls month year doc)
    as [H7 (k & Hk & Hle & Hnone & Hdays & _)].
  split; [exact H7|]. exists k. unfold cells. auto.
Qed.

(** X4.  No date key occurs in two cells of a grid, for every store,
    month and year, also when the build stops at an exception. *)
Theorem grid_keys_distinct tza ls month year doc :
  NoDup (omap td_dateKey (cells (buildCalendar tza ls month year doc).1)).
Proof.
  destruct (buildCalendar_day_sequence tza ls month year doc)
    as [_ (k & Hk & _ & _ & _ & Hkeys)].
  unfold cells. cbv zeta in Hkeys. rewrite Hkeys.
  apply NoDup_fmap_2_strong; [|apply NoDup_seqZ].
  intros d d' Hd Hd' H. apply elem_of_seqZ in Hd, Hd'.
  apply (dateStr_of_inj_day year month d d'); lia || assumption.
Qed.

(** ** Rows and columns *)

(** X5.  On a host whose zone is one constant offset from UTC, a month
    whose [Date]s are valid, built from a store without whitespace values
    for it, has four, five or six rows: four exactly when day 1 is a
    Sunday and the month has 28 days, six exactly when the offset of
    day 1 and the month length add up to more than 35.  (The comment of
    lines 54-55 says "at least 5 rows"; February 2015 has four.) *)
Theorem buildCalendar_row_bounds tza ls month year doc :
  zone_offset tza -> whitespace_free ls (Some month) (Some year) ->
  0 <= month <= 11 -> in_Date_range (ES.fullYear year) month ->
  exists f n,
    firstDay_of tza (Some month) (Some year) = Some f /\
    daysInMonth_of tza (Some month) (Some year) = Some n /\
    let rows := Z.of_nat (length (calendarBody
                  (buildCalendar tza ls (Some month) (Some year) doc).1)) in
    4 <= rows <= 6 /\
    (rows = 4 <-> f = 0 /\ n = 28) /\
    (rows = 6 <-> 35 < f + n).
Proof.
  intros Htza Hls Hm Hy.
  exists (gregorian_weekday (ES.fullYear year) month 1),
         (gregorian_daysInMonth (ES.fullYear year) month).
  split; [apply firstDay_of_gregorian; assumption|].
  split; [apply daysInMonth_of_gregorian; assumption|].
  rewrite (buildCalendar_grid tza ls month year doc Htza Hy Hm Hls).
  cbn [fst calendarBody]. rewrite length_fmap, length_seqZ.
  pose proof (gregorian_weekday_range (ES.fullYear year) month 1) as Hf.
  pose proof (gregorian_daysInMonth_range (ES.fullYear year) month) as Hn.
  set (f := gregorian_weekday (ES.fullYear year) month 1) in *.
  set (n := gregorian_daysInMonth (ES.fullYear year) month) in *.
  cbv zeta. rewrite Z2Nat.id by zdiv. zdiv.
Qed.

Lemma buildCalendar_row_bounds_witness :
  exists f n,
    firstDay_of 0 (Some 1) (Some 2015) = Some f /\
    daysInMonth_of 0 (Some 1) (Some 2015) = Some n /\
    let rows := Z.of_nat (length (calendarBody
                  (buildCalendar 0 ∅ (Some 1) (Some 2015) emptyDocument).1)) in
    4 <= rows <= 6 /\
    (rows = 4 <-> f = 0 /\ n = 28) /\
    (rows = 6 <-> 35 < f + n).
Proof.
  apply (buildCalendar_row_bounds 0 ∅ 1 2015 emptyDocument).
  - unfold zone_offset, ES.msPerDay. lia.
  - intros day _ v [=].
  - lia.
  - unfold in_Date_range. vm_compute. split; discriminate.
Defined.

Lemma gregorian_weekday_day year month day :
  gregorian_weekday year month day = (gregorian_weekday year month 1 + day - 1) mod 7.
Proof. unfold gregorian_weekday. zdiv. Qed.

(** X6.  On a host whose zone is one constant offset from UTC every day
    sits in the column of its weekday: in the grid of a month whose
    [Date]s are valid, a cell in column [col] (0 = leftmost) that shows
    day [d] has [new Date(year, month, d).getDay() = col].  (A day that
    the zone skips is read by [new Date] as the day after it, and its
    cell is one column off: see [Apia_December_2011].) *)
Theorem day_in_weekday_column tza ls month year doc (row col : nat) tr td d :
  zone_offset tza -> whitespace_free ls (Some month) (Some year) ->
  0 <= month <= 11 -> in_Date_range (ES.fullYear year) month ->
  calendarBody (buildCalendar tza ls (Some month) (Some year) doc).1 !! row = Some tr ->
  tr !! col = Some td -> td_day td = Some d ->
  ES.getDay tza (ES.Date_new tza (Some year) (Some month) (Some d)) = Some (Z.of_nat col).
Proof.
  intros Htza Hls Hm Hy Hrow Hcol Hd.
  rewrite (buildCalendar_grid tza ls month year doc Htza Hy Hm Hls) in Hrow.
  cbn [fst calendarBody] in Hrow.
  pose proof (gregorian_weekday_range (ES.fullYear year) month 1) as Hf.
  pose proof (gregorian_daysInMonth_range (ES.fullYear year) month) as Hn.
  set (Y := ES.fullYear year) in *.
  set (f := gregorian_weekday Y month 1) in *.
  set (n := gregorian_daysInMonth Y month) in *.
  destruct (grid_lookup _ _ _ _ _ _ _ _ _ _ Hrow Hcol) as (_ & Hc7 & _ & ->).
  set (i := Z.of_nat row * 7 + Z.of_nat col) in *.
  destruct (content (cellAt ls (Some month) (Some year) f n i)) as [c|] eqn:Hc;
    [|unfold td_day in Hd; rewrite Hc in Hd; discriminate Hd].
  apply cellAt_content in Hc as [Hi Hcell]. rewrite Hcell in Hd.
  destruct (dayCellOf_eq ls (Some month) (Some year) (i - f + 1)
              (Hls (i - f + 1) ltac:(lia)))
    as (_ & Hday & _).
  rewrite Hday in Hd. injection Hd as <-.
  pose proof (month_within_Date Y month Hy Hm) as Hin. cbv zeta in Hin.
  pose proof (Date_new_eq tza year month (i - f + 1) Htza) as Hnew. cbv zeta in Hnew.
  fold Y in Hnew.
  replace (month / 12) with 0 in Hnew by zdiv.
  replace (month mod 12) with month in Hnew by zdiv.
  rewrite Z.add_0_r in Hnew. rewrite Hnew by lia.
  unfold ES.getDay, ES.LocalTime. f_equal.
  pose proof (WeekDay_gregorian Y month (i - f + 1) 0 Hm) as H. cbv zeta in H.
  etransitivity; [etransitivity; [|apply H; unfold ES.msPerDay; lia]; f_equal; lia|].
  rewrite gregorian_weekday_day. fold f. subst i. zdiv.
Qed.

Lemma day_in_weekday_column_witness :
  ES.getDay 0 (ES.Date_new 0 (Some 2023) (Some 9) (Some 4)) = Some 3.
Proof.
  destruct (calendarBody (buildCalendar 0 ∅ (Some 9) (Some 2023) emptyDocument).1 !! 0%nat)
    as [tr|] eqn:Hrow; [|vm_compute in Hrow; discriminate Hrow].
  destruct (tr !! 3%nat) as [td|] eqn:Hcol;
    [|vm_compute in Hrow; injection Hrow as <-; discriminate Hcol].
  apply (day_in_weekday_column 0 ∅ 9 2023 emptyDocument 0 3 tr td 4).
  - unfold zone_offset, ES.msPerDay. lia.
  - intros day _ v [=].
  - lia.
  - unfold in_Date_range. vm_compute. split; discriminate.
  - exact Hrow.
  - exact Hcol.
  - vm_compute in Hrow. injection Hrow as <-. vm_compute in Hcol. injection Hcol as <-.
    reflexivity.
Defined.

(** ** Years 0 to 99 *)

(** X7.  For a year from 0 to 99 the [Date] constructor reads 1900 +
    year, so on a host whose zone is one constant offset from UTC
    [buildCalendar] lays out the month of the year 1900 + year, while
    the heading and the date keys carry the year as it was given. *)
Theorem two_digit_year_is_laid_out_as_1900s tza ls month year doc :
  zone_offset tza -> whitespace_free ls (Some month) (Some year) ->
  0 <= month <= 11 -> 0 <= year <= 99 ->
  let doc' := (buildCalendar tza ls (Some month) (Some year) doc).1 in
  (buildCalendar tza ls (Some month) (Some year) doc).2 = None /\
  lays_out doc' (gregorian_weekday (1900 + year) month 1)
                (gregorian_daysInMonth (1900 + year) month) /\
  monthYearText doc' = monthNames_at (Some month) +:+ " " +:+ Number_toString (Some year) /\
  forall td c, td ∈ cells doc' -> content td = Some c ->
    dateStr c = dateStr_of (Some year) (Some month) (dayNumber c).
Proof.
  intros Htza Hls Hm Hy doc'.
  assert (Hfull : ES.fullYear year = 1900 + year).
  { unfold ES.fullYear. destruct (Z.leb_spec 0 year), (Z.leb_spec year 99);
      cbn [andb]; lia || reflexivity. }
  assert (Hrange : in_Date_range (ES.fullYear year) month)
    by (rewrite Hfull; unfold in_Date_range; lia).
  assert (Hkeys : forall td c, td ∈ cells doc' -> content td = Some c ->
            dateStr c = dateStr_of (Some year) (Some month) (dayNumber c)).
  { intros td c Hin Hc. subst doc'. unfold cells in Hin.
    apply elem_of_concat in Hin as (tr & Htd & Htr).
    assert (Hall : Forall (Forall (fun td => forall c, content td = Some c ->
              dateStr c = dateStr_of (Some year) (Some month) (dayNumber c)))
              (calendarBody (buildCalendar tza ls (Some month) (Some year) doc).1)).
    { apply buildCalendar_cells_invariant.
      - intros c' [=].
      - intros day td' _ _ Hbuild c' Hc'.
        destruct (buildDayCell_content _ _ _ _ _ _ Hbuild Hc') as (-> & -> & _).
        reflexivity. }
    rewrite Forall_forall in Hall. specialize (Hall tr Htr).
    rewrite Forall_forall in Hall. exact (Hall td Htd c Hc). }
  subst doc'. revert Hkeys.
  rewrite (buildCalendar_grid tza ls month year doc Htza Hrange Hm Hls).
  rewrite Hfull. cbn [fst snd monthYearText]. intros Hkeys.
  split; [reflexivity|]. split; [|split; [reflexivity|exact Hkeys]].
  apply grid_lays_out.
  - apply gregorian_weekday_range.
  - pose proof (gregorian_daysInMonth_range (1900 + year) month). lia.
  - intros day Hd. apply buildDayCell_Done, Hls.
    pose proof (gregorian_daysInMonth_range (1900 + year) month). lia.
Qed.

Lemma two_digit_year_is_laid_out_as_1900s_witness :
  let doc' := (buildCalendar 0 ∅ (Some 0) (Some 50) emptyDocument).1 in
  (buildCalendar 0 ∅ (Some 0) (Some 50) emptyDocument).2 = None /\
  lays_out doc' (gregorian_weekday (1900 + 50) 0 1) (gregorian_daysInMonth (1900 + 50) 0) /\
  monthYearText doc' = monthNames_at (Some 0) +:+ " " +:+ Number_toString (Some 50) /\
  forall td c, td ∈ cells doc' -> content td = Some c ->
    dateStr c = dateStr_of (Some 50) (Some 0) (dayNumber c).
Proof.
  apply (two_digit_year_is_laid_out_as_1900s 0 ∅ 0 50 emptyDocument).
  - unfold zone_offset, ES.msPerDay. lia.
  - intros day _ v [=].
  - lia.
  - lia.
Defined.

(** ** Time zones *)

(** X8.  The grid does not depend on the time zone: for a month within
    the range of [Date] and two zone offsets below a day, [buildCalendar]
    gives the same page and the same exception, whatever the store
    holds. *)
Theorem buildCalendar_zone_independent tza tza' ls month year doc :
  zone_offset tza -> zone_offset tza' ->
  0 <= month <= 11 -> in_Date_range (ES.fullYear year) month ->
  buildCalendar tza ls (Some month) (Some year) doc
  = buildCalendar tza' ls (Some month) (Some year) doc.
Proof.
  intros Htza Htza' Hm Hy. unfold buildCalendar. cbv zeta.
  rewrite !firstDay_of_gregorian, !daysInMonth_of_gregorian by assumption.
  reflexivity.
Qed.

Lemma buildCalendar_zone_independent_witness :
  buildCalendar (-43200000) {["2024-02-29" := "A"]} (Some 1) (Some 2024) emptyDocument
  = buildCalendar 50400000 {["2024-02-29" := "A"]} (Some 1) (Some 2024) emptyDocument.
Proof.
  apply (buildCalendar_zone_independent (-43200000) 50400000).
  - unfold zone_offset, ES.msPerDay. lia.
  - unfold zone_offset, ES.msPerDay. lia.
  - lia.
  - unfold in_Date_range. vm_compute. split; discriminate.
Defined.

(** ** A zone whose offset changes *)

(** With one offset on both sides of the transition the rule of [Zone]
    is the constant offset of [ES]. *)
Lemma Zone_constant z c :
  Zone.before z = c -> Zone.after z = c ->
  (forall u, Zone.LocalTime z u = ES.LocalTime c u) /\
  (forall tl, Zone.UTC z tl = ES.UTC c tl).
Proof.
  intros Hb Ha. split.
  - intros u. unfold Zone.LocalTime, Zone.offsetAt, ES.LocalTime.
    rewrite Hb, Ha. destruct (u <? Zone.transition z); reflexivity.
  - intros [tl|]; [|reflexivity]. unfold Zone.UTC, ES.UTC. cbv zeta.
    rewrite Hb, Ha.
    destruct (tl - c <? Zone.transition z), (Zone.transition z <=? tl - c); reflexivity.
Qed.

Lemma Zone_constant_Date z c :
  Zone.before z = c -> Zone.after z = c ->
  (forall year month date,
     Zone.Date_new z year month date = ES.Date_new c year month date) /\
  (forall tv, Zone.getDay z tv = ES.getDay c tv) /\
  (forall tv, Zone.getDate z tv = ES.getDate c tv) /\
  (forall tv, Zone.getMonth z tv = ES.getMonth c tv) /\
  (forall tv month, Zone.setMonth z tv month = ES.setMonth c tv month).
Proof.
  intros Hb Ha. destruct (Zone_constant z c Hb Ha) as [HL HU].
  split; [|split; [|split; [|split]]].
  - intros year month date. unfold Zone.Date_new, ES.Date_new. cbv zeta.
    rewrite HU. reflexivity.
  - intros [u|]; [|reflexivity]. cbn. rewrite HL. reflexivity.
  - intros [u|]; [|reflexivity]. cbn. rewrite HL. reflexivity.
  - intros [u|]; [|reflexivity]. cbn. rewrite HL. reflexivity.
  - intros [u|] month; [|reflexivity]. unfold Zone.setMonth, ES.setMonth. cbv zeta.
    rewrite HL, HU. reflexivity.
Qed.

(** A local time reads back as it was given unless the zone skips it;
    a skipped one is moved on by the width of the gap. *)
Lemma Zone_LocalTime_UTC z tl u :
  Zone.UTC z (Some tl) = Some u ->
  let skipped :=
    Zone.transition z + Zone.before z <= tl < Zone.transition z + Zone.after z in
  (~ skipped -> Zone.LocalTime z u = tl) /\
  (skipped -> Zone.LocalTime z u = tl + (Zone.after z - Zone.before z)).
Proof.
  unfold Zone.UTC, Zone.LocalTime, Zone.offsetAt. cbv zeta. intros [= <-].
  destruct (Z.ltb_spec (tl - Zone.before z) (Zone.transition z)) as [H1|H1].
  - destruct (Z.ltb_spec (tl - Zone.before z) (Zone.transition z)); lia.
  - destruct (Z.leb_spec (Zone.transition z) (tl - Zone.after z)) as [H2|H2].
    + destruct (Z.ltb_spec (tl - Zone.after z) (Zone.transition z)); lia.
    + destruct (Z.ltb_spec (tl - Zone.before z) (Zone.transition z)); lia.
Qed.

(** December 1994 in Pacific/Kiritimati.  [new Date(1995, 0, 0)] asks
    for the skipped 31 December and is read as 1 January, so lines 48 and
    49 give a Thursday and a month of one day, and lines 56 to 129 build
    one row that holds day 1 alone. *)
Lemma Kiritimati_December_1994 :
  let firstDay :=
    Zone.getDay Zone.Kiritimati
      (Zone.Date_new Zone.Kiritimati (Some 1994) (Some 11) (Some 1)) in
  let daysInMonth :=
    Zone.getDate Zone.Kiritimati
      (Zone.Date_new Zone.Kiritimati (Some 1994) (num_add (Some 11) (Some 1)) (Some 0)) in
  let rowCount := Math_ceil_div (num_add firstDay daysInMonth) 7 in
  firstDay = Some 4 /\ daysInMonth = Some 1 /\ rowCount = Some 1 /\
  gregorian_daysInMonth 1994 11 = 31 /\
  td_day <$> concat (rowLoop ∅ (Some 11) (Some 1994) firstDay daysInMonth
                             1 rowCount 0 [] 1).1
  = [None; None; None; None; Some 1; None; None].
Proof. vm_compute. repeat split; reflexivity. Qed.

(** December 2011 in Pacific/Apia, which has no 30 December: the grid
    has 31 days from a Thursday and shows day 30 in column 5, while
    [new Date(2011, 11, 30)] is read as the 31st, a Saturday. *)
Lemma Apia_December_2011 :
  let firstDay :=
    Zone.getDay Zone.Apia (Zone.Date_new Zone.Apia (Some 2011) (Some 11) (Some 1)) in
  let daysInMonth :=
    Zone.getDate Zone.Apia
      (Zone.Date_new Zone.Apia (Some 2011) (num_add (Some 11) (Some 1)) (Some 0)) in
  firstDay = Some 4 /\ daysInMonth = Some 31 /\
  (4 + 30 - 1) mod 7 = 5 /\
  Zone.getDay Zone.Apia (Zone.Date_new Zone.Apia (Some 2011) (Some 11) (Some 30))
  = Some 6.
Proof. vm_compute. repeat split; reflexivity. Qed.

(** "next" then "previous" in America/New_York from 10 February 2024,
    half past two in the morning: 10 March has no half past two, the time
    is read as half past three, and "previous" leaves [currentDate] an
    hour later than it was. *)
Lemma New_York_February_2024 :
  let t0 := 1707550200000 in
  let next := Zone.setMonth Zone.New_York (Some t0)
                (num_add (Zone.getMonth Zone.New_York (Some t0)) (Some 1)) in
  let back := Zone.setMonth Zone.New_York next
                (num_sub (Zone.getMonth Zone.New_York next) (Some 1)) in
  Zone.getDate Zone.New_York (Some t0) = Some 10 /\
  next = Some 1710055800000 /\ back = Some (t0 + 3600000).
Proof. vm_compute. repeat split; reflexivity. Qed.

(** "next" in Pacific/Kwajalein from 21 July 1993: 21 August is skipped
    and [currentDate] lands on the 22nd. *)
Lemma Kwajalein_July_1993 :
  let t0 := Zone.Date_new Zone.Kwajalein (Some 1993) (Some 6) (Some 21) in
  let next := Zone.setMonth Zone.Kwajalein t0
                (num_add (Zone.getMonth Zone.Kwajalein t0) (Some 1)) in
  Zone.getDate Zone.Kwajalein t0 = Some 21 /\
  Zone.getMonth Zone.Kwajalein next = Some 7 /\
  Zone.getDate Zone.Kwajalein next = Some 22.
Proof. vm_compute. repeat split; reflexivity. Qed.

(** ** Builds that show no grid or stop early *)

Lemma rowLoop_grows ls month year firstDay daysInMonth fuel :
  forall rowCount row body dc,
  (length body <=
   length (rowLoop ls month year firstDay daysInMonth fuel rowCount row body dc).1)%nat.
Proof.
  induction fuel as [|fuel IH]; intros rowCount row body dc; cbn [rowLoop]; [cbn; lia|].
  destruct (num_ltb (Some row) rowCount); [|cbn; lia].
  destruct (colLoop ls month year firstDay daysInMonth 7 row 0 [] dc) as [[tr dc1]|e];
    [|cbn; lia].
  etransitivity; [|apply IH]. rewrite length_app. cbn. lia.
Qed.

(** X9.  [buildCalendar] leaves an empty table body and raises nothing
    exactly when one of its two [Date]s is invalid ([firstDay] or
    [daysInMonth] is NaN), whatever the store holds; the heading is
    written all the same. *)
Theorem buildCalendar_empty_iff_invalid_Date tza ls month year doc :
  (firstDay_of tza month year = None \/ daysInMonth_of tza month year = None)
  <-> buildCalendar tza ls month year doc
      = ({| monthYearText := monthNames_at month +:+ " " +:+ Number_toString year;
            calendarBody := [] |}, None).
Proof.
  split.
  - unfold buildCalendar. cbv zeta.
    destruct (firstDay_of tza month year) as [f|]; [|reflexivity].
    destruct (daysInMonth_of tza month year) as [n|]; [|reflexivity].
    intros [H|H]; discriminate H.
  - intros Hbuild.
    pose proof (gridShape_range tza month year) as Hr. unfold gridShape in Hr.
    destruct (firstDay_of tza month year) as [f|] eqn:Hf; [|left; reflexivity].
    destruct (daysInMonth_of tza month year) as [n|] eqn:Hn; [|right; reflexivity].
    exfalso. destruct Hr as (Hf0 & _ & _ & _).
    apply daysInMonth_of_range in Hn as Hn0.
    unfold buildCalendar in Hbuild. cbv zeta in Hbuild. rewrite Hf, Hn in Hbuild.
    cbn [num_add Math_ceil_div calendarBody monthYearText] in Hbuild.
    set (rc := - (- (f + n) / 7)) in *.
    assert (Hrc : 1 <= rc) by (subst rc; zdiv).
    destruct (Z.to_nat rc) as [|fuel] eqn:Hfuel; [lia|].
    cbn [rowLoop] in Hbuild. unfold num_ltb in Hbuild.
    destruct (Z.ltb_spec 0 rc) as [_|]; [|lia].
    destruct (colLoop ls month year (Some f) (Some n) 7 0 0 [] 1)
      as [[tr dc1]|e] eqn:Hcol; [|discriminate Hbuild].
    pose proof (rowLoop_grows ls month year (Some f) (Some n) fuel (Some rc) (0 + 1)
                  ([] ++ [tr]) dc1) as Hlen.
    destruct (rowLoop ls month year (Some f) (Some n) fuel (Some rc) (0 + 1)
                ([] ++ [tr]) dc1) as [body exn].
    injection Hbuild as -> _. cbn in Hlen. lia.
Qed.

Lemma buildDayCell_throws ls month year day v :
  getItem ls (dateStr_of year month day) = Some v -> has_ascii_whitespace v = true ->
  buildDayCell ls month year createElement_td day = Thrown InvalidCharacterError.
Proof.
  intros Hget Hv. rewrite buildDayCell_eq. cbv zeta. rewrite Hget.
  destruct (String.eqb_spec v "") as [->|_]; [discriminate Hv|].
  unfold validate_token.
  rewrite has_ascii_whitespace_append, has_ascii_whitespace_toLowerCase, Hv.
  reflexivity.
Qed.

(** The loops when the cell of day [d] is the first whose build throws:
    the rows before the row of day [d] are built, that row is given up. *)

Section LoopsStop.

Variable ls : Storage.
Variables month year : number.
Variables f n d : Z.
Variable e : DOMException.
Hypothesis f_nonneg : 0 <= f.
Hypothesis d_in_month : 1 <= d <= n.
Hypothesis cells_before : forall day, 1 <= day < d ->
  buildDayCell ls month year createElement_td day = Done (dayCellOf ls month year day).
Hypothesis cell_throws :
  buildDayCell ls month year createElement_td d = Thrown e.

Lemma colLoop_before fuel : forall row col tr,
  0 <= row -> 0 <= col -> col + Z.of_nat fuel = 7 -> row * 7 + 7 <= f + d - 1 ->
  colLoop ls month year (Some f) (Some n) fuel row col tr
          (dayCounterAt f n (row * 7 + col))
  = Done (tr ++ (cellAt ls month year f n <$> seqZ (row * 7 + col) (Z.of_nat fuel)),
          dayCounterAt f n (row * 7 + 7)).
Proof using d_in_month cells_before.
  induction fuel as [|fuel IH]; intros row col tr Hrow Hcol Hfuel Hd.
  - cbn [colLoop]. rewrite seqZ_nil by lia. rewrite app_nil_r.
    replace col with 7 by lia. reflexivity.
  - cbn [colLoop]. destruct (Z.ltb_spec col 7) as [_|Hge]; [|lia].
    cbv zeta. set (i := row * 7 + col).
    rewrite seqZ_cons by lia. cbn [fmap list_fmap].
    replace (Z.pred (Z.of_nat (S fuel))) with (Z.of_nat fuel) by lia.
    replace (Z.succ i) with (row * 7 + (col + 1)) by lia.
    unfold cellAt at 1. unfold num_leb.
    destruct (Z.leb_spec f i) as [Hlo|Hlo]; cbn [andb].
    + assert (Hdc : dayCounterAt f n i = i - f + 1) by (unfold dayCounterAt; lia).
      rewrite Hdc.
      destruct (Z.leb_spec (i - f + 1) n); [|lia].
      destruct (Z.ltb_spec i (f + n)); [|lia].
      rewrite cells_before by lia. cbn [andThen].
      replace (i - f + 1 + 1) with (dayCounterAt f n (row * 7 + (col + 1)))
        by (unfold dayCounterAt; lia).
      rewrite IH by lia. rewrite <- app_assoc. reflexivity.
    + cbn [andThen].
      replace (dayCounterAt f n i) with (dayCounterAt f n (row * 7 + (col + 1)))
        by (unfold dayCounterAt; lia).
      rewrite IH by lia. rewrite <- app_assoc. reflexivity.
Qed.

Lemma colLoop_throws fuel : forall row col tr,
  0 <= row -> 0 <= col -> col + Z.of_nat fuel = 7 ->
  row * 7 + col <= f + d - 1 < row * 7 + 7 ->
  colLoop ls month year (Some f) (Some n) fuel row col tr
          (dayCounterAt f n (row * 7 + col))
  = Thrown e.
Proof using d_in_month cells_before cell_throws.
  induction fuel as [|fuel IH]; intros row col tr Hrow Hcol Hfuel Hd; [lia|].
  cbn [colLoop]. destruct (Z.ltb_spec col 7) as [_|Hge]; [|lia].
  cbv zeta. set (i := row * 7 + col) in *. unfold num_leb.
  destruct (Z.leb_spec f i) as [Hlo|Hlo]; cbn [andb].
  - assert (Hdc : dayCounterAt f n i = i - f + 1) by (unfold dayCounterAt; lia).
    rewrite Hdc. destruct (Z.leb_spec (i - f + 1) n); [|lia].
    destruct (Z.eq_dec i (f + d - 1)) as [Hi|Hi].
    + replace (i - f + 1) with d by lia. rewrite cell_throws. reflexivity.
    + rewrite cells_before by lia. cbn [andThen].
      replace (i - f + 1 + 1) with (dayCounterAt f n (row * 7 + (col + 1)))
        by (unfold dayCounterAt; lia).
      apply IH; lia.
  - cbn [andThen].
    replace (dayCounterAt f n i) with (dayCounterAt f n (row * 7 + (col + 1)))
      by (unfold dayCounterAt; lia).
    apply IH; lia.
Qed.

Lemma rowLoop_stops rowCount fuel : forall row body,
  0 <= row <= (f + d - 1) / 7 -> row + Z.of_nat fuel = rowCount ->
  (f + d - 1) / 7 < rowCount ->
  rowLoop ls month year (Some f) (Some n) fuel (Some rowCount) row body
          (dayCounterAt f n (row * 7))
  = (body ++ (rowAt ls month year f n <$> seqZ row ((f + d - 1) / 7 - row)), Some e).
Proof using f_nonneg d_in_month cells_before cell_throws.
  induction fuel as [|fuel IH]; intros row body Hrow Hfuel Hrc; [lia|].
  cbn [rowLoop]. unfold num_ltb.
  destruct (Z.ltb_spec row rowCount) as [_|Hge]; [|lia].
  replace (dayCounterAt f n (row * 7)) with (dayCounterAt f n (row * 7 + 0))
    by (f_equal; lia).
  destruct (Z.eq_dec row ((f + d - 1) / 7)) as [Hr|Hr].
  - rewrite colLoop_throws by (lia || zdiv).
    rewrite seqZ_nil by lia. rewrite app_nil_r. reflexivity.
  - rewrite (colLoop_before 7 row 0 []) by (lia || zdiv).
    rewrite app_nil_l.
    replace (row * 7 + 7) with ((row + 1) * 7) by lia.
    rewrite IH by lia.
    rewrite (seqZ_cons row) by lia. cbn [fmap list_fmap].
    replace (Z.pred ((f + d - 1) / 7 - row)) with ((f + d - 1) / 7 - (row + 1)) by lia.
    replace (Z.succ row) with (row + 1) by lia.
    rewrite <- app_assoc. unfold rowAt at 3.
    replace (row * 7 + 0) with (row * 7) by lia. reflexivity.
Qed.

Lemma td_day_cellAt_before i :
  0 <= i < f + d - 1 ->
  td_day (cellAt ls month year f n i) = if f <=? i then Some (i - f + 1) else None.
Proof using d_in_month cells_before.
  intros Hi. unfold cellAt.
  destruct (Z.leb_spec f i); [|reflexivity].
  destruct (Z.ltb_spec i (f + n)); [|lia]. cbn [andb].
  apply dayCellOf_day, cells_before. lia.
Qed.

End LoopsStop.

(** X10.  When the [Date]s are valid and day [d] is the first day of the
    month whose stored value holds ASCII whitespace, [buildCalendar]
    throws an InvalidCharacterError with the heading already written and
    the table body holding the complete rows before the row of day [d]
    and nothing else: [(firstDay + d - 1) / 7] rows, whose cell number
    [i] shows day [i - firstDay + 1] from [i = firstDay] on and is empty
    before. *)
Theorem buildCalendar_stops_at_whitespace tza ls month year doc f n d v :
  firstDay_of tza month year = Some f -> daysInMonth_of tza month year = Some n ->
  1 <= d <= n ->
  getItem ls (dateStr_of year month d) = Some v -> has_ascii_whitespace v = true ->
  (forall d' v', 1 <= d' < d -> getItem ls (dateStr_of year month d') = Some v' ->
                 has_ascii_whitespace v' = false) ->
  let r := (f + d - 1) / 7 in
  let doc' := (buildCalendar tza ls month year doc).1 in
  (buildCalendar tza ls month year doc).2 = Some InvalidCharacterError /\
  monthYearText doc' = monthNames_at month +:+ " " +:+ Number_toString year /\
  Z.of_nat (length (calendarBody doc')) = r /\
  td_day <$> cells doc'
  = (fun i => if f <=? i then Some (i - f + 1) else None) <$> seqZ 0 (7 * r).
Proof.
  intros Hf Hn Hd Hget Hv Hbefore r doc'.
  pose proof (gridShape_range tza month year) as Hr. unfold gridShape in Hr.
  rewrite Hf, Hn in Hr. destruct Hr as (Hf0 & _ & _ & _).
  assert (Hcells : forall day, 1 <= day < d ->
            buildDayCell ls month year createElement_td day
            = Done (dayCellOf ls month year day)).
  { intros day Hday. apply buildDayCell_Done. intros v' Hv'.
    exact (Hbefore day v' Hday Hv'). }
  pose proof (buildDayCell_throws ls month year d v Hget Hv) as Hthrow.
  assert (Hr0 : 0 <= r) by (subst r; zdiv).
  assert (Hrc : r < - (- (f + n) / 7)) by (subst r; zdiv).
  subst doc'. unfold buildCalendar. cbv zeta. rewrite Hf, Hn.
  cbn [num_add Math_ceil_div calendarBody monthYearText].
  set (rc := - (- (f + n) / 7)) in *.
  pose proof (rowLoop_stops ls month year f n d InvalidCharacterError ltac:(lia) Hd
                Hcells Hthrow rc (Z.to_nat rc) 0 [] ltac:(fold r; lia) ltac:(lia)
                ltac:(fold r; lia)) as H.
  replace (dayCounterAt f n (0 * 7)) with 1 in H by (unfold dayCounterAt; lia).
  rewrite H. fold r. cbn [fst snd monthYearText calendarBody app].
  split; [reflexivity|]. split; [reflexivity|]. split.
  - rewrite length_fmap, length_seqZ. lia.
  - unfold cells. cbn [calendarBody]. rewrite Z.sub_0_r.
    replace r with (Z.of_nat (Z.to_nat r)) at 1 by lia.
    rewrite concat_rows, Z2Nat.id by lia. rewrite <- list_fmap_compose.
    apply Forall_fmap_ext, Forall_seqZ. intros i Hi. cbn.
    apply (td_day_cellAt_before ls month year f n d Hd Hcells). subst r. zdiv.
Qed.

Lemma buildCalendar_stops_at_whitespace_witness :
  let ls : Storage := {["2024-01-10" := "a b"]} in
  let doc' := (buildCalendar 0 ls (Some 0) (Some 2024) emptyDocument).1 in
  (buildCalendar 0 ls (Some 0) (Some 2024) emptyDocument).2 = Some InvalidCharacterError /\
  monthYearText doc' = "January 2024" /\
  Z.of_nat (length (calendarBody doc')) = 1 /\
  td_day <$> cells doc'
  = [None; Some 1; Some 2; Some 3; Some 4; Some 5; Some 6].
Proof.
  intros ls doc'.
  apply (buildCalendar_stops_at_whitespace 0 ls (Some 0) (Some 2024) emptyDocument
           1 31 10 "a b").
  - vm_compute. reflexivity.
  - vm_compute. reflexivity.
  - lia.
  - reflexivity.
  - reflexivity.
  - intros d' v' Hd' Hget. exfalso. unfold getItem in Hget.
    apply lookup_singleton_Some in Hget as [Hkey _].
    assert (E : d' = 10); [|lia].
    apply (dateStr_of_inj_day (Some 2024) (Some 0) d' 10); [lia|lia|].
    symmetry. exact Hkey.
Defined.

(** ** The grid and the store *)

Lemma buildCalendar_any_document tza ls month year doc doc' :
  buildCalendar tza ls month year doc = buildCalendar tza ls month year doc'.
Proof. reflexivity. Qed.

Lemma rebuild_localStorage tza cd p : localStorage (rebuild tza cd p).1 = localStorage p.
Proof.
  unfold rebuild. destruct (buildCalendar _ _ _ _ _) as [doc exn]. reflexivity.
Qed.

(** After a build the grid shows the store, whatever the store holds. *)
Lemma rebuild_shows_store tza cd p : shows_store tza (rebuild tza cd p).1.
Proof.
  unfold shows_store, rebuild.
  destruct (buildCalendar tza (localStorage p) (ES.getMonth tza cd)
              (ES.getFullYear tza cd) (document p)) as [doc exn] eqn:Hb.
  cbn [fst currentDate localStorage document].
  rewrite (buildCalendar_any_document tza (localStorage p) _ _ doc (document p)), Hb.
  reflexivity.
Qed.

Lemma dayCellOf_store_ext ls ls' month year day :
  getItem ls' (dateStr_of year month day) = getItem ls (dateStr_of year month day) ->
  dayCellOf ls' month year day = dayCellOf ls month year day.
Proof.
  intros H. unfold dayCellOf. rewrite !buildDayCell_eq. cbv zeta. rewrite H. reflexivity.
Qed.

Lemma fmap_seqZ_insert {A : Type} (g g' : Z -> A) (lo len : Z) (j : nat) :
  Z.of_nat j < len ->
  (forall i, lo <= i < lo + len -> i <> lo + Z.of_nat j -> g' i = g i) ->
  g' <$> seqZ lo len = <[j := g' (lo + Z.of_nat j)]> (g <$> seqZ lo len).
Proof.
  intros Hj Hext. apply list_eq. intros x.
  destruct (decide (x = j)) as [->|Hne].
  - rewrite list_lookup_insert_eq by (rewrite length_fmap, length_seqZ; lia).
    rewrite list_lookup_fmap.
    rewrite (proj2 (lookup_seqZ lo len j (lo + Z.of_nat j))) by lia. reflexivity.
  - rewrite list_lookup_insert_ne by congruence. rewrite !list_lookup_fmap.
    destruct (seqZ lo len !! x) as [i|] eqn:Hi; [|reflexivity].
    apply lookup_seqZ in Hi as [-> Hi]. cbn. f_equal. apply Hext; lia.
Qed.

(** What option [i] of a grade [select] leaves in the store, and what a
    build makes of that. *)
Lemma option_round_trip key (i : nat) :
  (i < 7)%nat ->
  let w := select_value (gradeSelect key (Some i)) in
  let stored := if String.eqb w "" then None else Some w in
  match stored with
  | Some g => if String.eqb g "" then Some 0%nat else index_of_value g gradeOptions
  | None => Some 0%nat
  end = Some i /\
  forall k, classify (Some w) = Some k -> savedClasses stored = classes_of k.
Proof.
  intros Hi. destruct i as [|[|[|[|[|[|[|j]]]]]]]; [..|lia];
    (split; [reflexivity|]); intros k [= <-]; reflexivity.
Qed.

(** One event keeps a grid that shows a store of grade symbols
    showing it: after a change the table is, cell for cell, the one that
    [buildCalendar] would build from the updated store. *)
Lemma handle_shows_store tza p ev :
  GradeRecord (localStorage p) -> shows_store tza p ->
  shows_store tza (handle tza ev p).1 /\ GradeRecord (localStorage (handle tza ev p).1).
Proof.
  intros Hls Hsync.
  destruct ev as [| | |row col i]; cbn [handle];
    try (split; [apply rebuild_shows_store|];
         unfold DOMContentLoaded, prevMonthClick, nextMonthClick, rebuild; cbv zeta;
         destruct (buildCalendar _ _ _ _ _); exact Hls).
  assert (Hkeep : shows_store tza p /\ GradeRecord (localStorage p))
    by (split; assumption).
  set (month := ES.getMonth tza (currentDate p)) in *.
  set (year := ES.getFullYear tza (currentDate p)) in *.
  unfold shows_store in Hsync. fold month year in Hsync.
  pose proof (buildCalendar_body tza (localStorage p) month year (document p)
                (GradeRecord_whitespace_free _ month year Hls)) as Hbody.
  pose proof (gridShape_range tza month year) as Hshape.
  destruct (gridShape tza month year) as [[f n] k] eqn:Hgrid.
  destruct Hshape as (Hf & Hn & _ & _).
  rewrite Hbody in Hsync. cbn [fst] in Hsync.
  set (rc := - (- (f + n) / 7)) in *.
  unfold selectOption.
  destruct (calendarBody (document p) !! row) as [tr|] eqn:Hrow; [|exact Hkeep].
  destruct (tr !! col) as [td|] eqn:Hcol; [|exact Hkeep].
  destruct (content td) as [c|] eqn:Hc; [|exact Hkeep].
  destruct (Nat.ltb_spec i (length (sel_options (selectEl c)))) as [Hi|Hi];
    [|exact Hkeep].
  clear Hkeep.
  rewrite Hsync in Hrow. cbn [calendarBody] in Hrow.
  destruct (grid_lookup _ _ _ _ _ _ _ _ _ _ Hrow Hcol) as (Hrow' & Hcol' & -> & ->).
  set (idx := Z.of_nat row * 7 + Z.of_nat col) in *.
  apply cellAt_content in Hc as Hin. destruct Hin as [Hin Hcell].
  set (day := idx - f + 1) in *.
  assert (Hday : forall d v, getItem (localStorage p) (dateStr_of year month d) = Some v ->
                             has_ascii_whitespace v = false)
    by (intros d v; apply GradeRecord_no_whitespace, Hls).
  pose proof (dayCellOf_closed (localStorage p) month year day (Hday day)) as Hclosed.
  cbv zeta in Hclosed. set (key := dateStr_of year month day) in *.
  rewrite Hcell, Hclosed in Hc. injection Hc as <-.
  rewrite Hcell, Hclosed. cbn [selectEl dateStr dayNumber sel_options gradeSelect
                                sel_className sel_ariaLabel classList] in *.
  change (length gradeOptions) with 7%nat in Hi.
  change {| sel_className := "grade-select";
            sel_ariaLabel := "Select grade for " +:+ key;
            sel_options := gradeOptions;
            selectedIndex := Some i |} with (gradeSelect key (Some i)).
  set (w := select_value (gradeSelect key (Some i))).
  destruct (savedClasses_classify (getItem (localStorage p) key)) as (k0 & _ & Hk0).
  { intros g Hg. exact (Hls _ _ Hg). }
  destruct (changeListener_classified (localStorage p)
              {| classList := savedClasses (getItem (localStorage p) key);
                 content := Some (mkDayContent day (gradeSelect key (Some i)) key) |}
              key w k0 Hls Hk0 (select_value_option key i Hi))
    as (k' & Hk' & -> & Hls').
  cbn [fst snd localStorage document currentDate calendarBody content].
  split; [|exact Hls'].
  set (ls' := if String.eqb w "" then removeItem (localStorage p) key
              else setItem (localStorage p) key w) in *.
  unfold shows_store. cbn [localStorage document currentDate]. fold month year.
  pose proof (buildCalendar_body tza ls' month year
                {| monthYearText := monthYearText (document p);
                   calendarBody := <[row := <[col :=
                     {| classList := classes_of k';
                        content := Some (mkDayContent day (gradeSelect key (Some i)) key) |}]>
                     (rowAt (localStorage p) month year f n (Z.of_nat row))]>
                     (calendarBody (document p)) |}
                (GradeRecord_whitespace_free _ month year Hls')) as Hbody'.
  rewrite Hgrid in Hbody'. rewrite Hbody'. cbn [fst]. fold rc.
  rewrite Hsync. cbn [monthYearText calendarBody]. f_equal.
  (* the stored value at the key after the event *)
  assert (Hget : getItem ls' key = if String.eqb w "" then None else Some w).
  { subst ls'. unfold getItem, removeItem, setItem.
    destruct (String.eqb w ""); [apply lookup_delete_eq|apply lookup_insert_eq]. }
  assert (Hother : forall d, 1 <= d <= 31 -> d <> day ->
            getItem ls' (dateStr_of year month d)
            = getItem (localStorage p) (dateStr_of year month d)).
  { intros d Hd Hne.
    assert (Hkey : key <> dateStr_of year month d).
    { intros E. apply Hne. symmetry.
      apply (dateStr_of_inj_day year month day d); [subst day; lia|lia|exact E]. }
    subst ls'. unfold getItem, removeItem, setItem.
    destruct (String.eqb w "");
      [apply lookup_delete_ne|apply lookup_insert_ne]; exact Hkey. }
  assert (Hcells : forall j, j <> idx ->
            cellAt ls' month year f n j = cellAt (localStorage p) month year f n j).
  { intros j Hj. unfold cellAt.
    destruct (Z.leb_spec f j), (Z.ltb_spec j (f + n)); cbn [andb]; try reflexivity.
    apply dayCellOf_store_ext, Hother; subst day; lia. }
  assert (Hcell' : cellAt ls' month year f n idx
                   = {| classList := classes_of k';
                        content := Some (mkDayContent day (gradeSelect key (Some i)) key) |}).
  { unfold cellAt. destruct (Z.leb_spec f idx), (Z.ltb_spec idx (f + n)); try lia.
    cbn [andb]. fold day.
    assert (Hws : forall d v, getItem ls' (dateStr_of year month d) = Some v ->
                              has_ascii_whitespace v = false)
      by (intros d v; apply GradeRecord_no_whitespace, Hls').
    rewrite (dayCellOf_closed ls' month year day (Hws day)). cbv zeta. fold key.
    rewrite Hget.
    destruct (option_round_trip key i Hi) as [Hsel Hcl]. cbv zeta in Hsel, Hcl.
    fold w in Hsel, Hcl. rewrite Hsel, (Hcl k' Hk'). reflexivity. }
  symmetry.
  rewrite (fmap_seqZ_insert (rowAt (localStorage p) month year f n)
             (rowAt ls' month year f n) 0 rc row); [|lia|].
  - rewrite Z.add_0_l. f_equal. unfold rowAt.
    rewrite (fmap_seqZ_insert (cellAt (localStorage p) month year f n)
               (cellAt ls' month year f n) (Z.of_nat row * 7) 7 col); [|lia|].
    + fold idx. rewrite Hcell'. reflexivity.
    + intros j Hj Hne. apply Hcells. subst idx. lia.
  - intros r Hr Hne. unfold rowAt. apply Forall_fmap_ext, Forall_seqZ.
    intros j Hj. apply Hcells. subst idx. lia.
Qed.

(** X11.  The grid keeps showing the store.  When the store holds only
    the six grade symbols as the page loads, then after the load and any
    sequence of further events - loads, clicks on the navigation buttons,
    changes of grades - the page is the one that [buildCalendar] builds
    from the store as it then is, for the month and year of
    [currentDate], cell for cell; and the store still holds only grade
    symbols. *)
Theorem grid_shows_store tza p evs :
  GradeRecord (localStorage p) ->
  let p' := run tza (Load :: evs) p in
  shows_store tza p' /\ GradeRecord (localStorage p').
Proof.
  intros Hls p'. subst p'. cbn [run fold_left].
  fold (run tza evs (handle tza Load p).1).
  assert (Hstart : shows_store tza (handle tza Load p).1 /\
                   GradeRecord (localStorage (handle tza Load p).1)).
  { cbn [handle]. unfold DOMContentLoaded. split; [apply rebuild_shows_store|].
    rewrite rebuild_localStorage. exact Hls. }
  revert Hstart. generalize (handle tza Load p).1. clear p Hls.
  induction evs as [|ev evs IH]; intros p [Hsync Hls]; [split; assumption|].
  cbn [run fold_left]. fold (run tza evs (handle tza ev p).1).
  apply IH. exact (handle_shows_store tza p ev Hls Hsync).
Qed.

Lemma grid_shows_store_witness :
  let p0 := {| currentDate := Some 0;
               localStorage := {["1970-01-02" := "A"]};
               document := emptyDocument |} in
  let p' := run 0 [Load; Change 0 5 3; NextMonth; Change 1 2 0; PrevMonth] p0 in
  GradeRecord (localStorage p0) /\
  shows_store 0 p' /\ GradeRecord (localStorage p').
Proof.
  intros p0 p'.
  assert (Hls : GradeRecord (localStorage p0)).
  { apply map_Forall_singleton. unfold grades. rewrite !elem_of_cons. auto. }
  split; [exact Hls|].
  exact (grid_shows_store 0 p0 [Change 0 5 3; NextMonth; Change 1 2 0; PrevMonth] Hls).
Defined.

Lemma changeListener_store ls td key v :
  (changeListener ls td key v).1.1 = ls \/
  (changeListener ls td key v).1.1 = setItem ls key v \/
  (changeListener ls td key v).1.1 = removeItem ls key.
Proof.
  unfold changeListener.
  destruct (removeGradeClasses td) as [td1|e]; [|auto].
  destruct (truthy (Some v)); [|auto].
  destruct (applyGradeClass td1 v) as [td2|e]; auto.
Qed.

(** X12.  The store changes only under the key of the cell whose grade
    was changed: when the value that [getItem] gives for a key differs
    before and after an event, the event is a change of the [select] of a
    cell that holds a day, and the key is that cell's date key.
    Navigation and loading write nothing. *)
Theorem store_changes_only_at_cell_key tza ev p key :
  getItem (localStorage (handle tza ev p).1) key <> getItem (localStorage p) key ->
  exists row col i tr td c,
    ev = Change row col i /\
    calendarBody (document p) !! row = Some tr /\ tr !! col = Some td /\
    content td = Some c /\ dateStr c = key.
Proof.
  intros Hne.
  destruct ev as [| | |row col i]; cbn [handle] in Hne;
    try (exfalso; apply Hne;
         unfold DOMContentLoaded, prevMonthClick, nextMonthClick; cbv zeta;
         rewrite rebuild_localStorage; reflexivity).
  unfold selectOption in Hne.
  destruct (calendarBody (document p) !! row) as [tr|] eqn:Hrow; [|contradiction].
  destruct (tr !! col) as [td|] eqn:Hcol; [|contradiction].
  destruct (content td) as [c|] eqn:Hc; [|contradiction].
  destruct (i <? length (sel_options (selectEl c)))%nat; [|contradiction].
  exists row, col, i, tr, td, c. repeat (split; [reflexivity || assumption|]).
  destruct (decide (dateStr c = key)) as [E|Hkey]; [exact E|]. exfalso. apply Hne.
  match goal with
  | |- context [changeListener ?ls ?td ?k ?v] =>
      pose proof (changeListener_store ls td k v) as Hst;
      destruct (changeListener ls td k v) as [[ls' td'] exn]
  end.
  cbn [fst snd localStorage] in *.
  destruct Hst as [->|[->| ->]]; unfold getItem, setItem, removeItem.
  - reflexivity.
  - apply lookup_insert_ne, Hkey.
  - apply lookup_delete_ne, Hkey.
Qed.

Lemma store_changes_only_at_cell_key_witness :
  let p0 := {| currentDate := Some 0; localStorage := ∅; document := emptyDocument |} in
  let p := (handle 0 Load p0).1 in
  getItem (localStorage (handle 0 (Change 0 5 3) p).1) "1970-01-02" = Some "B" /\
  getItem (localStorage p) "1970-01-02" = None /\
  exists row col i tr td c,
    Change 0 5 3 = Change row col i /\
    calendarBody (document p) !! row = Some tr /\ tr !! col = Some td /\
    content td = Some c /\ dateStr c = "1970-01-02".
Proof.
  intros p0 p.
  assert (H1 : getItem (localStorage (handle 0 (Change 0 5 3) p).1) "1970-01-02" = Some "B")
    by (vm_compute; reflexivity).
  assert (H2 : getItem (localStorage p) "1970-01-02" = None) by (vm_compute; reflexivity).
  split; [exact H1|]. split; [exact H2|].
  apply (store_changes_only_at_cell_key 0 (Change 0 5 3) p "1970-01-02").
  rewrite H1, H2. discriminate.
Defined.

(** X13.  Every cell that a build has put into the table shows what the
    store holds for its own key, for every store, month and year, also
    when the build stops later at an exception: the key of the cell is
    that of its day number; its classes are the one grade class of the
    stored value, none when nothing or the empty string is stored; its
    [select] has the class [grade-select], the label "Select grade for"
    and the key, and the seven options; and the [select] reads the
    stored value when that is one of S, A, B, C, D, F and the empty
    string otherwise. *)
Theorem cell_reflects_stored_value tza ls month year doc td c :
  td ∈ cells (buildCalendar tza ls month year doc).1 -> content td = Some c ->
  dateStr c = dateStr_of year month (dayNumber c) /\
  classList td = savedClasses (getItem ls (dateStr c)) /\
  sel_className (selectEl c) = "grade-select" /\
  sel_ariaLabel (selectEl c) = "Select grade for " +:+ dateStr c /\
  sel_options (selectEl c) = gradeOptions /\
  select_value (selectEl c)
  = match getItem ls (dateStr c) with
    | Some g => if bool_decide (g ∈ grades) then g else ""
    | None => ""
    end.
Proof.
  intros Hin Hc. unfold cells in Hin. apply elem_of_concat in Hin as (tr & Htd & Htr).
  assert (Hall : Forall (Forall (fun td => forall c, content td = Some c ->
            dateStr c = dateStr_of year month (dayNumber c) /\
            classList td = savedClasses (getItem ls (dateStr c)) /\
            sel_className (selectEl c) = "grade-select" /\
            sel_ariaLabel (selectEl c) = "Select grade for " +:+ dateStr c /\
            sel_options (selectEl c) = gradeOptions /\
            select_value (selectEl c)
            = match getItem ls (dateStr c) with
              | Some g => if bool_decide (g ∈ grades) then g else ""
              | None => ""
              end))
            (calendarBody (buildCalendar tza ls month year doc).1)).
  { apply buildCalendar_cells_invariant.
    - intros c' [=].
    - intros day td' _ _ Hbuild c' Hc'. rewrite buildDayCell_eq in Hbuild.
      cbv zeta in Hbuild.
      destruct (getItem ls (dateStr_of year month day)) as [g|] eqn:Hg.
      + destruct (String.eqb_spec g "") as [->|Hne].
        * injection Hbuild as <-. injection Hc' as <-.
          cbn [dateStr dayNumber selectEl classList]. rewrite Hg. repeat split.
        * destruct (validate_token ("grade-" +:+ toLowerCase g)) as [[]|e];
            [|discriminate Hbuild].
          injection Hbuild as <-. injection Hc' as <-.
          cbn [dateStr dayNumber selectEl classList]. rewrite Hg.
          repeat split.
          -- unfold savedClasses. destruct (String.eqb_spec g ""); [contradiction|].
             reflexivity.
          -- apply select_value_after_set.
      + injection Hbuild as <-. injection Hc' as <-.
        cbn [dateStr dayNumber selectEl classList]. rewrite Hg. repeat split. }
  rewrite Forall_forall in Hall. specialize (Hall tr Htr).
  rewrite Forall_forall in Hall. exact (Hall td Htd c Hc).
Qed.

Lemma cell_reflects_stored_value_witness :
  let ls : Storage := {["2024-01-01" := "X"]} in
  exists td c,
    cells (buildCalendar 0 ls (Some 0) (Some 2024) emptyDocument).1 !! 1%nat = Some td /\
    content td = Some c /\
    dateStr c = "2024-01-01" /\
    classList td = ["grade-x"] /\
    select_value (selectEl c) = "" /\
    select_value (selectEl c)
    = match getItem ls (dateStr c) with
      | Some g => if bool_decide (g ∈ grades) then g else ""
      | None => ""
      end.
Proof.
  intros ls.
  destruct (cells (buildCalendar 0 ls (Some 0) (Some 2024) emptyDocument).1 !! 1%nat)
    as [td|] eqn:Htd; [|vm_compute in Htd; discriminate Htd].
  destruct (content td) as [c|] eqn:Hc;
    [|vm_compute in Htd; injection Htd as <-; discriminate Hc].
  exists td, c. split; [reflexivity|]. split; [exact Hc|].
  assert (Hshown : dateStr c = "2024-01-01" /\ classList td = ["grade-x"] /\
                   select_value (selectEl c) = "").
  { vm_compute in Htd. injection Htd as <-. injection Hc as <-. repeat split. }
  destruct Hshown as (H1 & H2 & H3).
  split; [exact H1|]. split; [exact H2|]. split; [exact H3|].
  exact (proj2 (proj2 (proj2 (proj2 (proj2
    (cell_reflects_stored_value 0 ls (Some 0) (Some 2024) emptyDocument td c
       (proj2 (list_elem_of_lookup _ _) (ex_intro _ 1%nat Htd)) Hc)))))).
Defined.

(** ** The two class helpers *)

(** X14.  [applyGradeClass] throws exactly when the grade holds ASCII
    whitespace, and then an InvalidCharacterError; otherwise it adds the
    class ["grade-"] followed by the grade in lower case unless the cell
    has it already, also for the empty grade (class ["grade-"]). *)
Theorem applyGradeClass_throws_iff_whitespace cell grade :
  applyGradeClass cell grade
  = if has_ascii_whitespace grade then Thrown InvalidCharacterError
    else
      let gradeClass := "grade-" +:+ toLowerCase grade in
      Done {| classList := if token_in gradeClass (classList cell) then classList cell
                           else classList cell ++ [gradeClass];
              content := content cell |}.
Proof.
  unfold applyGradeClass, classList_add, validate_token. cbv zeta.
  rewrite has_ascii_whitespace_append, has_ascii_whitespace_toLowerCase.
  change (has_ascii_whitespace "grade-") with false. cbn [orb].
  change ("grade-" +:+ toLowerCase grade)
    with (String "g" ("rade-" +:+ toLowerCase grade)).
  cbn [String.eqb].
  destruct (has_ascii_whitespace grade); reflexivity.
Qed.

Lemma filter_gradeClasses_idem cl :
  List.filter (fun c => negb (token_in c gradeClasses))
    (List.filter (fun c => negb (token_in c gradeClasses)) cl)
  = List.filter (fun c => negb (token_in c gradeClasses)) cl.
Proof.
  induction cl as [|c cl IH]; [reflexivity|]. cbn [List.filter].
  destruct (negb (token_in c gradeClasses)) eqn:Hc; [|exact IH].
  cbn [List.filter]. rewrite Hc, IH. reflexivity.
Qed.

Lemma token_in_filter_gradeClasses t cl :
  token_in t gradeClasses = true ->
  token_in t (List.filter (fun c => negb (token_in c gradeClasses)) cl) = false.
Proof.
  intros Ht. induction cl as [|c cl IH]; [reflexivity|]. cbn [List.filter].
  destruct (negb (token_in c gradeClasses)) eqn:Hc; [|exact IH].
  unfold token_in in *. cbn [existsb]. rewrite IH, orb_false_r.
  destruct (String.eqb_spec t c) as [->|]; [|reflexivity].
  rewrite Ht in Hc. discriminate Hc.
Qed.

Lemma grade_class_of_grade g :
  g ∈ grades -> token_in ("grade-" +:+ toLowerCase g) gradeClasses = true.
Proof.
  intros Hg. destruct (grades_cases g Hg) as [->|[->|[->|[->|[->| ->]]]]]; reflexivity.
Qed.

(** X15.  [removeGradeClasses] never throws and undoes
    [applyGradeClass] for each of the six grades: removing after applying
    gives the cell that removing alone gives, and removing again changes
    nothing. *)
Theorem removeGradeClasses_undoes_applyGradeClass cell g :
  g ∈ grades ->
  exists cell0 cell1,
    removeGradeClasses cell = Done cell0 /\
    applyGradeClass cell g = Done cell1 /\
    removeGradeClasses cell1 = Done cell0 /\
    removeGradeClasses cell0 = Done cell0.
Proof.
  intros Hg. rewrite removeGradeClasses_eq. eexists _, _. split; [reflexivity|].
  unfold applyGradeClass, classList_add.
  rewrite validate_grade_class
    by (destruct (grades_cases g Hg) as [->|[->|[->|[->|[->| ->]]]]]; reflexivity).
  cbn [andThen]. split; [reflexivity|].
  rewrite !removeGradeClasses_eq. cbn [classList content].
  rewrite filter_gradeClasses_idem. split; [|reflexivity].
  destruct (token_in ("grade-" +:+ toLowerCase g) (classList cell)); [reflexivity|].
  rewrite List.filter_app. cbn [List.filter].
  rewrite (grade_class_of_grade g Hg). cbn [negb]. rewrite app_nil_r. reflexivity.
Qed.

Lemma removeGradeClasses_undoes_applyGradeClass_witness :
  exists cell0 cell1,
    removeGradeClasses {| classList := ["today"; "grade-b"]; content := None |} = Done cell0 /\
    applyGradeClass {| classList := ["today"; "grade-b"]; content := None |} "A" = Done cell1 /\
    removeGradeClasses cell1 = Done cell0 /\
    removeGradeClasses cell0 = Done cell0.
Proof.
  apply (removeGradeClasses_undoes_applyGradeClass _ "A").
  unfold grades. rewrite !elem_of_cons. auto.
Defined.

(** ** The change listener, run more than once *)

Lemma changeListener_eq ls td key v :
  has_ascii_whitespace v = false ->
  changeListener ls td key v
  = let cl := List.filter (fun c => negb (token_in c gradeClasses)) (classList td) in
    let gradeClass := "grade-" +:+ toLowerCase v in
    if String.eqb v "" then
      (removeItem ls key, {| classList := cl; content := content td |}, None)
    else
      (setItem ls key v,
       {| classList := if token_in gradeClass cl then cl else cl ++ [gradeClass];
          content := content td |}, None).
Proof.
  intros Hv. unfold changeListener. rewrite removeGradeClasses_eq. unfold truthy.
  destruct (String.eqb v ""); [reflexivity|]. cbn [negb].
  unfold applyGradeClass, classList_add. rewrite validate_grade_class by exact Hv.
  reflexivity.
Qed.

(** X16.  The change listener is idempotent: for a value without ASCII
    whitespace (one of the six symbols or not), running it a second time
    with the same value changes neither the store nor the cell. *)
Theorem changeListener_idempotent ls td key v :
  has_ascii_whitespace v = false ->
  let '(ls1, td1, exn1) := changeListener ls td key v in
  exn1 = None /\ changeListener ls1 td1 key v = (ls1, td1, None).
Proof.
  intros Hv. rewrite (changeListener_eq ls td key v Hv). cbv zeta.
  set (cl := List.filter (fun c => negb (token_in c gradeClasses)) (classList td)).
  set (gc := "grade-" +:+ toLowerCase v).
  assert (Hidem : List.filter (fun c => negb (token_in c gradeClasses)) cl = cl)
    by apply filter_gradeClasses_idem.
  destruct (String.eqb v "") eqn:Hblank.
  - split; [reflexivity|]. rewrite changeListener_eq by exact Hv. cbv zeta.
    rewrite Hblank. cbn [classList content]. rewrite Hidem.
    unfold removeItem. rewrite delete_delete_eq. reflexivity.
  - split; [reflexivity|]. rewrite changeListener_eq by exact Hv. cbv zeta.
    rewrite Hblank. cbn [classList content]. fold gc.
    unfold setItem. rewrite insert_insert_eq. f_equal. f_equal. f_equal.
    destruct (token_in gc cl) eqn:Hin.
    + rewrite Hidem, Hin. reflexivity.
    + rewrite List.filter_app, Hidem. cbn [List.filter].
      destruct (token_in gc gradeClasses) eqn:Hgc; cbn [negb].
      * rewrite app_nil_r, Hin. reflexivity.
      * unfold token_in at 1. rewrite existsb_app. cbn [existsb].
        rewrite String.eqb_refl, orb_true_r. reflexivity.
Qed.

Lemma changeListener_idempotent_witness :
  has_ascii_whitespace "X" = false /\
  let '(ls1, td1, exn1) := changeListener ∅ createElement_td "2024-01-05" "X" in
  exn1 = None /\ changeListener ls1 td1 "2024-01-05" "X" = (ls1, td1, None).
Proof.
  split; [reflexivity|].
  apply (changeListener_idempotent ∅ createElement_td "2024-01-05" "X"). reflexivity.
Defined.

(** X17.  The last selection wins: after the listener has run with a
    value of the control (blank or one of the six symbols), running it
    with a second value leaves the store and the cell as running it with
    the second value alone does. *)
Theorem changeListener_last_selection_wins ls td key v1 v2 :
  v1 = "" \/ v1 ∈ grades -> has_ascii_whitespace v2 = false ->
  let '(ls1, td1, exn1) := changeListener ls td key v1 in
  exn1 = None /\ changeListener ls1 td1 key v2 = changeListener ls td key v2.
Proof.
  intros Hv1 Hv2.
  assert (Hws1 : has_ascii_whitespace v1 = false).
  { destruct Hv1 as [->|Hg]; [reflexivity|].
    destruct (grades_cases v1 Hg) as [->|[->|[->|[->|[->| ->]]]]]; reflexivity. }
  rewrite (changeListener_eq ls td key v1 Hws1). cbv zeta.
  set (cl := List.filter (fun c => negb (token_in c gradeClasses)) (classList td)).
  assert (Hidem : List.filter (fun c => negb (token_in c gradeClasses)) cl = cl)
    by apply filter_gradeClasses_idem.
  assert (Hstore : forall (m : Storage),
            (m = removeItem ls key \/ m = setItem ls key v1) ->
            removeItem m key = removeItem ls key /\
            setItem m key v2 = setItem ls key v2).
  { intros m [->| ->]; unfold removeItem, setItem.
    - rewrite delete_delete_eq, insert_delete_eq. auto.
    - rewrite delete_insert_eq, insert_insert_eq. auto. }
  destruct (String.eqb v1 "") eqn:Hblank.
  - split; [reflexivity|]. rewrite !changeListener_eq by exact Hv2. cbv zeta.
    cbn [classList content]. rewrite Hidem.
    destruct (Hstore (removeItem ls key) ltac:(auto)) as [-> ->]. reflexivity.
  - destruct Hv1 as [->|Hg]; [discriminate Hblank|].
    split; [reflexivity|]. rewrite !changeListener_eq by exact Hv2. cbv zeta.
    cbn [classList content].
    replace (token_in ("grade-" +:+ toLowerCase v1) cl) with false
      by (symmetry; apply token_in_filter_gradeClasses, grade_class_of_grade, Hg).
    rewrite List.filter_app, Hidem. cbn [List.filter].
    rewrite (grade_class_of_grade v1 Hg). cbn [negb]. rewrite app_nil_r.
    destruct (Hstore (setItem ls key v1) ltac:(auto)) as [-> ->]. reflexivity.
Qed.

Lemma changeListener_last_selection_wins_witness :
  let '(ls1, td1, exn1) := changeListener ∅ createElement_td "2024-01-05" "A" in
  exn1 = None /\
  changeListener ls1 td1 "2024-01-05" "B"
  = changeListener ∅ createElement_td "2024-01-05" "B".
Proof.
  apply (changeListener_last_selection_wins ∅ createElement_td "2024-01-05" "A" "B").
  - right. unfold grades. rewrite !elem_of_cons. auto.
  - reflexivity.
Defined.

(** X18.  Given a value with ASCII whitespace the listener throws an
    InvalidCharacterError after it has removed the six grade classes from
    the cell and before it writes: the store is as it was. *)
Theorem changeListener_throws_on_whitespace ls td key v :
  has_ascii_whitespace v = true ->
  changeListener ls td key v
  = (ls,
     {| classList := List.filter (fun c => negb (token_in c gradeClasses)) (classList td);
        content := content td |},
     Some InvalidCharacterError).
Proof.
  intros Hv. unfold changeListener. rewrite removeGradeClasses_eq. unfold truthy.
  destruct (String.eqb_spec v "") as [->|_]; [discriminate Hv|]. cbn [negb].
  unfold applyGradeClass, classList_add, validate_token.
  rewrite has_ascii_whitespace_append, has_ascii_whitespace_toLowerCase, Hv.
  reflexivity.
Qed.

Lemma changeListener_throws_on_whitespace_witness :
  changeListener {["2024-01-05" := "A"]}
    {| classList := ["grade-a"]; content := None |} "2024-01-05" "a b"
  = ({["2024-01-05" := "A"]}, {| classList := []; content := None |},
     Some InvalidCharacterError).
Proof.
  apply (changeListener_throws_on_whitespace {["2024-01-05" := "A"]}
           {| classList := ["grade-a"]; content := None |} "2024-01-05" "a b").
  reflexivity.
Defined.

(** ** Navigation *)

(** [MakeDay] of the fields of a time is the day of that time. *)
Lemma Day_of_fields t :
  ES.Day t
  = ES.DayFromYear (ES.YearFromTime t)
    + ES.DayOfMonthStart (ES.MonthFromTime t) (ES.InLeapYear t)
    + ES.DateFromTime t - 1.
Proof.
  unfold ES.DateFromTime, ES.MonthFromTime, ES.DayWithinYear. cbv zeta.
  set (d := ES.Day t - ES.DayFromYear (ES.YearFromTime t)).
  set (l := ES.InLeapYear t).
  replace (ES.Day t) with (ES.DayFromYear (ES.YearFromTime t) + d) by (subst d; lia).
  clearbody d l.
  repeat match goal with
         | |- context [?a <? ?b] => destruct (a <? b)
         end; cbv beta iota zeta delta [ES.DayOfMonthStart]; lia.
Qed.

Lemma InLeapYear_is_leap_year t :
  ES.InLeapYear t = if is_leap_year (ES.YearFromTime t) then 1 else 0.
Proof.
  unfold ES.InLeapYear. rewrite DaysInYear_leap.
  destruct (is_leap_year (ES.YearFromTime t)); reflexivity.
Qed.

(** The time value that [setMonth] leaves, while the target year is
    within the range of [Date]. *)
Lemma setMonth_value tza t0 m :
  zone_offset tza ->
  let t := t0 + tza in
  let ym := ES.YearFromTime t + m / 12 in
  let mn := m mod 12 in
  let l := if is_leap_year ym then 1 else 0 in
  let day := ES.DayFromYear ym + ES.DayOfMonthStart mn l + ES.DateFromTime t - 1 in
  -271820 <= ym <= 275759 ->
  ES.setMonth tza (Some t0) (Some m)
  = Some (day * ES.msPerDay + ES.TimeWithinDay t - tza).
Proof.
  intros Htza t ym mn l day Hym.
  unfold ES.setMonth, ES.LocalTime, ES.MakeDay, ES.MakeDate, ES.UTC, ES.TimeClip.
  cbv zeta. fold t ym mn. rewrite DaysInYear_leap.
  replace (if (if is_leap_year ym then 366 else 365) =? 366 then 1 else 0) with l
    by (subst l; destruct (is_leap_year ym); reflexivity).
  fold day.
  pose proof (DateFromTime_range t) as Hdt.
  pose proof (TimeWithinDay_range t) as Htw.
  assert (Hl : 0 <= l <= 1) by (subst l; destruct (is_leap_year ym); lia).
  pose proof (DayOfMonthStart_range mn l Hl) as Hs.
  pose proof (DayFromYear_in_range ym ltac:(lia)) as Hd.
  pose proof (DayFromYear_lt ym 275760 ltac:(lia)) as Hup.
  pose proof (DayFromYear_in_range 275760 ltac:(lia)) as Htop.
  unfold zone_offset, ES.msPerDay in *.
  destruct (Z.ltb_spec 8640000000000000
              (Z.abs (day * 86400000 + ES.TimeWithinDay t - tza))) as [Hbig|_];
    [exfalso; subst day; lia|reflexivity].
Qed.

Lemma TimeWithinDay_MakeDate d tw :
  0 <= tw < ES.msPerDay -> ES.TimeWithinDay (d * ES.msPerDay + tw) = tw.
Proof. unfold ES.TimeWithinDay, ES.msPerDay. intros. zdiv. Qed.

(** The fields of the time that [setMonth] leaves, for any day of the
    month. *)
Lemma setMonth_lands tza t0 m :
  zone_offset tza -> -1 <= m <= 12 ->
  -271819 <= ES.YearFromTime (t0 + tza) <= 275758 ->
  let t := t0 + tza in
  let ym := ES.YearFromTime t + m / 12 in
  let mn := m mod 12 in
  exists t1,
    ES.setMonth tza (Some t0) (Some m) = Some t1 /\
    (ES.YearFromTime (t1 + tza), ES.MonthFromTime (t1 + tza), ES.DateFromTime (t1 + tza))
    = lands_in (ym, mn) (ES.DateFromTime t).
Proof.
  intros Htza Hm Hy t ym mn.
  set (dt := ES.DateFromTime t). set (tw := ES.TimeWithinDay t).
  pose proof (DateFromTime_range t) as Hdt. fold dt in Hdt.
  pose proof (TimeWithinDay_range t) as Htw. fold tw in Htw.
  assert (Hym : -271820 <= ym <= 275759) by (subst ym; unfold t; zdiv).
  assert (Hmn : 0 <= mn <= 11) by (subst mn; zdiv).
  pose proof (setMonth_value tza t0 m Htza) as Hv. cbv zeta in Hv.
  fold t ym mn dt tw in Hv. specialize (Hv Hym).
  eexists. split; [exact Hv|].
  match goal with
  | |- context [?a * ES.msPerDay + tw - tza + tza] =>
      replace (a * ES.msPerDay + tw - tza + tza) with (a * ES.msPerDay + tw) by lia
  end.
  pose proof (gregorian_daysInMonth_range ym mn) as Hdim.
  unfold lands_in. destruct (Z.leb_spec dt (gregorian_daysInMonth ym mn)) as [Hin|Hover].
  - pose proof (fields_of_civil_date ym mn dt tw Hmn ltac:(lia) Htw) as Hf.
    cbv zeta in Hf. destruct Hf as (-> & -> & ->). reflexivity.
  - pose proof (day_0_of_next_month ym mn Hmn) as Hnext. cbv zeta in Hnext.
    set (ym' := ym + (mn + 1) / 12) in *. set (mn' := (mn + 1) mod 12) in *.
    assert (Hmn' : 0 <= mn' <= 11) by (subst mn'; zdiv).
    pose proof (gregorian_daysInMonth_range ym' mn') as Hdim'.
    pose proof (fields_of_civil_date ym' mn' (dt - gregorian_daysInMonth ym mn) tw
                  Hmn' ltac:(lia) Htw) as Hf.
    cbv zeta in Hf.
    replace (ES.DayFromYear ym' + ES.DayOfMonthStart mn' (if is_leap_year ym' then 1 else 0)
             + (dt - gregorian_daysInMonth ym mn) - 1)
      with (ES.DayFromYear ym + ES.DayOfMonthStart mn (if is_leap_year ym then 1 else 0)
            + dt - 1) in Hf by lia.
    destruct Hf as (-> & -> & ->).
    unfold month_after. subst ym' mn'.
    destruct (Z.eqb_spec mn 11) as [->|Hne].
    + reflexivity.
    + replace ((mn + 1) / 12) with 0 by zdiv.
      replace ((mn + 1) mod 12) with (mn + 1) by zdiv.
      rewrite Z.add_0_r. reflexivity.
Qed.

(** X19.  What the two buttons do from any day of the month.  "next" asks
    for the same day of the month in the month after the one of
    [currentDate], "previous" for that day in the month before.  When
    the month asked for has that day, [currentDate] moves there; when it
    is shorter, [currentDate] lands as many days into the month after it
    as the day exceeds its length: from 31 March "next" lands on 1 May
    and "previous" on 3 March (2 March in a leap year), still in
    March. *)
Theorem navigation_from_any_day tza p t0 :
  zone_offset tza -> currentDate p = Some t0 ->
  -271819 <= ES.YearFromTime (t0 + tza) <= 275758 ->
  let year := ES.YearFromTime (t0 + tza) in
  let month := ES.MonthFromTime (t0 + tza) in
  let date := ES.DateFromTime (t0 + tza) in
  exists tn tp,
    currentDate (nextMonthClick tza p).1 = Some tn /\
    currentDate (prevMonthClick tza p).1 = Some tp /\
    (ES.YearFromTime (tn + tza), ES.MonthFromTime (tn + tza), ES.DateFromTime (tn + tza))
    = lands_in (month_after year month) date /\
    (ES.YearFromTime (tp + tza), ES.MonthFromTime (tp + tza), ES.DateFromTime (tp + tza))
    = lands_in (month_before year month) date.
Proof.
  intros Htza Hcd Hy year month date.
  pose proof (MonthFromTime_range (t0 + tza)) as Hm. fold month in Hm.
  unfold nextMonthClick, prevMonthClick. cbv zeta.
  rewrite !rebuild_currentDate, Hcd.
  cbn [ES.getMonth num_add num_sub]. unfold ES.LocalTime. fold month.
  destruct (setMonth_lands tza t0 (month + 1) Htza ltac:(lia) Hy) as (t1 & -> & H1).
  destruct (setMonth_lands tza t0 (month - 1) Htza ltac:(lia) Hy) as (t2 & -> & H2).
  cbv zeta in H1, H2. fold year date in H1, H2.
  exists t1, t2. split; [reflexivity|]. split; [reflexivity|].
  assert (Hn : month_after year month = (year + (month + 1) / 12, (month + 1) mod 12)).
  { unfold month_after. destruct (Z.eqb_spec month 11) as [->|Hne]; [reflexivity|].
    replace ((month + 1) / 12) with 0 by zdiv.
    replace ((month + 1) mod 12) with (month + 1) by zdiv.
    rewrite Z.add_0_r. reflexivity. }
  assert (Hp : month_before year month = (year + (month - 1) / 12, (month - 1) mod 12)).
  { unfold month_before. destruct (Z.eqb_spec month 0) as [->|Hne]; [reflexivity|].
    replace ((month - 1) / 12) with 0 by zdiv.
    replace ((month - 1) mod 12) with (month - 1) by zdiv.
    rewrite Z.add_0_r. reflexivity. }
  rewrite Hn, Hp. split; assumption.
Qed.

Lemma navigation_from_any_day_witness :
  let p := {| currentDate := ES.Date_new 0 (Some 2023) (Some 2) (Some 31);
              localStorage := ∅; document := emptyDocument |} in
  exists tn tp,
    currentDate (nextMonthClick 0 p).1 = Some tn /\
    currentDate (prevMonthClick 0 p).1 = Some tp /\
    (ES.YearFromTime (tn + 0), ES.MonthFromTime (tn + 0), ES.DateFromTime (tn + 0))
    = (2023, 4, 1) /\
    (ES.YearFromTime (tp + 0), ES.MonthFromTime (tp + 0), ES.DateFromTime (tp + 0))
    = (2023, 2, 3).
Proof.
  intros p.
  apply (navigation_from_any_day 0 p 1680220800000).
  - unfold zone_offset, ES.msPerDay. lia.
  - vm_compute. reflexivity.
  - vm_compute. split; discriminate.
Defined.

(** One month on and one month back (or back and on) from a day that
    every month has. *)
Lemma setMonth_there_and_back tza t0 s :
  s = 1 \/ s = -1 -> zone_offset tza ->
  -271819 <= ES.YearFromTime (t0 + tza) <= 275758 ->
  ES.DateFromTime (t0 + tza) <= 28 ->
  exists t1,
    ES.setMonth tza (Some t0) (Some (ES.MonthFromTime (t0 + tza) + s)) = Some t1 /\
    ES.setMonth tza (Some t1) (Some (ES.MonthFromTime (t1 + tza) - s)) = Some t0.
Proof.
  intros Hs Htza Hy Hdt.
  set (t := t0 + tza) in *.
  set (y := ES.YearFromTime t) in *. set (mo := ES.MonthFromTime t) in *.
  set (dt := ES.DateFromTime t) in *. set (tw := ES.TimeWithinDay t).
  pose proof (MonthFromTime_range t) as Hmo. fold mo in Hmo.
  pose proof (DateFromTime_range t) as Hdt1. fold dt in Hdt1.
  pose proof (TimeWithinDay_range t) as Htw. fold tw in Htw.
  set (ym := y + (mo + s) / 12). set (mn := (mo + s) mod 12).
  assert (Hym : -271820 <= ym <= 275759) by (subst ym; zdiv).
  assert (Hmn : 0 <= mn <= 11) by (subst mn; zdiv).
  pose proof (setMonth_value tza t0 (mo + s) Htza) as H1. cbv zeta in H1.
  fold t y dt tw ym mn in H1. specialize (H1 Hym).
  set (l := if is_leap_year ym then 1 else 0) in *.
  set (day1 := ES.DayFromYear ym + ES.DayOfMonthStart mn l + dt - 1) in *.
  exists (day1 * ES.msPerDay + tw - tza). split; [exact H1|].
  replace (day1 * ES.msPerDay + tw - tza + tza) with (day1 * ES.msPerDay + tw) by lia.
  pose proof (gregorian_daysInMonth_range ym mn) as Hdim.
  pose proof (fields_of_civil_date ym mn dt tw Hmn ltac:(lia) Htw) as Hfields.
  cbv zeta in Hfields. fold l day1 in Hfields. destruct Hfields as (Hy1 & Hm1 & Hd1).
  rewrite Hm1.
  pose proof (setMonth_value tza (day1 * ES.msPerDay + tw - tza) (mn - s) Htza) as H2.
  cbv zeta in H2.
  replace (day1 * ES.msPerDay + tw - tza + tza) with (day1 * ES.msPerDay + tw) in H2
    by lia.
  rewrite Hy1, Hd1, TimeWithinDay_MakeDate in H2 by exact Htw.
  assert (Hback : ym + (mn - s) / 12 = y /\ (mn - s) mod 12 = mo)
    by (subst ym mn; destruct Hs as [-> | ->]; zdiv).
  destruct Hback as [Hyb Hmb]. rewrite Hyb, Hmb in H2.
  rewrite H2 by lia. f_equal.
  pose proof (Day_of_fields t) as Hday. rewrite InLeapYear_is_leap_year in Hday.
  fold y mo dt in Hday. rewrite <- Hday.
  unfold ES.Day, ES.TimeWithinDay, ES.msPerDay in *. subst tw t.
  unfold ES.TimeWithinDay, ES.msPerDay. zdiv.
Qed.

(** X20.  On a host whose zone is one constant offset from UTC, from a
    day of the month up to 28, "next" then "previous", and "previous"
    then "next", lead back to the very same page that a load gives: the
    same time value in [currentDate], the same store, the same grid and
    the same exception, if any.  (Across a change of offset the time of
    day can move: see [New_York_February_2024].) *)
Theorem navigation_round_trip tza p t0 :
  zone_offset tza -> currentDate p = Some t0 ->
  -271819 <= ES.YearFromTime (t0 + tza) <= 275758 ->
  ES.DateFromTime (t0 + tza) <= 28 ->
  prevMonthClick tza (nextMonthClick tza p).1 = DOMContentLoaded tza p /\
  nextMonthClick tza (prevMonthClick tza p).1 = DOMContentLoaded tza p.
Proof.
  intros Htza Hcd Hy Hdt.
  destruct (setMonth_there_and_back tza t0 1 ltac:(auto) Htza Hy Hdt)
    as (t1 & Hnext & Hback).
  destruct (setMonth_there_and_back tza t0 (-1) ltac:(auto) Htza Hy Hdt)
    as (t2 & Hprev & Hforth).
  unfold prevMonthClick, nextMonthClick, DOMContentLoaded. cbv zeta.
  rewrite !rebuild_currentDate, Hcd.
  cbn [ES.getMonth num_add num_sub]. unfold ES.LocalTime.
  replace (ES.MonthFromTime (t0 + tza) - 1) with (ES.MonthFromTime (t0 + tza) + -1) by lia.
  rewrite Hnext, Hprev. cbn [ES.getMonth num_add num_sub]. unfold ES.LocalTime.
  replace (ES.MonthFromTime (t2 + tza) + 1) with (ES.MonthFromTime (t2 + tza) - -1) by lia.
  rewrite Hback, Hforth.
  unfold rebuild.
  split.
  - rewrite (buildCalendar_any_document tza (localStorage p)
               (ES.getMonth tza (Some t1)) (ES.getFullYear tza (Some t1))
               (document p) emptyDocument).
    destruct (buildCalendar tza (localStorage p) (ES.getMonth tza (Some t1))
                (ES.getFullYear tza (Some t1)) emptyDocument) as [doc1 exn1].
    cbn [fst localStorage document].
    rewrite (buildCalendar_any_document tza (localStorage p)
               (ES.getMonth tza (Some t0)) (ES.getFullYear tza (Some t0))
               doc1 (document p)).
    reflexivity.
  - rewrite (buildCalendar_any_document tza (localStorage p)
               (ES.getMonth tza (Some t2)) (ES.getFullYear tza (Some t2))
               (document p) emptyDocument).
    destruct (buildCalendar tza (localStorage p) (ES.getMonth tza (Some t2))
                (ES.getFullYear tza (Some t2)) emptyDocument) as [doc1 exn1].
    cbn [fst localStorage document].
    rewrite (buildCalendar_any_document tza (localStorage p)
               (ES.getMonth tza (Some t0)) (ES.getFullYear tza (Some t0))
               doc1 (document p)).
    reflexivity.
Qed.

Lemma navigation_round_trip_witness :
  let p := {| currentDate := ES.Date_new 0 (Some 2024) (Some 0) (Some 15);
              localStorage := ∅; document := emptyDocument |} in
  prevMonthClick 0 (nextMonthClick 0 p).1 = DOMContentLoaded 0 p /\
  nextMonthClick 0 (prevMonthClick 0 p).1 = DOMContentLoaded 0 p.
Proof.
  intros p.
  apply (navigation_round_trip 0 p 1705276800000).
  - unfold zone_offset, ES.msPerDay. lia.
  - vm_compute. reflexivity.
  - vm_compute. split; discriminate.
  - vm_compute. discriminate.
Defined.

Lemma selectOption_currentDate p row col i :
  currentDate (selectOption p row col i).1 = currentDate p.
Proof.
  unfold selectOption.
  destruct (calendarBody (document p) !! row) as [tr|]; [|reflexivity].
  destruct (tr !! col) as [td|]; [|reflexivity].
  destruct (content td) as [c|]; [|reflexivity].
  destruct (i <? length (sel_options (selectEl c)))%nat; [|reflexivity].
  match goal with
  | |- context [changeListener ?ls ?td ?k ?v] =>
      destruct (changeListener ls td k v) as [[ls' td'] exn]
  end.
  reflexivity.
Qed.

(** X21.  Walks.  On a host whose zone is one constant offset from UTC,
    from a day of the month up to 28, any sequence of events moves
    [currentDate] by exactly as many months as the sequence has clicks on
    "next" minus clicks on "previous" (counting 12 months to the year),
    and keeps the day of the month; loads and grade changes do not move
    it.  The year must stay within the range of [Date].  (Where the zone
    skips the day asked for, the day moves on: see
    [Kwajalein_July_1993].) *)
Theorem navigation_walk tza evs : forall p t0,
  zone_offset tza -> currentDate p = Some t0 ->
  ES.DateFromTime (t0 + tza) <= 28 ->
  -271819 + Z.of_nat (length evs) <= ES.YearFromTime (t0 + tza)
    <= 275758 - Z.of_nat (length evs) ->
  exists t,
    currentDate (run tza evs p) = Some t /\
    12 * ES.YearFromTime (t + tza) + ES.MonthFromTime (t + tza)
    = 12 * ES.YearFromTime (t0 + tza) + ES.MonthFromTime (t0 + tza) + net_months evs /\
    ES.DateFromTime (t + tza) = ES.DateFromTime (t0 + tza).
Proof.
  induction evs as [|ev evs IH]; intros p t0 Htza Hcd Hdt Hy.
  - exists t0. cbn. split; [exact Hcd|]. split; [lia|reflexivity].
  - cbn [length] in Hy. cbn [run fold_left]. fold (run tza evs (handle tza ev p).1).
    pose proof (MonthFromTime_range (t0 + tza)) as Hmo.
    assert (Hstep : exists t1,
              currentDate (handle tza ev p).1 = Some t1 /\
              ES.YearFromTime (t1 + tza)
              = ES.YearFromTime (t0 + tza)
                + (ES.MonthFromTime (t0 + tza) + month_shift ev) / 12 /\
              ES.MonthFromTime (t1 + tza)
              = (ES.MonthFromTime (t0 + tza) + month_shift ev) mod 12 /\
              ES.DateFromTime (t1 + tza) = ES.DateFromTime (t0 + tza)).
    { assert (Hsame : currentDate (handle tza ev p).1 = currentDate p ->
                      month_shift ev = 0 ->
                exists t1, currentDate (handle tza ev p).1 = Some t1 /\
                  ES.YearFromTime (t1 + tza)
                  = ES.YearFromTime (t0 + tza)
                    + (ES.MonthFromTime (t0 + tza) + month_shift ev) / 12 /\
                  ES.MonthFromTime (t1 + tza)
                  = (ES.MonthFromTime (t0 + tza) + month_shift ev) mod 12 /\
                  ES.DateFromTime (t1 + tza) = ES.DateFromTime (t0 + tza)).
      { intros Hc Hs. exists t0. rewrite Hc, Hs, Z.add_0_r.
        split; [exact Hcd|]. split; [zdiv|]. split; [zdiv|reflexivity]. }
      destruct ev as [| | |row col i]; cbn [handle month_shift] in *.
      - apply Hsame; [|reflexivity]. unfold DOMContentLoaded.
        apply rebuild_currentDate.
      - unfold prevMonthClick. cbv zeta. rewrite rebuild_currentDate, Hcd.
        cbn [ES.getMonth num_sub]. unfold ES.LocalTime.
        replace (ES.MonthFromTime (t0 + tza) - 1)
          with (ES.MonthFromTime (t0 + tza) + -1) by lia.
        apply setMonth_fields; lia || assumption.
      - unfold nextMonthClick. cbv zeta. rewrite rebuild_currentDate, Hcd.
        cbn [ES.getMonth num_add]. unfold ES.LocalTime.
        apply setMonth_fields; lia || assumption.
      - apply Hsame; [|reflexivity]. apply selectOption_currentDate. }
    destruct Hstep as (t1 & Hcd1 & Hy1 & Hm1 & Hd1).
    assert (Hshift : -1 <= month_shift ev <= 1) by (destruct ev; cbn; lia).
    destruct (IH (handle tza ev p).1 t1 Htza Hcd1 ltac:(lia)) as (t & Ht & Hidx & Hday).
    { rewrite Hy1. zdiv. }
    exists t. split; [exact Ht|]. split; [|lia].
    rewrite Hidx, Hy1, Hm1. cbn [net_months foldr]. fold (net_months evs). zdiv.
Qed.

Lemma navigation_walk_witness :
  let p := {| currentDate := ES.Date_new 0 (Some 2023) (Some 10) (Some 15);
              localStorage := ∅; document := emptyDocument |} in
  exists t,
    currentDate (run 0 [NextMonth; NextMonth; Load; PrevMonth; NextMonth; NextMonth] p)
    = Some t /\
    12 * ES.YearFromTime (t + 0) + ES.MonthFromTime (t + 0)
    = 12 * ES.YearFromTime (1700006400000 + 0) + ES.MonthFromTime (1700006400000 + 0)
      + net_months [NextMonth; NextMonth; Load; PrevMonth; NextMonth; NextMonth] /\
    ES.DateFromTime (t + 0) = ES.DateFromTime (1700006400000 + 0).
Proof.
  intros p.
  apply (navigation_walk 0 [NextMonth; NextMonth; Load; PrevMonth; NextMonth; NextMonth]
           p 1700006400000).
  - unfold zone_offset, ES.msPerDay. lia.
  - vm_compute. reflexivity.
  - vm_compute. discriminate.
  - vm_compute. split; discriminate.
Defined.

(** X22.  An invalid [currentDate] stays invalid: on a page whose
    [currentDate] is NaN, a load and both navigation clicks leave it NaN,
    write the heading "undefined NaN", leave the table body empty and
    raise nothing. *)
Theorem invalid_currentDate_is_absorbing tza p ev :
  currentDate p = None -> ev = Load \/ ev = PrevMonth \/ ev = NextMonth ->
  handle tza ev p
  = ({| currentDate := None;
        localStorage := localStorage p;
        document := {| monthYearText := "undefined NaN"; calendarBody := [] |} |},
     None).
Proof.
  intros Hcd [->|[->| ->]]; cbn [handle];
    unfold DOMContentLoaded, prevMonthClick, nextMonthClick; cbv zeta;
    rewrite Hcd; reflexivity.
Qed.

Lemma invalid_currentDate_is_absorbing_witness :
  let p0 := {| currentDate := ES.Date_new 0 (Some 275760) (Some 8) (Some 1);
               localStorage := ∅; document := emptyDocument |} in
  let p := (handle 0 NextMonth p0).1 in
  currentDate p0 = Some 8639998963200000 /\ currentDate p = None /\
  handle 0 PrevMonth p
  = ({| currentDate := None;
        localStorage := ∅;
        document := {| monthYearText := "undefined NaN"; calendarBody := [] |} |},
     None).
Proof.
  intros p0 p.
  assert (Hp : currentDate p = None) by (vm_compute; reflexivity).
  split; [vm_compute; reflexivity|]. split; [exact Hp|].
  exact (invalid_currentDate_is_absorbing 0 p PrevMonth Hp (or_intror (or_introl eq_refl))).
Defined.

(** X23.  While [currentDate] is valid the heading names its month:
    after a load or a navigation click, also when the build throws, the
    heading is the name of the month of the new [currentDate], a space
    and its full year, never "undefined". *)
Theorem heading_names_current_month tza p ev t :
  ev = Load \/ ev = PrevMonth \/ ev = NextMonth ->
  currentDate (handle tza ev p).1 = Some t ->
  exists name,
    nth_error monthNames (Z.to_nat (ES.MonthFromTime (t + tza))) = Some name /\
    monthYearText (document (handle tza ev p).1)
    = name +:+ " " +:+ Number_toString (Some (ES.YearFromTime (t + tza))).
Proof.
  intros Hev Hcd.
  assert (Hre : exists cd, handle tza ev p = rebuild tza cd p)
    by (destruct Hev as [->|[->| ->]]; eexists; reflexivity).
  destruct Hre as [cd Hre]. rewrite Hre in *. rewrite rebuild_currentDate in Hcd.
  subst cd. unfold rebuild.
  pose proof (MonthFromTime_range (t + tza)) as Hm.
  destruct (nth_error monthNames (Z.to_nat (ES.MonthFromTime (t + tza))))
    as [name|] eqn:Hname.
  2:{ apply nth_error_None in Hname. cbn in Hname. lia. }
  exists name. split; [reflexivity|].
  unfold buildCalendar. cbv zeta.
  match goal with
  | |- context [rowLoop ?a ?b ?c ?d ?e ?f ?g ?h ?i ?j] =>
      destruct (rowLoop a b c d e f g h i j) as [body exn]
  end.
  cbn [fst document monthYearText ES.getMonth ES.getFullYear]. unfold ES.LocalTime.
  unfold monthNames_at. destruct (Z.ltb_spec (ES.MonthFromTime (t + tza)) 0); [lia|].
  rewrite Hname. reflexivity.
Qed.

Lemma heading_names_current_month_witness :
  let p := {| currentDate := ES.Date_new 0 (Some 2023) (Some 11) (Some 15);
              localStorage := {["2024-01-02" := "a b"]}; document := emptyDocument |} in
  (handle 0 NextMonth p).2 = Some InvalidCharacterError /\
  exists name,
    nth_error monthNames (Z.to_nat (ES.MonthFromTime (1705276800000 + 0))) = Some name /\
    monthYearText (document (handle 0 NextMonth p).1)
    = name +:+ " " +:+ Number_toString (Some (ES.YearFromTime (1705276800000 + 0))).
Proof.
  intros p. split; [vm_compute; reflexivity|].
  apply (heading_names_current_month 0 p NextMonth 1705276800000).
  - right. right. reflexivity.
  - vm_compute. reflexivity.
Defined.
